(** * WebpackCompilerService: the bundler supervisor and its hash-chain reconciler

    A shallow embedding of the class [WebpackCompilerService] and of the
    event plumbing around it.  JavaScript strings are Rocq strings whose
    characters are the code units 0..255; the dictionaries [webpackProcesses]
    and [expectedHashes] are [gmap]s keyed by the platform name (platform
    names are not property names of [Object.prototype]); a call that can
    throw returns a [result]. *)

From Stdlib Require Import ZArith Ascii String.
From stdpp Require Import base decidable option list strings pretty gmap.

Local Open Scope Z_scope.
Local Open Scope string_scope.

(** ** Exceptions *)

(** The value of [exitCode] in the close handlers: a number, [null] or
    [undefined]. *)
Inductive ExitCode : Type :=
  | CodeNumber (n : Z)
  | CodeNull
  | CodeUndefined.

(** The exception objects that occur: the [TypeError] raised by the runtime
    on a property access through [null] or [undefined], the [Error] built by
    the close handlers with the exit code in its [code] field, and the errors
    that collaborators raise. *)
Inductive JsError : Type :=
  | TypeError (message : string)
  | ExitError (message : string) (code : ExitCode)
  | OtherError (message : string).

Inductive result (A : Type) : Type :=
  | Ok (value : A)
  | Throw (error : JsError).

Arguments Ok {A} value.
Arguments Throw {A} error.

Global Instance result_ret : MRet result := fun A a => Ok a.

Global Instance result_bind : MBind result := fun A B k r =>
  match r with
  | Ok a => k a
  | Throw e => Throw e
  end.

(** ** String primitives of the JavaScript runtime *)

Module Js.

Definition chars (s : string) : list ascii := list_ascii_of_string s.
Definition str (l : list ascii) : string := string_of_list_ascii l.

(** [s.endsWith(suffix)] *)
Definition endsWith (s suffix : string) : bool :=
  bool_decide (chars suffix `suffix_of` chars s).

(** [s.indexOf(needle)]: the first position at which [needle] occurs, or -1. *)
Fixpoint indexOfFrom (needle s : list ascii) (i : Z) : Z :=
  if bool_decide (needle `prefix_of` s) then i
  else match s with
       | [] => -1
       | _ :: s' => indexOfFrom needle s' (i + 1)
       end.

Definition indexOf (s needle : string) : Z :=
  indexOfFrom (chars needle) (chars s) 0.

(** [_.difference(array, values)]: the elements of [array] that do not occur
    in [values], in their order and with their repetitions. *)
Definition difference (array values : list string) : list string :=
  list_difference array values.

(** *** The regular expression [/^(.+)\.(.+)\.hot-update/gm]

    [exec] on a fresh regular expression starts at index 0 and tries the
    start positions from left to right.  With the [m] flag, [^] holds at index
    0 and after a line terminator; [.] is any character but a line
    terminator.  Each [(.+)] is greedy: the backtracking matcher tries the
    longest run first and gives characters back one at a time. *)

Definition isLineTerminator (c : ascii) : bool :=
  bool_decide (c = "010"%char) || bool_decide (c = "013"%char).

(** Length of the longest run that [.+] can take at the start of [s]. *)
Fixpoint dotRun (s : list ascii) : nat :=
  match s with
  | [] => O
  | c :: s' => if isLineTerminator c then O else S (dotRun s')
  end.

(** Backtracking of a greedy [.+]: lengths [n], [n-1], ..., 1, each followed
    by the continuation [k]; the first success wins. *)
Fixpoint greedy {A : Type} (n : nat) (k : nat -> option A) : option A :=
  match n with
  | O => None
  | S m => match k (S m) with
           | Some r => Some r
           | None => greedy m k
           end
  end.

Definition hotUpdateLiteral : list ascii := chars ".hot-update".

(** The pattern after [^] is matched at the start of a string by three
    matchers, each the continuation of the one before: [(.+)] for group 1,
    the literal dot, and [(.+)] for group 2 followed by the literal
    [.hot-update].  A success holds the two captured groups. *)
Definition matchGroup2 (group1 r : list ascii) : option (list ascii * list ascii) :=
  greedy (dotRun r) (fun n2 =>
    if bool_decide (hotUpdateLiteral `prefix_of` drop n2 r)
    then Some (group1, take n2 r)
    else None).

Definition matchDot (group1 rest : list ascii) : option (list ascii * list ascii) :=
  match rest with
  | c :: r => if bool_decide (c = "."%char) then matchGroup2 group1 r else None
  | [] => None
  end.

Definition matchHere (s : list ascii) : option (list ascii * list ascii) :=
  greedy (dotRun s) (fun n1 => matchDot (take n1 s) (drop n1 s)).

Fixpoint execFrom (lineStart : bool) (s : list ascii)
  : option (list ascii * list ascii) :=
  match (if lineStart then matchHere s else None) with
  | Some m => Some m
  | None =>
      match s with
      | [] => None
      | c :: s' => execFrom (isLineTerminator c) s'
      end
  end.

(** [matcher.exec(s)]: [None] is [null], otherwise the groups 1 and 2. *)
Definition hotUpdateMatcherExec (s : string) : option (string * string) :=
  match execFrom true (chars s) with
  | Some (g1, g2) => Some (str g1, str g2)
  | None => None
  end.

End Js.

(** ** getCurrentHotUpdateHash *)

Definition getCurrentHotUpdateHash (emittedFiles : list string) : result string :=
  let hotUpdateScripts :=
    List.filter (fun x => Js.endsWith x ".hot-update.js") emittedFiles in
  match hotUpdateScripts with
  | hotUpdateName :: _ =>
      match Js.hotUpdateMatcherExec hotUpdateName with
      | Some (_, hotHash) => Ok (if decide (hotHash = "") then "" else hotHash)
      | None => Throw (TypeError "Cannot read property '2' of null")
      end
  | [] => Ok ""
  end.


(** ** Data of the service *)

Record IPlatformData : Type := {
  platformNameLowerCase : string;
  appDestinationDirectoryPath : string
}.

Record IPrepareData : Type := {
  watch : bool;
  hmr : bool
}.

(** [IWebpackEmitMessage] *)
Module EmitMessage.
Record t : Type := {
  emittedFiles : list string;
  chunkFiles : list string;
  hash : string
}.
End EmitMessage.

(** What the subprocess sends over the ipc channel: a string, or an object
    with [emittedFiles]. *)
Inductive Message : Type :=
  | MessageString (text : string)
  | MessageEmit (message : EmitMessage.t).

(** The object returned by [getUpdatedEmittedFiles]. *)
Module Updated.
Record t : Type := {
  emittedFiles : list string;
  fallbackFiles : list string;
  hash : string
}.
End Updated.

Module HmrData.
Record t : Type := {
  hash : string;
  fallbackFiles : list string
}.
End HmrData.

(** The [data] object raised with [WEBPACK_COMPILATION_COMPLETE]. *)
Module FilesChange.
Record t : Type := {
  files : list string;
  hasOnlyHotUpdateFiles : bool;
  hmrData : HmrData.t;
  platform : string
}.
End FilesChange.

(** A spawned subprocess: its pid, the platform flag of its environment and
    whether ["--watch"] was pushed on its arguments. *)
Record ChildProcess : Type := {
  pid : nat;
  platformFlag : string;
  watchArg : bool
}.

Global Instance ChildProcess_eq_dec : EqDecision ChildProcess.
Proof. solve_decision. Defined.

Global Instance ExitCode_eq_dec : EqDecision ExitCode.
Proof. solve_decision. Defined.

(** The argument of the ["close"] event. *)
Inductive CloseArg : Type :=
  | ArgNumber (n : Z)
  | ArgNull
  | ArgUndefined
  | ArgObject (code : ExitCode).

Inductive ChildEvent : Type :=
  | OnMessage (message : Message)
  | OnError (err : JsError)
  | OnClose (arg : CloseArg).

(** Promises settle once. *)
Inductive Promise : Type :=
  | Pending
  | Resolved (value : option ChildProcess)
  | Rejected (error : JsError).

Definition resolve (value : option ChildProcess) (p : Promise) : Promise :=
  match p with
  | Pending => Resolved value
  | _ => p
  end.

Definition reject (error : JsError) (p : Promise) : Promise :=
  match p with
  | Pending => Rejected error
  | _ => p
  end.

(** The fields of the service ([webpackProcesses], [expectedHashes], the
    events it has raised), the pids tracked by [$cleanupService], and the
    operating system's view: the subprocesses spawned so far, those that have
    closed, and the signals sent. *)
Record State : Type := {
  webpackProcesses : gmap string ChildProcess;
  expectedHashes : gmap string string;
  emitted : list FilesChange.t;
  killProcesses : list nat;
  spawned : list ChildProcess;
  exited : list nat;
  signals : list (nat * string)
}.

Definition initialState : State :=
  {| webpackProcesses := ∅; expectedHashes := ∅; emitted := [];
     killProcesses := []; spawned := []; exited := []; signals := [] |}.

Definition setWebpackProcesses (f : gmap string ChildProcess -> gmap string ChildProcess)
    (σ : State) : State :=
  {| webpackProcesses := f (webpackProcesses σ); expectedHashes := expectedHashes σ;
     emitted := emitted σ; killProcesses := killProcesses σ;
     spawned := spawned σ; exited := exited σ; signals := signals σ |}.

Definition setExpectedHashes (f : gmap string string -> gmap string string)
    (σ : State) : State :=
  {| webpackProcesses := webpackProcesses σ; expectedHashes := f (expectedHashes σ);
     emitted := emitted σ; killProcesses := killProcesses σ;
     spawned := spawned σ; exited := exited σ; signals := signals σ |}.

(** [this.emit(WEBPACK_COMPILATION_COMPLETE, data)] *)
Definition emit (data : FilesChange.t) (σ : State) : State :=
  {| webpackProcesses := webpackProcesses σ; expectedHashes := expectedHashes σ;
     emitted := emitted σ ++ [data]; killProcesses := killProcesses σ;
     spawned := spawned σ; exited := exited σ; signals := signals σ |}.

(** [$cleanupService.addKillProcess] and [removeKillProcess] *)
Definition addKillProcess (p : nat) (σ : State) : State :=
  {| webpackProcesses := webpackProcesses σ; expectedHashes := expectedHashes σ;
     emitted := emitted σ; killProcesses := killProcesses σ ++ [p];
     spawned := spawned σ; exited := exited σ; signals := signals σ |}.

Definition removeKillProcess (p : nat) (σ : State) : State :=
  {| webpackProcesses := webpackProcesses σ; expectedHashes := expectedHashes σ;
     emitted := emitted σ;
     killProcesses := List.filter (fun q => negb (Nat.eqb q p)) (killProcesses σ);
     spawned := spawned σ; exited := exited σ; signals := signals σ |}.

(** [$childProcess.spawn]: the operating system hands out a fresh pid. *)
Definition osSpawn (platform : string) (watchFlag : bool) (σ : State)
  : ChildProcess * State :=
  let child := {| pid := S (length (spawned σ)); platformFlag := platform;
                  watchArg := watchFlag |} in
  (child,
   {| webpackProcesses := webpackProcesses σ; expectedHashes := expectedHashes σ;
      emitted := emitted σ; killProcesses := killProcesses σ;
      spawned := spawned σ ++ [child]; exited := exited σ; signals := signals σ |}).

Definition osSignal (p : nat) (signal : string) (σ : State) : State :=
  {| webpackProcesses := webpackProcesses σ; expectedHashes := expectedHashes σ;
     emitted := emitted σ; killProcesses := killProcesses σ;
     spawned := spawned σ; exited := exited σ;
     signals := signals σ ++ [(p, signal)] |}.

Definition osExit (p : nat) (σ : State) : State :=
  {| webpackProcesses := webpackProcesses σ; expectedHashes := expectedHashes σ;
     emitted := emitted σ; killProcesses := killProcesses σ;
     spawned := spawned σ; exited := exited σ ++ [p]; signals := signals σ |}.

(** The subprocesses of a platform that were spawned and have not closed. *)
Definition liveProcesses (platform : string) (σ : State) : list ChildProcess :=
  List.filter
    (fun c => bool_decide (platformFlag c = platform)
              && negb (bool_decide (pid c ∈ exited σ)))
    (spawned σ).

(** Methods of the service run in the state and may throw; the state reached
    before the exception stays. *)
Definition M (A : Type) : Type := State -> result A * State.

Global Instance M_ret : MRet M := fun A a σ => (Ok a, σ).

Global Instance M_bind : MBind M := fun A B k m σ =>
  match m σ with
  | (Ok a, σ') => k a σ'
  | (Throw e, σ') => (Throw e, σ')
  end.

Definition modify (f : State -> State) : M unit := fun σ => (Ok tt, f σ).
Definition gets {A : Type} (f : State -> A) : M A := fun σ => (Ok (f σ), σ).
Definition lift {A : Type} (r : result A) : M A := fun σ => (r, σ).

(** A string is truthy unless it is empty. *)
Definition truthy (s : string) : bool := negb (bool_decide (s = "")).

(** ** getUpdatedEmittedFiles *)

(** [nextHash ? this.expectedHashes[platform] === currentHash : true], where
    [expected] is the entry of [expectedHashes], [None] when there is none. *)
Definition isHashValid (nextHash : string) (expected : option string)
    (currentHash : string) : bool :=
  if truthy nextHash then bool_decide (expected = Some currentHash) else true.

Definition getUpdatedEmittedFiles (allEmittedFiles chunkFiles : list string)
    (nextHash platform : string) : M Updated.t :=
  currentHash ← lift (getCurrentHotUpdateHash allEmittedFiles);
  expected ← gets (fun σ => expectedHashes σ !! platform);
  let isHashValid := isHashValid nextHash expected currentHash in
  _ ← modify (setExpectedHashes <[platform := nextHash]>);
  let emittedHotUpdatesAndAssets :=
    if isHashValid then Js.difference allEmittedFiles chunkFiles
    else allEmittedFiles in
  mret {| Updated.emittedFiles := emittedHotUpdatesAndAssets;
          Updated.fallbackFiles := chunkFiles;
          Updated.hash := currentHash |}.

(** ** One invocation of compileWithWatch or compileWithoutWatch

    Both methods run inside a promise executor with local state.  Control
    leaves the executor at each [await]: after the registry check, while the
    environment parameters are awaited (the first [await] of
    [startWebpackProcess]); after the spawn and the registration, while
    [addKillProcess] is awaited; from then on the listeners wait for events
    of the subprocess. *)

Inductive Kind : Type := WithWatch | WithoutWatch.

Inductive Pc : Type :=
  | Entry
  | AwaitEnvParams
  | AwaitAddKillProcess (childProcess : ChildProcess)
  | Listening (childProcess : ChildProcess)
  | Finished.

Record Call : Type := {
  prepareData : IPrepareData;
  pc : Pc;
  promise : Promise;
  isFirstWebpackWatchCompilation : bool
}.

Definition newCall (prepareData : IPrepareData) : Call :=
  {| prepareData := prepareData; pc := Entry; promise := Pending;
     isFirstWebpackWatchCompilation := true |}.

Definition setPc (pc' : Pc) (call : Call) : Call :=
  {| prepareData := prepareData call; pc := pc'; promise := promise call;
     isFirstWebpackWatchCompilation := isFirstWebpackWatchCompilation call |}.

Definition settle (f : Promise -> Promise) (call : Call) : Call :=
  {| prepareData := prepareData call; pc := pc call; promise := f (promise call);
     isFirstWebpackWatchCompilation := isFirstWebpackWatchCompilation call |}.

Definition setWatch (kind : Kind) (data : IPrepareData) : IPrepareData :=
  match kind with
  | WithWatch => {| watch := true; hmr := hmr data |}
  | WithoutWatch => data
  end.

Definition showExitCode (exitCode : ExitCode) : string :=
  match exitCode with
  | CodeNumber n => pretty n
  | CodeNull => "null"
  | CodeUndefined => "undefined"
  end.

(** [typeof arg === "number" ? arg : arg && arg.code] *)
Definition exitCodeOf (arg : CloseArg) : ExitCode :=
  match arg with
  | ArgNumber n => CodeNumber n
  | ArgNull => CodeNull
  | ArgUndefined => CodeUndefined
  | ArgObject code => code
  end.

(** The [Error] of the close handlers with its [code] field. *)
Definition exitError (exitCode : ExitCode) : JsError :=
  ExitError
    ("Executing webpack failed with exit code " +:+ showExitCode exitCode +:+ ".")
    exitCode.

Section Service.

(** What the service takes from outside: [path.join]; the [kill] method of
    a subprocess handle, which returns a boolean or throws; and the outcome
    of [buildEnvCommandLineParams], which fails through [$errors.fail] and
    whose flags no property below depends on. *)
Variable path_join : list string -> string.
Variable kill : ChildProcess -> string -> result bool.
Variable buildEnvCommandLineParams : IPlatformData -> IPrepareData -> result (list string).

(** One step of an invocation, from one suspension point to the next. *)
Definition stepCall (kind : Kind) (platformData : IPlatformData) (call : Call)
    (σ : State) : Call * State :=
  let platform := platformNameLowerCase platformData in
  match pc call with
  | Entry =>
      match webpackProcesses σ !! platform with
      | Some _ => (setPc Finished (settle (resolve None) call), σ)
      | None =>
          ({| prepareData := setWatch kind (prepareData call);
              pc := AwaitEnvParams; promise := promise call;
              isFirstWebpackWatchCompilation := true |}, σ)
      end
  | AwaitEnvParams =>
      match buildEnvCommandLineParams platformData (prepareData call) with
      | Throw err => (setPc Finished (settle (reject err) call), σ)
      | Ok _ =>
          let (childProcess, σ1) := osSpawn platform (watch (prepareData call)) σ in
          (setPc (AwaitAddKillProcess childProcess) call,
           setWebpackProcesses <[platform := childProcess]> σ1)
      end
  | AwaitAddKillProcess childProcess =>
      (setPc (Listening childProcess) call, addKillProcess (pid childProcess) σ)
  | Listening _ => (call, σ)
  | Finished => (call, σ)
  end.

(** An invocation that is not interleaved with anything else. *)
Definition runCall (kind : Kind) (platformData : IPlatformData) (call : Call)
    (σ : State) : Call * State :=
  let (call1, σ1) := stepCall kind platformData call σ in
  let (call2, σ2) := stepCall kind platformData call1 σ1 in
  stepCall kind platformData call2 σ2.

Definition compileWithWatch (platformData : IPlatformData)
    (prepareData : IPrepareData) (σ : State) : Call * State :=
  runCall WithWatch platformData (newCall prepareData) σ.

Definition compileWithoutWatch (platformData : IPlatformData)
    (prepareData : IPrepareData) (σ : State) : Call * State :=
  runCall WithoutWatch platformData (newCall prepareData) σ.

(** Several invocations in flight: [schedule] names, step by step, the
    invocation that runs next. *)
Definition stepAt (kind : Kind) (platformData : IPlatformData)
    (cs : list Call * State) (i : nat) : list Call * State :=
  match cs.1 !! i with
  | Some call =>
      let (call', σ') := stepCall kind platformData call cs.2 in
      (<[i := call']> cs.1, σ')
  | None => cs
  end.

Definition runSchedule (kind : Kind) (platformData : IPlatformData)
    (schedule : list nat) (cs : list Call * State) : list Call * State :=
  foldl (stepAt kind platformData) cs schedule.

(** *** The listener for ["message"] of compileWithWatch *)

Definition joinApp (platformData : IPlatformData) (file : string) : string :=
  path_join [appDestinationDirectoryPath platformData; "app"; file].

(** The [result] of a structured message that is not the first one. *)
Definition updatedResult (prepareData : IPrepareData) (platform : string)
    (message : EmitMessage.t) : M Updated.t :=
  if hmr prepareData
  then getUpdatedEmittedFiles (EmitMessage.emittedFiles message)
         (EmitMessage.chunkFiles message) (EmitMessage.hash message) platform
  else mret {| Updated.emittedFiles := EmitMessage.emittedFiles message;
               Updated.fallbackFiles := [];
               Updated.hash := "" |}.

(** The [data] object built from [result]. *)
Definition compilationData (platformData : IPlatformData) (result : Updated.t)
    : FilesChange.t :=
  let files := joinApp platformData <$> Updated.emittedFiles result in
  let fallbackFiles := joinApp platformData <$> Updated.fallbackFiles result in
  {| FilesChange.files := files;
     FilesChange.hasOnlyHotUpdateFiles :=
       forallb (fun f => Z.gtb (Js.indexOf f "hot-update") (-1)) files;
     FilesChange.hmrData :=
       {| HmrData.hash := Updated.hash result;
          HmrData.fallbackFiles := fallbackFiles |};
     FilesChange.platform := platformNameLowerCase platformData |}.

Definition onMessage (platformData : IPlatformData) (childProcess : ChildProcess)
    (message : Message) (call : Call) : M Call :=
  let platform := platformNameLowerCase platformData in
  match message with
  | MessageString text =>
      if bool_decide (text = "Webpack compilation complete.")
      then mret (settle (resolve (Some childProcess)) call)
      else mret call
  | MessageEmit message =>
      if isFirstWebpackWatchCompilation call then
        _ ← modify (setExpectedHashes <[platform := EmitMessage.hash message]>);
        mret {| prepareData := prepareData call; pc := pc call;
                promise := promise call;
                isFirstWebpackWatchCompilation := false |}
      else
        result ← updatedResult (prepareData call) platform message;
        let data := compilationData platformData result in
        _ ← (if negb (Nat.eqb (length (FilesChange.files data)) 0)
             then modify (emit data) else mret tt);
        mret call
  end.

(** *** The listeners for ["error"] and ["close"] *)

Definition onError (platformData : IPlatformData) (err : JsError) (call : Call)
    : M Call :=
  _ ← modify (setWebpackProcesses (delete (platformNameLowerCase platformData)));
  mret (settle (reject err) call).

Definition onCloseWithWatch (platformData : IPlatformData)
    (childProcess : ChildProcess) (arg : CloseArg) (call : Call) : M Call :=
  _ ← modify (removeKillProcess (pid childProcess));
  let exitCode := exitCodeOf arg in
  let error := exitError exitCode in
  _ ← modify (setWebpackProcesses (delete (platformNameLowerCase platformData)));
  mret (settle (reject error) call).

Definition onCloseWithoutWatch (platformData : IPlatformData)
    (childProcess : ChildProcess) (arg : CloseArg) (call : Call) : M Call :=
  _ ← modify (removeKillProcess (pid childProcess));
  _ ← modify (setWebpackProcesses (delete (platformNameLowerCase platformData)));
  let exitCode := exitCodeOf arg in
  if decide (exitCode = CodeNumber 0)
  then mret (settle (resolve None) call)
  else mret (settle (reject (exitError exitCode)) call).

(** An event of the subprocess reaches the listeners of the invocation that
    spawned it; compileWithoutWatch has no listener for ["message"].  A
    closed subprocess raises no further events. *)
Definition deliver (kind : Kind) (platformData : IPlatformData)
    (event : ChildEvent) (call : Call) : M Call :=
  match pc call with
  | Listening childProcess =>
      match event, kind with
      | OnMessage message, WithWatch => onMessage platformData childProcess message call
      | OnMessage _, WithoutWatch => mret call
      | OnError err, _ => onError platformData err call
      | OnClose arg, WithWatch =>
          _ ← modify (osExit (pid childProcess));
          call' ← onCloseWithWatch platformData childProcess arg call;
          mret (setPc Finished call')
      | OnClose arg, WithoutWatch =>
          _ ← modify (osExit (pid childProcess));
          call' ← onCloseWithoutWatch platformData childProcess arg call;
          mret (setPc Finished call')
      end
  | _ => mret call
  end.

(** A sequence of events, one after the other; an exception that escapes a
    listener ends the run. *)
Fixpoint deliverAll (kind : Kind) (platformData : IPlatformData)
    (events : list ChildEvent) (call : Call) : M Call :=
  match events with
  | [] => mret call
  | event :: rest =>
      call' ← deliver kind platformData event call;
      deliverAll kind platformData rest call'
  end.

(** *** stopWebpackCompiler *)

Definition childKill (childProcess : ChildProcess) (signal : string) : M bool :=
  fun σ => (kill childProcess signal, osSignal (pid childProcess) signal σ).

Definition stopWebpackForPlatform (platform : string) : M unit :=
  webpackProcess ← gets (fun σ => webpackProcesses σ !! platform);
  p ← lift (match webpackProcess with
            | Some c => Ok (pid c)
            | None => Throw (TypeError "Cannot read property 'pid' of undefined")
            end);
  _ ← modify (removeKillProcess p);
  match webpackProcess with
  | Some c =>
      _ ← childKill c "SIGINT";
      modify (setWebpackProcesses (delete platform))
  | None => mret tt
  end.

Fixpoint stopEach (webpackedPlatforms : list string) : M unit :=
  match webpackedPlatforms with
  | [] => mret tt
  | platform :: rest => _ ← stopWebpackForPlatform platform; stopEach rest
  end.

(** [platform] is [None] when the argument is left out; an empty string is
    falsy as well.  The theorems do not depend on the order in which
    [Object.keys] lists the platforms. *)
Definition stopWebpackCompiler (platform : option string) : M unit :=
  match platform with
  | Some p =>
      if truthy p then stopWebpackForPlatform p
      else webpackedPlatforms ← gets (fun σ => (map_to_list (webpackProcesses σ)).*1);
           stopEach webpackedPlatforms
  | None =>
      webpackedPlatforms ← gets (fun σ => (map_to_list (webpackProcesses σ)).*1);
      stopEach webpackedPlatforms
  end.

End Service.

(** [path.join] on a POSIX host, for segments that are non-empty and already
    normalised: the segments separated by ["/"]. *)
Fixpoint posixJoin (segments : list string) : string :=
  match segments with
  | [] => "."
  | [segment] => segment
  | segment :: rest => segment +:+ "/" +:+ posixJoin rest
  end.

(** ** The orchestrator's native-change latch *)

Module PrepareOrchestrator.

(** Modelled from the spec: [PrepareReadyPayload] of section 3, the payload
    of a readiness event (lib/controllers/prepare-controller.ts, which builds
    it, is not among the sources); [hmrData] is [None] for [null]. *)
Record PrepareReadyPayload : Type := {
  files : list string;
  hasNativeChanges : bool;
  hasOnlyHotUpdateFiles : bool;
  hmrData : option HmrData.t;
  platform : string
}.

(** Modelled from the spec: the latch of [PlatformWatchState] (section 3),
    "latched true on any qualifying native file event, reset only when
    consumed by a readiness emission". *)
Record PlatformWatchState : Type := {
  hasPendingNativeChange : bool
}.

(** Modelled from the spec: what reaches the orchestrator of one platform in
    watch mode: the result of the native-prepare step (4.4, step 2), an event
    of the native file watcher (4.3), the point at which [prepare()] has
    reached its initial readiness and returns to its caller (sections 5 and
    6), and a compilation-complete event of the supervisor (4.4, step 3). *)
Inductive Signal : Type :=
  | NativePrepareReturned (changed : bool)
  | NativeFileEvent (event path : string)
  | PrepareReady
  | CompilationComplete (fragment : FilesChange.t).

Section Orchestrator.

(** The ignore-list predicate of section 6, and the platform of the
    orchestrator, in lower case. *)
Variable isFileInIgnoreList : string -> bool.
Variable platformName : string.

(** Whether [prepare()] raises a readiness event at its end when no native
    change is pending: neither the spec nor the test of the controller says
    so, and no property below depends on it. *)
Variable raisesReadinessWithoutChange : bool.

(** Modelled from the spec: section 4.3, an event "whose path does not
    satisfy ignorePredicate ... sets the platform's hasPendingNativeChange
    latch to true". *)
Definition onNativeFileEvent (path : string) (w : PlatformWatchState)
    : PlatformWatchState :=
  if isFileInIgnoreList path then w
  else {| hasPendingNativeChange := true |}.

(** Modelled from the spec: section 4.4, step 2, the native-prepare result
    is the seed of the latch, "logical OR with any value already latched by a
    racing watcher". *)
Definition onNativePrepareReturned (changed : bool) (w : PlatformWatchState)
    : PlatformWatchState :=
  {| hasPendingNativeChange := hasPendingNativeChange w || changed |}.

(** Modelled from the spec: a readiness payload without a fragment of the
    bundler, the case [hmrData: null] of section 3. *)
Definition nativeOnlyPayload (changed : bool) : PrepareReadyPayload :=
  {| files := []; hasNativeChanges := changed; hasOnlyHotUpdateFiles := false;
     hmrData := None; platform := platformName |}.

(** Modelled from the spec: the initial readiness of [prepare()] (section 6,
    "latches synchronously until initial readiness"): a native change that
    is pending at the end of [prepare()] is consumed by a readiness emission
    of its own (section 3, the latch is "reset only when consumed by a
    readiness emission").  This is the event that the test of the controller
    asserts (src/test/controllers/prepare-controller.ts, lines 101-120): a
    file event of the native watcher raised while native prepare runs, with
    native prepare returning [false] and no compilation-complete event at
    all, gives one readiness event after both have been called, with
    [files: []], [hasNativeChanges: true], [hasOnlyHotUpdateFiles: false] and
    [hmrData: null]. *)
Definition onPrepareReady (w : PlatformWatchState)
    : PlatformWatchState * list PrepareReadyPayload :=
  if hasPendingNativeChange w || raisesReadinessWithoutChange
  then ({| hasPendingNativeChange := false |},
        [nativeOnlyPayload (hasPendingNativeChange w)])
  else (w, []).

(** Modelled from the spec: section 4.4, step 3, on each
    compilation-complete event the payload merges the fragment with the
    current value of the latch, the latch is cleared, and the readiness event
    is raised. *)
Definition onCompilationComplete (fragment : FilesChange.t)
    (w : PlatformWatchState) : PlatformWatchState * PrepareReadyPayload :=
  ({| hasPendingNativeChange := false |},
   {| files := FilesChange.files fragment;
      hasNativeChanges := hasPendingNativeChange w;
      hasOnlyHotUpdateFiles := FilesChange.hasOnlyHotUpdateFiles fragment;
      hmrData := Some (FilesChange.hmrData fragment);
      platform := FilesChange.platform fragment |}).

(** Modelled from the spec: the orchestrator's reaction to one signal, with
    the readiness events it raises. *)
Definition step (w : PlatformWatchState) (signal : Signal)
    : PlatformWatchState * list PrepareReadyPayload :=
  match signal with
  | NativePrepareReturned changed => (onNativePrepareReturned changed w, [])
  | NativeFileEvent _ path => (onNativeFileEvent path w, [])
  | PrepareReady => onPrepareReady w
  | CompilationComplete fragment =>
      let (w', payload) := onCompilationComplete fragment w in (w', [payload])
  end.

(** Modelled from the spec: the readiness events of a sequence of signals,
    in the order of the signals (section 5, ordering guarantees). *)
Fixpoint run (w : PlatformWatchState) (signals : list Signal)
    : PlatformWatchState * list PrepareReadyPayload :=
  match signals with
  | [] => (w, [])
  | signal :: rest =>
      let (w1, raised1) := step w signal in
      let (w2, raised2) := run w1 rest in
      (w2, (raised1 ++ raised2)%list)
  end.


End Orchestrator.

Definition idle : PlatformWatchState := {| hasPendingNativeChange := false |}.

End PrepareOrchestrator.

(** ** The supervisor and the orchestrator of one platform, in watch mode *)

Module WatchSystem.

Import PrepareOrchestrator.

Inductive Input : Type :=
  | NativePrepared (changed : bool)
  | NativeFile (event path : string)
  | Prepared
  | Bundler (event : ChildEvent).

Record System : Type := {
  call : Call;
  service : State;
  watchState : PlatformWatchState;
  readiness : list PrepareReadyPayload
}.

Section System.

Variable path_join : list string -> string.
Variable isFileInIgnoreList : string -> bool.
Variable raisesReadinessWithoutChange : bool.
Variable platformData : IPlatformData.

(** The orchestrator of the platform on one of its signals. *)
Definition signal (s : System) (sig : Signal) : System :=
  let (w, raised) :=
    PrepareOrchestrator.step isFileInIgnoreList
      (platformNameLowerCase platformData) raisesReadinessWithoutChange
      (watchState s) sig in
  {| call := call s; service := service s; watchState := w;
     readiness := readiness s ++ raised |}.

(** Modelled from the spec: the orchestrator subscribes to the supervisor
    (section 4.4, step 3): every compilation-complete event that a message of
    the subprocess makes the service raise is handed to the orchestrator; the
    other inputs go to the orchestrator directly. *)
Definition step (s : System) (input : Input) : System :=
  match input with
  | NativePrepared changed => signal s (NativePrepareReturned changed)
  | NativeFile event path => signal s (NativeFileEvent event path)
  | Prepared => signal s PrepareReady
  | Bundler event =>
      let (outcome, σ) := deliver path_join WithWatch platformData event (call s)
                            (service s) in
      let raisedByService := drop (length (emitted (service s))) (emitted σ) in
      let (w, raised) :=
        PrepareOrchestrator.run isFileInIgnoreList
          (platformNameLowerCase platformData) raisesReadinessWithoutChange
          (watchState s) (CompilationComplete <$> raisedByService) in
      {| call := match outcome with Ok call' => call' | Throw _ => call s end;
         service := σ; watchState := w; readiness := readiness s ++ raised |}
  end.

Definition run (s : System) (inputs : list Input) : System :=
  foldl step s inputs.

End System.

(** The system once compileWithWatch has started the subprocess of the
    platform and attached its listeners to it. *)
Definition started
    (buildEnvCommandLineParams : IPlatformData -> IPrepareData -> result (list string))
    (platformData : IPlatformData) (prepareData : IPrepareData) : System :=
  let (call, σ) := compileWithWatch buildEnvCommandLineParams platformData
                     prepareData initialState in
  {| call := call; service := σ; watchState := idle; readiness := [] |}.

End WatchSystem.

(** ** Shapes of file names *)

Definition hasLineTerminator (s : string) : bool :=
  existsb Js.isLineTerminator (Js.chars s).

Definition hasDot (s : string) : bool :=
  existsb (fun c => bool_decide (c = "."%char)) (Js.chars s).

(** [s] contains [marker] somewhere. *)
Definition containsMarker (s marker : string) : Prop :=
  ∃ before after : list ascii,
    Js.chars s = (before ++ Js.chars marker ++ after)%list.

(** The file-name pattern [<name>.<hash>.hot-update.<ext>] in the words of
    the design document, each of the three parts non-empty. *)
Definition hotUpdatePattern (file name hash ext : string) : Prop :=
  file = name +:+ "." +:+ hash +:+ ".hot-update." +:+ ext
  ∧ name ≠ "" ∧ hash ≠ "" ∧ ext ≠ "".

(** The current hash as the design document words it: the hash segment of a
    file that matches the pattern when there is one, the empty string when
    there is none. *)
Definition currentHashAsDocumented (allEmittedFiles : list string)
    (currentHash : string) : Prop :=
  ((∃ file name hash ext, file ∈ allEmittedFiles ∧ hotUpdatePattern file name hash ext)
   → ∃ file name ext, file ∈ allEmittedFiles ∧ hotUpdatePattern file name currentHash ext)
  ∧ ((¬ ∃ file name hash ext, file ∈ allEmittedFiles ∧ hotUpdatePattern file name hash ext)
     → currentHash = "").

(** The candidate paths as the design document words them: the paths of
    "each relative emitted/fallback file", those of [files] and those of
    [hmrData.fallbackFiles]. *)
Definition candidatePathsAsDocumented (data : FilesChange.t) : list string :=
  (FilesChange.files data ++ HmrData.fallbackFiles (FilesChange.hmrData data))%list.

(** ** Sample data *)

Definition ios : IPlatformData :=
  {| platformNameLowerCase := "ios";
     appDestinationDirectoryPath := "/project/platforms/ios/project" |}.

Definition android : IPlatformData :=
  {| platformNameLowerCase := "android";
     appDestinationDirectoryPath := "/project/platforms/android/app/src/main/assets" |}.

Definition watchWithHmr : IPrepareData := {| watch := true; hmr := true |}.
Definition watchWithoutHmr : IPrepareData := {| watch := true; hmr := false |}.
Definition oneShot : IPrepareData := {| watch := false; hmr := false |}.

Definition paramsBuilt (_ : IPlatformData) (_ : IPrepareData) : result (list string) :=
  Ok [].

Definition iosProcess : ChildProcess :=
  {| pid := 1; platformFlag := "ios"; watchArg := true |}.
Definition secondIosProcess : ChildProcess :=
  {| pid := 2; platformFlag := "ios"; watchArg := true |}.
Definition androidProcess : ChildProcess :=
  {| pid := 2; platformFlag := "android"; watchArg := true |}.

Definition killDelivers (_ : ChildProcess) (_ : string) : result bool := Ok true.

Definition nothingIgnored (_ : string) : bool := false.

(** The first structured message of a watch session: a full build. *)
Definition seedMessage : EmitMessage.t :=
  {| EmitMessage.emittedFiles := ["bundle.js"; "vendor.js"];
     EmitMessage.chunkFiles := ["bundle.js"; "vendor.js"];
     EmitMessage.hash := "h0" |}.

(** An incremental build with one hot update. *)
Definition hotUpdateMessage : EmitMessage.t :=
  {| EmitMessage.emittedFiles := ["bundle.js"; "bundle.abc123.hot-update.js"];
     EmitMessage.chunkFiles := ["bundle.js"];
     EmitMessage.hash := "def456" |}.

Definition hotUpdateResult : Updated.t :=
  {| Updated.emittedFiles := ["bundle.abc123.hot-update.js"];
     Updated.fallbackFiles := ["bundle.js"];
     Updated.hash := "abc123" |}.

Definition mainJsMessage : EmitMessage.t :=
  {| EmitMessage.emittedFiles := ["main.js"];
     EmitMessage.chunkFiles := [];
     EmitMessage.hash := "abc" |}.

(** An invocation of compileWithWatch that listens to [child] and has seen
    its first structured message. *)
Definition listeningCall (prepareData : IPrepareData) (child : ChildProcess) : Call :=
  {| prepareData := prepareData; pc := Listening child;
     promise := Resolved (Some child);
     isFirstWebpackWatchCompilation := false |}.

(** The service with an expected hash stored for a platform. *)
Definition expecting (platform hash : string) : State :=
  setExpectedHashes <[platform := hash]> initialState.

(** The service with subprocesses registered for both platforms. *)
Definition bothRegistered : State :=
  setWebpackProcesses
    (fun _ => <["android" := androidProcess]> {["ios" := iosProcess]})
    initialState.





(** The same scenario with a build-complete signal that lets [prepare()]
    reach its initial readiness between the native change and the second
    structured message. *)
Definition nativeChangeBeforeReadinessScenario (prepareData : IPrepareData)
    : list PrepareOrchestrator.PrepareReadyPayload :=
  WatchSystem.readiness
    (WatchSystem.run posixJoin nothingIgnored false ios
       (WatchSystem.started paramsBuilt ios prepareData)
       [WatchSystem.NativePrepared false;
        WatchSystem.NativeFile "change" "my/project/App_Resources/some/file";
        WatchSystem.Bundler (OnMessage (MessageEmit seedMessage));
        WatchSystem.Bundler
          (OnMessage (MessageString "Webpack compilation complete."));
        WatchSystem.Prepared;
        WatchSystem.Bundler (OnMessage (MessageEmit mainJsMessage))]).

(** The readiness event that the test of the controller expects of a native
    change made before the initial preparation has been done. *)
Definition nativeChangeReady (platform : string)
    : PrepareOrchestrator.PrepareReadyPayload :=
  {| PrepareOrchestrator.files := [];
     PrepareOrchestrator.hasNativeChanges := true;
     PrepareOrchestrator.hasOnlyHotUpdateFiles := false;
     PrepareOrchestrator.hmrData := None;
     PrepareOrchestrator.platform := platform |}.

(** The readiness event for [main.js] with [changed] as [hasNativeChanges]
    and [hash] in its [hmrData]. *)
Definition mainJsReadyWith (changed : bool) (hash : string)
    : PrepareOrchestrator.PrepareReadyPayload :=
  {| PrepareOrchestrator.files := ["/project/platforms/ios/project/app/main.js"];
     PrepareOrchestrator.hasNativeChanges := changed;
     PrepareOrchestrator.hasOnlyHotUpdateFiles := false;
     PrepareOrchestrator.hmrData :=
       Some {| HmrData.hash := hash; HmrData.fallbackFiles := [] |};
     PrepareOrchestrator.platform := "ios" |}.


(** The suffix of the file names that getCurrentHotUpdateHash looks at. *)
Definition scriptSuffix : list ascii := Js.chars ".hot-update.js".

(** ** The environment flags and the arguments of the subprocess *)

Module Env.

(** The values that occur in the environment object: primitives and arrays
    of primitives.  Numbers are integers; nested objects are left out. *)
Inductive Scalar : Type :=
  | SUndefined
  | SNull
  | SBool (b : bool)
  | SNumber (n : Z)
  | SString (s : string).

Inductive Value : Type :=
  | Single (x : Scalar)
  | Array (items : list Scalar).

Global Instance Scalar_eq_dec : EqDecision Scalar.
Proof. solve_decision. Defined.

Global Instance Value_eq_dec : EqDecision Value.
Proof. solve_decision. Defined.

Definition truthyScalar (x : Scalar) : bool :=
  match x with
  | SUndefined => false
  | SNull => false
  | SBool b => b
  | SNumber n => negb (n =? 0)%Z
  | SString s => truthy s
  end.

Definition truthyValue (v : Value) : bool :=
  match v with
  | Single x => truthyScalar x
  | Array _ => true
  end.

(** [a || b] *)
Definition orValue (a b : Value) : Value := if truthyValue a then a else b.

(** The text of a primitive in a template literal. *)
Definition show (x : Scalar) : string :=
  match x with
  | SUndefined => "undefined"
  | SNull => "null"
  | SBool true => "true"
  | SBool false => "false"
  | SNumber n => pretty n
  | SString s => s
  end.

(** An object is the list of its own properties in the order in which
    [Object.keys] lists them: the order of their creation (property names
    that are array indices, which come first, are left out). *)
Abbreviation Obj := (list (string * Value)).

Definition keys (o : Obj) : list string := o.*1.

(** [o[key]] *)
Fixpoint get (o : Obj) (key : string) : Value :=
  match o with
  | [] => Single SUndefined
  | (k, v) :: rest => if decide (k = key) then v else get rest key
  end.

(** [o[key] = v]: an existing property keeps its place, a new one goes to
    the end. *)
Fixpoint set (key : string) (v : Value) (o : Obj) : Obj :=
  match o with
  | [] => [(key, v)]
  | (k, v0) :: rest =>
      if decide (k = key) then (k, v) :: rest else (k, v0) :: set key v rest
  end.

(** [delete o[key]] *)
Definition remove (key : string) (o : Obj) : Obj :=
  List.filter (fun kv => negb (bool_decide (kv.1 = key))) o.

(** [Object.assign(target, source)] *)
Definition assign (target source : Obj) : Obj :=
  foldl (fun t kv => set kv.1 kv.2 t) target source.

(** [s.toLowerCase()] on the code units 0..255: the letters A to Z and the
    capital letters of Latin-1. *)
Definition lowerChar (c : ascii) : ascii :=
  let n := nat_of_ascii c in
  if ((65 <=? n) && (n <=? 90)
      || (192 <=? n) && (n <=? 222) && negb (n =? 215))%nat
  then ascii_of_nat (n + 32)
  else c.

Definition toLowerCase (s : string) : string :=
  Js.str (lowerChar <$> Js.chars s).

(** What buildEnvData reads of its arguments: the two paths of the project
    and, of [prepareData], [env] ([None] when it is undefined), [release] and
    [nativePrepare]. *)
Record IProjectData : Type := {
  projectDir : string;
  getAppDirectoryRelativePath : string;
  getAppResourcesRelativeDirectoryPath : string
}.

Record INativePrepare : Type := {
  skipNativePrepare : bool
}.

Record PrepareEnv : Type := {
  env : option Obj;
  release : bool;
  nativePrepare : option INativePrepare
}.

(** [prepareData.env && (prepareData.env.sourceMap === false ||
    prepareData.env.sourceMap === 'false')] *)
Definition sourceMapSwitchedOff (env : option Obj) : bool :=
  match env with
  | Some e =>
      bool_decide (get e "sourceMap" = Single (SBool false))
      || bool_decide (get e "sourceMap" = Single (SString "false"))
  | None => false
  end.

(** buildEnvData; [isVerbose] is [$logger.isVerbose()]. *)
Definition buildEnvData (isVerbose : bool) (platform : string)
    (projectData : IProjectData) (prepareData : PrepareEnv) : Obj :=
  let envData :=
    assign (assign [] (default [] (env prepareData)))
      [(toLowerCase platform, Single (SBool true))] in
  let appPath := getAppDirectoryRelativePath projectData in
  let appResourcesPath := getAppResourcesRelativeDirectoryPath projectData in
  let envData :=
    if truthy appPath
    then assign envData [("appPath", Single (SString appPath))] else envData in
  let envData :=
    if truthy appResourcesPath
    then assign envData [("appResourcesPath", Single (SString appResourcesPath))]
    else envData in
  let envData :=
    set "verbose" (orValue (get envData "verbose") (Single (SBool isVerbose)))
      envData in
  let envData :=
    set "production"
      (orValue (get envData "production") (Single (SBool (release prepareData))))
      envData in
  let envData :=
    set "skipSnapshotTools"
      (match nativePrepare prepareData with
       | Some native => Single (SBool (skipNativePrepare native))
       | None => Single SUndefined
       end) envData in
  if sourceMapSwitchedOff (env prepareData) then remove "sourceMap" envData
  else if negb (release prepareData)
       then set "sourceMap" (Single (SBool true)) envData
       else envData.

(** [array.indexOf(x)] *)
Fixpoint indexOfFrom (l : list string) (x : string) (i : Z) : Z :=
  match l with
  | [] => -1
  | y :: rest => if decide (y = x) then i else indexOfFrom rest x (i + 1)
  end.

Definition indexOf (l : list string) (x : string) : Z := indexOfFrom l x 0.

(** [array.splice(start, 1)]: a negative [start] counts from the end. *)
Definition splice1 (start : Z) (l : list string) : list string :=
  let len := Z.of_nat (length l) in
  let actualStart :=
    if (start <? 0)%Z then Z.max (len + start) 0 else Z.min start len in
  (take (Z.to_nat actualStart) l ++ drop (S (Z.to_nat actualStart)) l)%list.

(** The arguments pushed for one flag name. *)
Definition flagsFor (item : string) (envValue : Value) : list string :=
  match envValue with
  | Single SUndefined => []
  | Single (SBool b) => if b then ["--env." +:+ item] else []
  | Single x => ["--env." +:+ item +:+ "=" +:+ show x]
  | Array items => (fun value => "--env." +:+ item +:+ "=" +:+ show value) <$> items
  end.

Definition snapshotWarning : string :=
  "In order to generate Snapshots on Windows, please upgrade your Webpack plugin version (npm i nativescript-dev-webpack@latest).".

Section Params.

(** [$hostInfo.isWindows]; the answer of [$mobileHelper.isAndroidPlatform]
    for the platform; the outcome of the look-up of the installed version by
    [$packageInstallationManager] ([Ok None] when it finds none); and
    [semver.gte(semver.coerce(v), minimum)], which throws when [v] cannot be
    coerced to a version. *)
Variable isWindows : bool.
Variable isAndroidPlatform : bool.
Variable installedWebpackPluginVersion : result (option string).
Variable semverGteCoerced : string -> string -> result bool.

Definition hasWebpackPluginWithWinSnapshotsSupport : result bool :=
  installed ← installedWebpackPluginVersion;
  match installed with
  | Some version =>
      if truthy version then semverGteCoerced version "1.3.0" else Ok true
  | None => Ok true
  end.

(** The flag names that are left after the check of the snapshot flag;
    [$errors.fail] throws. *)
Definition checkedFlagNames (envData : Obj) (isRelease : bool)
    : result (list string) :=
  let envFlagNames := keys envData in
  let canSnapshot := isRelease && isAndroidPlatform in
  if truthyValue (get envData "snapshot") then
    if negb canSnapshot
    then Ok (splice1 (indexOf envFlagNames "snapshot") envFlagNames)
    else if isWindows then
           supported ← hasWebpackPluginWithWinSnapshotsSupport;
           if negb supported
           then Throw (OtherError snapshotWarning)
           else Ok envFlagNames
         else Ok envFlagNames
  else Ok envFlagNames.

Definition buildEnvCommandLineParams (envData : Obj) (isRelease : bool)
    : result (list string) :=
  envFlagNames ← checkedFlagNames envData isRelease;
  mret (mjoin ((fun item => flagsFor item (get envData item)) <$> envFlagNames)).

(** The environment parameters of an invocation, as startWebpackProcess
    computes them from buildEnvData. *)
Definition envParamsOf (isVerbose : bool) (projectData : IProjectData)
    (prepareData : PrepareEnv) (platformData : IPlatformData)
    (_ : IPrepareData) : result (list string) :=
  buildEnvCommandLineParams
    (buildEnvData isVerbose (platformNameLowerCase platformData) projectData
       prepareData)
    (release prepareData).

End Params.

(** The [stdio] option of the spawn. *)
Inductive Stdio : Type :=
  | Inherit
  | InheritWithIpc.

Section Arguments.

Variable path_join : list string -> string.

(** The argument vector that startWebpackProcess hands to [spawn];
    [nodeMajor] is [semver.major(process.version)] and [arch] is
    [process.arch]. *)
Definition spawnArguments (nodeMajor : Z) (arch : string)
    (projectData : IProjectData) (envParams : list string) (watchFlag : bool)
    : list string :=
  let additionalNodeArgs := if (nodeMajor <=? 8)%Z then ["--harmony"] else [] in
  let args :=
    (additionalNodeArgs
     ++ ["--preserve-symlinks";
         path_join [projectDir projectData; "node_modules"; "webpack"; "bin";
                    "webpack.js"];
         "--config=" +:+ path_join [projectDir projectData; "webpack.config.js"]]
     ++ envParams)%list in
  let args :=
    if decide (arch = "x64") then "--max_old_space_size=4096" :: args else args in
  if watchFlag then (args ++ ["--watch"])%list else args.

Definition spawnStdio (watchFlag : bool) : Stdio :=
  if watchFlag then InheritWithIpc else Inherit.

End Arguments.

(** The names of the properties that buildEnvData writes whatever the
    platform is. *)
Definition reserved : list string :=
  ["appPath"; "appResourcesPath"; "verbose"; "production"; "skipSnapshotTools";
   "sourceMap"].

(** *** Sample environments *)

Definition sampleProject : IProjectData :=
  {| projectDir := "/project";
     getAppDirectoryRelativePath := "app";
     getAppResourcesRelativeDirectoryPath := "app/App_Resources" |}.

Definition debugBuild : PrepareEnv :=
  {| env := Some [("uglify", Single (SBool false));
                  ("snapshot", Single (SBool true));
                  ("report", Single (SString "html"));
                  ("hiddenSourceMap", Array [SString "a"; SString "b"])];
     release := false;
     nativePrepare := None |}.

Definition releaseBuild : PrepareEnv :=
  {| env := Some [("snapshot", Single (SBool true));
                  ("sourceMap", Single (SString "false"))];
     release := true;
     nativePrepare := Some {| skipNativePrepare := true |} |}.

(** A comparison of versions that finds only ["1.2.0"] older than the
    minimum. *)
Definition sampleGte (version minimum : string) : result bool :=
  Ok (negb (bool_decide (version = "1.2.0"))).

End Env.

(** ** More sample data *)

(** An incremental build that follows [seedMessage]. *)
Definition afterSeedMessage : EmitMessage.t :=
  {| EmitMessage.emittedFiles := ["bundle.js"; "bundle.h0.hot-update.js"];
     EmitMessage.chunkFiles := ["bundle.js"];
     EmitMessage.hash := "h1" |}.

(** An incremental build whose hot-update script has no hash in its name. *)
Definition malformedMessage : EmitMessage.t :=
  {| EmitMessage.emittedFiles := ["bundle.js"; "bundle.hot-update.js"];
     EmitMessage.chunkFiles := ["bundle.js"];
     EmitMessage.hash := "h2" |}.

(** What reconciliation leaves of [afterSeedMessage] on a valid chain, and
    of [seedMessage] when it comes as a later message on a valid chain. *)
Definition afterSeedResult : Updated.t :=
  {| Updated.emittedFiles := ["bundle.h0.hot-update.js"];
     Updated.fallbackFiles := ["bundle.js"];
     Updated.hash := "h0" |}.

Definition onlyFallbackResult : Updated.t :=
  {| Updated.emittedFiles := [];
     Updated.fallbackFiles := ["bundle.js"; "vendor.js"];
     Updated.hash := "" |}.

Definition spawnError : JsError := OtherError "spawn ENOENT".

Definition thirdIosProcess : ChildProcess :=
  {| pid := 3; platformFlag := "ios"; watchArg := true |}.

Definition paramsFail (_ : IPlatformData) (_ : IPrepareData) : result (list string) :=
  Throw (OtherError Env.snapshotWarning).

(** * Properties *)

(** ** The monad of the service *)

Lemma M_bind_ok {A B : Type} (m : M A) (k : A -> M B) (σ σ' : State) (a : A) :
  m σ = (Ok a, σ') -> (m ≫= k) σ = k a σ'.
Proof. intros H. unfold mbind, M_bind. by rewrite H. Qed.

Lemma M_bind_throw {A B : Type} (m : M A) (k : A -> M B) (σ σ' : State) (e : JsError) :
  m σ = (Throw e, σ') -> (m ≫= k) σ = (Throw e, σ').
Proof. intros H. unfold mbind, M_bind. by rewrite H. Qed.

(** ** The reconciler *)

Lemma truthy_false_iff (s : string) : truthy s = false ↔ s = "".
Proof.
  unfold truthy. rewrite negb_false_iff, bool_decide_eq_true. done.
Qed.

Lemma isHashValid_iff (nextHash : string) (expected : option string)
    (currentHash : string) :
  isHashValid nextHash expected currentHash = true
  ↔ nextHash = "" ∨ expected = Some currentHash.
Proof.
  unfold isHashValid. destruct (truthy nextHash) eqn:Ht.
  - rewrite bool_decide_eq_true. split; [by right|].
    intros [->|]; [|done]. by vm_compute in Ht.
  - apply truthy_false_iff in Ht. split; auto.
Qed.

Lemma getUpdatedEmittedFiles_run (allEmittedFiles chunkFiles : list string)
    (nextHash platform currentHash : string) (σ : State) :
  getCurrentHotUpdateHash allEmittedFiles = Ok currentHash ->
  getUpdatedEmittedFiles allEmittedFiles chunkFiles nextHash platform σ
  = (Ok {| Updated.emittedFiles :=
             if isHashValid nextHash (expectedHashes σ !! platform) currentHash
             then Js.difference allEmittedFiles chunkFiles else allEmittedFiles;
           Updated.fallbackFiles := chunkFiles;
           Updated.hash := currentHash |},
     setExpectedHashes <[platform := nextHash]> σ).
Proof.
  intros Hcur. unfold getUpdatedEmittedFiles, lift, gets, modify.
  unfold mbind, M_bind, mret, M_ret. rewrite Hcur. reflexivity.
Qed.

Lemma getUpdatedEmittedFiles_throws (allEmittedFiles chunkFiles : list string)
    (nextHash platform : string) (e : JsError) (σ : State) :
  getCurrentHotUpdateHash allEmittedFiles = Throw e ->
  getUpdatedEmittedFiles allEmittedFiles chunkFiles nextHash platform σ
  = (Throw e, σ).
Proof.
  intros Hcur. unfold getUpdatedEmittedFiles, lift.
  unfold mbind, M_bind. rewrite Hcur. reflexivity.
Qed.

(** C1.  Whenever the current hash [currentHash] can be read off
    [allEmittedFiles], getUpdatedEmittedFiles returns; the chain is valid iff
    [nextHash] is empty or the expected hash stored for the platform equals
    [currentHash]; on a valid chain the returned [emittedFiles] are
    [allEmittedFiles] without the members of [chunkFiles], on a broken chain
    they are [allEmittedFiles] unchanged; [fallbackFiles] are [chunkFiles]
    either way. *)
Theorem getUpdatedEmittedFiles_reconciles
    (allEmittedFiles chunkFiles : list string)
    (nextHash platform currentHash : string) (σ : State) :
  getCurrentHotUpdateHash allEmittedFiles = Ok currentHash ->
  let valid := isHashValid nextHash (expectedHashes σ !! platform) currentHash in
  (valid = true ↔ nextHash = "" ∨ expectedHashes σ !! platform = Some currentHash)
  ∧ ∃ (updated : Updated.t) (σ' : State),
      getUpdatedEmittedFiles allEmittedFiles chunkFiles nextHash platform σ
      = (Ok updated, σ')
      ∧ Updated.fallbackFiles updated = chunkFiles
      ∧ (valid = true ->
           Updated.emittedFiles updated = list_difference allEmittedFiles chunkFiles
           ∧ ∀ file, file ∈ Updated.emittedFiles updated
                     ↔ file ∈ allEmittedFiles ∧ file ∉ chunkFiles)
      ∧ (valid = false -> Updated.emittedFiles updated = allEmittedFiles).
Proof.
  intros Hcur valid. split; [apply isHashValid_iff|].
  eexists _, _. split; [by apply getUpdatedEmittedFiles_run|].
  simpl. fold valid. split; [done|]. split.
  - intros ->. split; [done|]. intros file. apply list_elem_of_difference.
  - by intros ->.
Qed.

Lemma getUpdatedEmittedFiles_reconciles_witness :
  getCurrentHotUpdateHash (EmitMessage.emittedFiles hotUpdateMessage) = Ok "abc123"
  ∧ ∃ σ',
      getUpdatedEmittedFiles (EmitMessage.emittedFiles hotUpdateMessage)
        (EmitMessage.chunkFiles hotUpdateMessage) "def456" "ios"
        (expecting "ios" "abc123")
      = (Ok hotUpdateResult, σ').
Proof.
  split; [reflexivity|].
  destruct (getUpdatedEmittedFiles_reconciles
              (EmitMessage.emittedFiles hotUpdateMessage)
              (EmitMessage.chunkFiles hotUpdateMessage)
              "def456" "ios" "abc123" (expecting "ios" "abc123") eq_refl)
    as [_ (updated & σ' & Hrun & Hfallback & Hvalid & _)].
  exists σ'. rewrite Hrun. destruct updated as [emittedFiles fallbackFiles hash].
  simpl in *. destruct (Hvalid eq_refl) as [-> _]. subst fallbackFiles.
  injection Hrun as Hhash _. unfold hotUpdateResult.
  rewrite <- Hhash. reflexivity.
Defined.

(** ** The hot-update matcher *)

Section Matcher.

Import Js.

Lemma chars_app (a b : string) : chars (a +:+ b) = (chars a ++ chars b)%list.
Proof.
  induction a as [|c a IH]; [done|].
  change (String c a +:+ b) with (String c (a +:+ b)).
  unfold chars in *. simpl. by rewrite IH.
Qed.

Lemma str_chars (s : string) : str (chars s) = s.
Proof. apply string_of_list_ascii_of_string. Qed.

Lemma chars_nil_inv (s : string) : chars s = [] -> s = "".
Proof. by destruct s. Qed.

Lemma existsb_false_Forall {A : Type} (p : A -> bool) (l : list A) :
  existsb p l = false -> Forall (fun x => p x = false) l.
Proof.
  induction l as [|x l IH]; simpl; [constructor|].
  intros [Hx Hl]%orb_false_iff. constructor; auto.
Qed.

(** A greedy [.+] settles on the longest length whose continuation
    succeeds. *)
Lemma greedy_first {A : Type} (n : nat) (k : nat -> option A) (m : nat) (r : A) :
  (1 ≤ m ≤ n)%nat ->
  k m = Some r ->
  (∀ j, (m < j ≤ n)%nat -> k j = None) ->
  greedy n k = Some r.
Proof.
  induction n as [|n IH]; intros Hm Hk Hnone; [lia|].
  simpl. destruct (decide (m = S n)) as [->|Hne].
  - by rewrite Hk.
  - rewrite (Hnone (S n)) by lia.
    apply IH; [lia|done|]. intros j Hj. apply Hnone. lia.
Qed.

Lemma greedy_none {A : Type} (n : nat) (k : nat -> option A) :
  (∀ j, (1 ≤ j ≤ n)%nat -> k j = None) -> greedy n k = None.
Proof.
  induction n as [|n IH]; intros Hnone; [done|].
  simpl. rewrite (Hnone (S n)) by lia. apply IH. intros j Hj. apply Hnone. lia.
Qed.

Lemma dotRun_app (l1 l2 : list ascii) :
  Forall (fun c => isLineTerminator c = false) l1 ->
  dotRun (l1 ++ l2) = (length l1 + dotRun l2)%nat.
Proof.
  induction 1 as [|c l1 Hc _ IH]; [done|].
  simpl. by rewrite Hc, IH.
Qed.

Lemma literal_not_prefix_of_drop (d : nat) :
  (1 ≤ d)%nat ->
  bool_decide (hotUpdateLiteral `prefix_of` drop d scriptSuffix) = false.
Proof.
  intros Hd. destruct d as [|d]; [lia|].
  do 14 (destruct d as [|d]; [by vm_compute|]).
  rewrite drop_ge by (simpl; lia). by vm_compute.
Qed.

Lemma matchDot_drop_suffix (group1 : list ascii) (d : nat) :
  matchDot group1 (drop d scriptSuffix) = None.
Proof.
  do 15 (destruct d as [|d]; [by vm_compute|]).
  by rewrite drop_ge by (simpl; lia).
Qed.

Lemma matchGroup2_hash (group1 hash : list ascii) :
  hash ≠ [] ->
  Forall (fun c => isLineTerminator c = false) hash ->
  matchGroup2 group1 (hash ++ scriptSuffix) = Some (group1, hash).
Proof.
  intros Hne Hlt. unfold matchGroup2. rewrite dotRun_app by done.
  apply greedy_first with (m := length hash).
  - destruct hash; [done|]. simpl. lia.
  - rewrite drop_app_length, take_app_length.
    rewrite bool_decide_eq_true_2; [done|]. by exists (chars ".js").
  - intros j Hj. rewrite drop_app_ge by lia.
    by rewrite literal_not_prefix_of_drop by lia.
Qed.

Lemma matchHere_name_hash (name hash : list ascii) :
  name ≠ [] -> hash ≠ [] ->
  Forall (fun c => isLineTerminator c = false) name ->
  Forall (fun c => isLineTerminator c = false) hash ->
  Forall (fun c => bool_decide (c = "."%char) = false) hash ->
  matchHere (name ++ "."%char :: hash ++ scriptSuffix) = Some (name, hash).
Proof.
  intros Hname Hhash Hlt1 Hlt2 Hdot. unfold matchHere.
  rewrite dotRun_app by done. simpl dotRun.
  apply greedy_first with (m := length name).
  - destruct name; [done|]. simpl. lia.
  - rewrite drop_app_length, take_app_length. simpl.
    by apply matchGroup2_hash.
  - intros j Hj. rewrite drop_app_ge by lia.
    destruct (j - length name)%nat as [|i] eqn:Hi; [lia|]. simpl drop.
    destruct (decide (i < length hash)%nat) as [Hlt|Hge].
    + rewrite drop_app_le by lia.
      destruct (lookup_lt_is_Some_2 hash i Hlt) as [c Hc].
      rewrite (drop_S _ _ _ Hc). simpl.
      rewrite Forall_lookup in Hdot. by rewrite (Hdot i c Hc).
    + rewrite drop_app_ge by lia. apply matchDot_drop_suffix.
Qed.

Lemma execFrom_here (s : list ascii) (m : list ascii * list ascii) :
  matchHere s = Some m -> execFrom true s = Some m.
Proof. intros Hm. destruct s; cbn [execFrom]; by rewrite Hm. Qed.

Lemma hotUpdateMatcherExec_name_hash (name hash : string) :
  name ≠ "" -> hash ≠ "" ->
  hasLineTerminator name = false ->
  hasLineTerminator hash = false ->
  hasDot hash = false ->
  hotUpdateMatcherExec (name +:+ "." +:+ hash +:+ ".hot-update.js")
  = Some (name, hash).
Proof.
  intros Hname Hhash Hlt1 Hlt2 Hdot. unfold hotUpdateMatcherExec.
  rewrite !chars_app.
  change (chars "." ++ chars hash ++ chars ".hot-update.js")%list
    with ("."%char :: chars hash ++ scriptSuffix)%list.
  assert (matchHere (chars name ++ "."%char :: chars hash ++ scriptSuffix)
          = Some (chars name, chars hash)) as Hm.
  { apply matchHere_name_hash.
    - intros H. by apply chars_nil_inv in H.
    - intros H. by apply chars_nil_inv in H.
    - by apply existsb_false_Forall.
    - by apply existsb_false_Forall.
    - by apply (existsb_false_Forall (fun c => bool_decide (c = "."%char))). }
  rewrite (execFrom_here _ _ Hm). by rewrite !str_chars.
Qed.

Lemma endsWith_app (s suffix : string) : endsWith (s +:+ suffix) suffix = true.
Proof.
  unfold endsWith. apply bool_decide_eq_true. rewrite chars_app.
  by exists (chars s).
Qed.

Lemma endsWith_script (name hash : string) :
  endsWith (name +:+ "." +:+ hash +:+ ".hot-update.js") ".hot-update.js" = true.
Proof.
  pose proof (endsWith_app (name +:+ "." +:+ hash) ".hot-update.js") as H.
  unfold endsWith in *. rewrite !chars_app in *.
  by rewrite <- !(assoc_L (++)) in H.
Qed.

Lemma filter_none {A : Type} (p : A -> bool) (l : list A) :
  Forall (fun x => p x = false) l -> List.filter p l = [].
Proof.
  induction 1 as [|x l Hx _ IH]; [done|]. simpl. by rewrite Hx.
Qed.

End Matcher.

Lemma getCurrentHotUpdateHash_no_script (emittedFiles : list string) :
  Forall (fun file => Js.endsWith file ".hot-update.js" = false) emittedFiles ->
  getCurrentHotUpdateHash emittedFiles = Ok "".
Proof.
  intros H. unfold getCurrentHotUpdateHash. by rewrite filter_none.
Qed.

Lemma getCurrentHotUpdateHash_first_script (before after : list string)
    (hotUpdateName : string) :
  Forall (fun file => Js.endsWith file ".hot-update.js" = false) before ->
  Js.endsWith hotUpdateName ".hot-update.js" = true ->
  getCurrentHotUpdateHash (before ++ hotUpdateName :: after)
  = match Js.hotUpdateMatcherExec hotUpdateName with
    | Some (_, hotHash) => Ok hotHash
    | None => Throw (TypeError "Cannot read property '2' of null")
    end.
Proof.
  intros Hbefore Hends. unfold getCurrentHotUpdateHash.
  rewrite List.filter_app, filter_none by done. simpl. rewrite Hends.
  destruct (Js.hotUpdateMatcherExec hotUpdateName) as [[g1 g2]|]; [|done].
  by destruct (decide (g2 = "")) as [->|].
Qed.

(** C8 (amended).  The current hash is read off the first file name that
    ends in [.hot-update.js]: when that name is [<name>.<hash>.hot-update.js]
    with a non-empty name and a non-empty hash that has no dot, neither with
    a line break, the current hash is [<hash>]; when no file name ends in
    [.hot-update.js], the current hash is the empty string. *)
Theorem getCurrentHotUpdateHash_of_first_script (before rest : list string) :
  Forall (fun file => Js.endsWith file ".hot-update.js" = false) before ->
  (rest = [] -> getCurrentHotUpdateHash (before ++ rest) = Ok "")
  ∧ (∀ (name hash : string) (after : list string),
       rest = (name +:+ "." +:+ hash +:+ ".hot-update.js") :: after ->
       name ≠ "" -> hash ≠ "" ->
       hasLineTerminator name = false ->
       hasLineTerminator hash = false ->
       hasDot hash = false ->
       getCurrentHotUpdateHash (before ++ rest) = Ok hash).
Proof.
  intros Hbefore. split.
  - intros ->. rewrite app_nil_r. by apply getCurrentHotUpdateHash_no_script.
  - intros name hash after -> Hname Hhash Hlt1 Hlt2 Hdot.
    rewrite getCurrentHotUpdateHash_first_script
      by (done || apply endsWith_script).
    by rewrite hotUpdateMatcherExec_name_hash.
Qed.

Lemma getCurrentHotUpdateHash_of_first_script_witness :
  Forall (fun file => Js.endsWith file ".hot-update.js" = false)
    ["bundle.js"; "abc123.hot-update.json"]
  ∧ getCurrentHotUpdateHash
      (["bundle.js"; "abc123.hot-update.json"]
       ++ ["bundle.abc123.hot-update.js"; "vendor.abc123.hot-update.js"])
    = Ok "abc123".
Proof.
  assert (Forall (fun file => Js.endsWith file ".hot-update.js" = false)
            ["bundle.js"; "abc123.hot-update.json"]) as Hbefore.
  { repeat constructor. }
  split; [exact Hbefore|].
  apply (proj2 (getCurrentHotUpdateHash_of_first_script
                  ["bundle.js"; "abc123.hot-update.json"]
                  ["bundle.abc123.hot-update.js"; "vendor.abc123.hot-update.js"]
                  Hbefore)
           "bundle" "abc123" ["vendor.abc123.hot-update.js"]);
    first [reflexivity | discriminate].
Defined.

(** C8 as worded fails on a file name that matches the pattern with another
    extension than [js]: the list holds a matching file with hash [abc], and
    the current hash is the empty string. *)
Lemma getCurrentHotUpdateHash_skips_other_extensions :
  getCurrentHotUpdateHash ["main.abc.hot-update.json"] = Ok ""
  ∧ hotUpdatePattern "main.abc.hot-update.json" "main" "abc" "json"
  ∧ ¬ currentHashAsDocumented ["main.abc.hot-update.json"] "".
Proof.
  assert (hotUpdatePattern "main.abc.hot-update.json" "main" "abc" "json") as Hp.
  { by repeat split. }
  split; [reflexivity|]. split; [exact Hp|].
  intros [Hsome _].
  destruct Hsome as (file & name & ext & _ & _ & _ & Hhash & _).
  - exists "main.abc.hot-update.json", "main", "abc", "json".
    split; [apply list_elem_of_here|exact Hp].
  - by apply Hhash.
Qed.

(** A file name that ends in [.hot-update.js] without a name and a hash
    before it makes [exec] return [null], and the access to its group 2
    throws. *)
Lemma getCurrentHotUpdateHash_throws_without_hash :
  getCurrentHotUpdateHash ["abc.hot-update.js"]
  = Throw (TypeError "Cannot read property '2' of null").
Proof. reflexivity. Qed.

(** ** Starting a subprocess *)

Section Starting.

Variable buildEnvCommandLineParams : IPlatformData -> IPrepareData -> result (list string).

(** With a subprocess registered, an invocation resolves at once and leaves
    the state as it is: nothing is spawned. *)
Lemma runCall_registered (kind : Kind) (platformData : IPlatformData)
    (prepareData : IPrepareData) (σ : State) :
  is_Some (webpackProcesses σ !! platformNameLowerCase platformData) ->
  runCall buildEnvCommandLineParams kind platformData (newCall prepareData) σ
  = ({| prepareData := prepareData; pc := Finished; promise := Resolved None;
        isFirstWebpackWatchCompilation := true |}, σ).
Proof.
  intros [child Hchild]. unfold runCall, stepCall, newCall. simpl.
  by rewrite Hchild.
Qed.

(** Without one, and with the environment parameters built, an invocation
    that runs alone spawns a subprocess, registers it, has it tracked by the
    cleanup service and listens to it with its promise pending. *)
Lemma runCall_unregistered (kind : Kind) (platformData : IPlatformData)
    (prepareData : IPrepareData) (params : list string) (σ : State) :
  webpackProcesses σ !! platformNameLowerCase platformData = None ->
  buildEnvCommandLineParams platformData (setWatch kind prepareData) = Ok params ->
  runCall buildEnvCommandLineParams kind platformData (newCall prepareData) σ
  = ({| prepareData := setWatch kind prepareData;
        pc := Listening (osSpawn (platformNameLowerCase platformData)
                           (watch (setWatch kind prepareData)) σ).1;
        promise := Pending; isFirstWebpackWatchCompilation := true |},
     addKillProcess (S (length (spawned σ)))
       (setWebpackProcesses
          <[platformNameLowerCase platformData :=
              (osSpawn (platformNameLowerCase platformData)
                 (watch (setWatch kind prepareData)) σ).1]>
          (osSpawn (platformNameLowerCase platformData)
             (watch (setWatch kind prepareData)) σ).2)).
Proof.
  intros Hnone Hbuild. unfold runCall, stepCall, newCall. simpl.
  rewrite Hnone. simpl. rewrite Hbuild. reflexivity.
Qed.

(** A second compileWithWatch that starts after the first one has registered
    its subprocess spawns nothing. *)
Lemma compileWithWatch_again_spawns_nothing (platformData : IPlatformData)
    (prepareData prepareData' : IPrepareData) (params : list string) (σ : State) :
  webpackProcesses σ !! platformNameLowerCase platformData = None ->
  buildEnvCommandLineParams platformData (setWatch WithWatch prepareData) = Ok params ->
  let first := compileWithWatch buildEnvCommandLineParams platformData prepareData σ in
  let second := compileWithWatch buildEnvCommandLineParams platformData prepareData' first.2 in
  promise second.1 = Resolved None
  ∧ second.2 = first.2
  ∧ length (spawned second.2) = S (length (spawned σ)).
Proof.
  intros Hnone Hbuild first second. subst first second. unfold compileWithWatch.
  rewrite (runCall_unregistered WithWatch platformData prepareData params σ
             Hnone Hbuild). simpl.
  rewrite runCall_registered.
  - simpl. rewrite length_app. simpl. split; [done|]. split; [done|]. lia.
  - simpl. rewrite lookup_insert_eq. eauto.
Qed.

Lemma stepAt_first (kind : Kind) (platformData : IPlatformData) (call : Call)
    (calls : list Call) (σ : State) :
  stepAt buildEnvCommandLineParams kind platformData (call :: calls, σ) 0
  = ((stepCall buildEnvCommandLineParams kind platformData call σ).1 :: calls,
     (stepCall buildEnvCommandLineParams kind platformData call σ).2).
Proof.
  unfold stepAt. simpl.
  by destruct (stepCall buildEnvCommandLineParams kind platformData call σ).
Qed.

Lemma stepAt_second (kind : Kind) (platformData : IPlatformData)
    (call0 call : Call) (calls : list Call) (σ : State) :
  stepAt buildEnvCommandLineParams kind platformData (call0 :: call :: calls, σ) 1
  = (call0 :: (stepCall buildEnvCommandLineParams kind platformData call σ).1
           :: calls,
     (stepCall buildEnvCommandLineParams kind platformData call σ).2).
Proof.
  unfold stepAt. simpl.
  by destruct (stepCall buildEnvCommandLineParams kind platformData call σ).
Qed.

Lemma stepCall_entry_unregistered (kind : Kind) (platformData : IPlatformData)
    (prepareData : IPrepareData) (σ : State) :
  webpackProcesses σ !! platformNameLowerCase platformData = None ->
  stepCall buildEnvCommandLineParams kind platformData (newCall prepareData) σ
  = ({| prepareData := setWatch kind prepareData; pc := AwaitEnvParams;
        promise := Pending; isFirstWebpackWatchCompilation := true |}, σ).
Proof. intros Hnone. unfold stepCall. simpl. by rewrite Hnone. Qed.

Lemma stepCall_spawns (kind : Kind) (platformData : IPlatformData)
    (call : Call) (params : list string) (σ : State) :
  pc call = AwaitEnvParams ->
  buildEnvCommandLineParams platformData (prepareData call) = Ok params ->
  stepCall buildEnvCommandLineParams kind platformData call σ
  = (setPc (AwaitAddKillProcess
              (osSpawn (platformNameLowerCase platformData)
                 (watch (prepareData call)) σ).1) call,
     setWebpackProcesses
       <[platformNameLowerCase platformData :=
           (osSpawn (platformNameLowerCase platformData)
              (watch (prepareData call)) σ).1]>
       (osSpawn (platformNameLowerCase platformData)
          (watch (prepareData call)) σ).2).
Proof. intros Hpc Hbuild. unfold stepCall. by rewrite Hpc, Hbuild. Qed.

(** Two invocations that both run their registry check before either
    registers: each spawns a subprocess of its own, and the registry keeps
    the later one. *)
Lemma two_calls_before_registration_both_spawn (platformData : IPlatformData)
    (prepareData1 prepareData2 : IPrepareData) (params1 params2 : list string)
    (σ : State) :
  webpackProcesses σ !! platformNameLowerCase platformData = None ->
  buildEnvCommandLineParams platformData (setWatch WithWatch prepareData1)
  = Ok params1 ->
  buildEnvCommandLineParams platformData (setWatch WithWatch prepareData2)
  = Ok params2 ->
  spawned (runSchedule buildEnvCommandLineParams WithWatch platformData
             [0; 1; 0; 1]%nat
             ([newCall prepareData1; newCall prepareData2], σ)).2
  = (spawned σ
     ++ [{| pid := S (length (spawned σ));
            platformFlag := platformNameLowerCase platformData;
            watchArg := true |};
         {| pid := S (S (length (spawned σ)));
            platformFlag := platformNameLowerCase platformData;
            watchArg := true |}])%list
  ∧ webpackProcesses
      (runSchedule buildEnvCommandLineParams WithWatch platformData
         [0; 1; 0; 1]%nat
         ([newCall prepareData1; newCall prepareData2], σ)).2
    !! platformNameLowerCase platformData
    = Some {| pid := S (S (length (spawned σ)));
              platformFlag := platformNameLowerCase platformData;
              watchArg := true |}.
Proof.
  intros Hnone Hbuild1 Hbuild2. unfold runSchedule. cbn [foldl].
  rewrite stepAt_first, (stepCall_entry_unregistered _ _ _ _ Hnone). cbn [fst snd].
  rewrite stepAt_second, (stepCall_entry_unregistered _ _ _ _ Hnone). cbn [fst snd].
  rewrite stepAt_first, (stepCall_spawns _ _ _ params1) by done. cbn [fst snd].
  rewrite stepAt_second, (stepCall_spawns _ _ _ params2) by done. cbn [fst snd].
  simpl. rewrite length_app. simpl. rewrite Nat.add_1_r.
  rewrite <- (assoc_L (++)). split; [done|]. apply lookup_insert_eq.
Qed.

End Starting.

(** C2.  Two invocations of compileWithWatch for ["ios"] made in the same
    turn, before either has reached the registration that follows the first
    [await] of startWebpackProcess: both pass the registry check, both spawn,
    and two subprocesses of the platform are alive at once; the registry
    keeps the second one only. *)
Theorem compileWithWatch_twice_in_one_turn_spawns_twice :
  pc <$> (runSchedule paramsBuilt WithWatch ios [0; 1; 0; 1; 0; 1]%nat
            ([newCall watchWithHmr; newCall watchWithHmr], initialState)).1
  = [Listening iosProcess; Listening secondIosProcess]
  ∧ liveProcesses "ios"
      (runSchedule paramsBuilt WithWatch ios [0; 1; 0; 1; 0; 1]%nat
         ([newCall watchWithHmr; newCall watchWithHmr], initialState)).2
    = [iosProcess; secondIosProcess]
  ∧ webpackProcesses
      (runSchedule paramsBuilt WithWatch ios [0; 1; 0; 1; 0; 1]%nat
         ([newCall watchWithHmr; newCall watchWithHmr], initialState)).2
    !! "ios" = Some secondIosProcess.
Proof. by vm_compute. Qed.

(** ** compileWithoutWatch *)

Lemma exitCode_zero_dec (exitCode : ExitCode) :
  exitCode = CodeNumber 0 ∨ exitCode ≠ CodeNumber 0.
Proof. destruct (decide (exitCode = CodeNumber 0)); auto. Qed.

Lemma reject_rejected (errors : list JsError) (err : JsError) :
  foldl (fun p e => reject e p) (Rejected err) errors = Rejected err.
Proof. by induction errors. Qed.

(** The listeners of compileWithoutWatch over ["error"] events followed by
    the ["close"] event. *)
Lemma errors_then_close (path_join : list string -> string)
    (platformData : IPlatformData) (child : ChildProcess)
    (errors : list JsError) (arg : CloseArg) (call : Call) (σ : State) :
  pc call = Listening child ->
  ∃ call' σ',
    deliverAll path_join WithoutWatch platformData
      ((OnError <$> errors) ++ [OnClose arg]) call σ
    = (Ok call', σ')
    ∧ promise call'
      = (if decide (exitCodeOf arg = CodeNumber 0) then resolve None
         else reject (exitError (exitCodeOf arg)))
          (foldl (fun p e => reject e p) (promise call) errors)
    ∧ webpackProcesses σ'
      = delete (platformNameLowerCase platformData) (webpackProcesses σ)
    ∧ pc call' = Finished.
Proof.
  revert call σ. induction errors as [|err errors IH]; intros call σ Hpc.
  - simpl. unfold deliver. rewrite Hpc.
    unfold onCloseWithoutWatch, modify. unfold mbind, M_bind, mret, M_ret.
    simpl.
    destruct (decide (exitCodeOf arg = CodeNumber 0));
      (eexists _, _; split; [reflexivity|done]).
  - destruct (IH (settle (reject err) call)
                (setWebpackProcesses
                   (delete (platformNameLowerCase platformData)) σ) Hpc)
      as (call' & σ' & Hrun & Hpromise & Hregistry & Hfinished).
    exists call', σ'. split; [|split; [exact Hpromise|split; [|done]]].
    + simpl. unfold deliver at 1. rewrite Hpc. exact Hrun.
    + rewrite Hregistry. simpl. apply delete_delete_eq.
Qed.

(** C6 (amended).  compileWithoutWatch resolves at once when a subprocess is
    registered for the platform.  Otherwise it spawns one and waits.  When
    that subprocess closes without an ["error"] event before, the promise is
    resolved iff the exit code is 0, which is when the argument of ["close"]
    is the number 0 or an object whose [code] is 0, and it is rejected with an
    error whose [code] field is the exit code otherwise, [null] and
    [undefined] included; after an ["error"] event the promise stays rejected
    with the first error, whatever the exit code.  In every case the registry
    entry of the platform is gone after the close. *)
Theorem compileWithoutWatch_settles_by_exit_code
    (path_join : list string -> string)
    (buildEnvCommandLineParams : IPlatformData -> IPrepareData -> result (list string))
    (platformData : IPlatformData) (prepareData : IPrepareData) (σ : State) :
  let platform := platformNameLowerCase platformData in
  let started := compileWithoutWatch buildEnvCommandLineParams platformData
                   prepareData σ in
  (is_Some (webpackProcesses σ !! platform) ->
     promise started.1 = Resolved None ∧ started.2 = σ)
  ∧ (webpackProcesses σ !! platform = None ->
     (∃ params, buildEnvCommandLineParams platformData prepareData = Ok params) ->
     ∃ child,
       pc started.1 = Listening child
       ∧ promise started.1 = Pending
       ∧ spawned started.2 = (spawned σ ++ [child])%list
       ∧ watchArg child = watch prepareData
       ∧ webpackProcesses started.2 !! platform = Some child
       ∧ ∀ (errors : list JsError) (arg : CloseArg), ∃ call' σ',
           deliverAll path_join WithoutWatch platformData
             ((OnError <$> errors) ++ [OnClose arg]) started.1 started.2
           = (Ok call', σ')
           ∧ promise call'
             = match errors with
               | err :: _ => Rejected err
               | [] =>
                   match arg with
                   | ArgNumber n | ArgObject (CodeNumber n) =>
                       if decide (n = 0) then Resolved None
                       else Rejected
                              (ExitError
                                 ("Executing webpack failed with exit code "
                                  +:+ pretty n +:+ ".")
                                 (CodeNumber n))
                   | ArgNull | ArgObject CodeNull =>
                       Rejected
                         (ExitError
                            "Executing webpack failed with exit code null."
                            CodeNull)
                   | ArgUndefined | ArgObject CodeUndefined =>
                       Rejected
                         (ExitError
                            "Executing webpack failed with exit code undefined."
                            CodeUndefined)
                   end
               end
           ∧ (promise call' = Resolved None
              ↔ errors = []
                ∧ (arg = ArgNumber 0 ∨ arg = ArgObject (CodeNumber 0)))
           ∧ webpackProcesses σ' !! platform = None
           ∧ pc call' = Finished).
Proof.
  intros platform started. subst started. unfold compileWithoutWatch. split.
  - intros Hsome. by rewrite runCall_registered.
  - intros Hnone [params Hbuild].
    rewrite (runCall_unregistered _ _ _ _ params) by done. simpl.
    eexists. do 4 (split; [reflexivity|]).
    split; [apply lookup_insert_eq|].
    intros errors arg.
    match goal with
    | |- context [deliverAll _ _ _ _ ?call ?σ0] =>
        destruct (errors_then_close path_join platformData _ errors arg call σ0
                    eq_refl)
          as (call' & σ' & Hrun & Hpromise & Hregistry & Hfinished)
    end.
    exists call', σ'. split; [exact Hrun|].
    assert (webpackProcesses σ' !! platform = None) as Hgone.
    { rewrite Hregistry. apply lookup_delete_eq. }
    simpl in Hpromise.
    destruct errors as [|err errors].
    + simpl in Hpromise.
      destruct arg as [n| | |[n| |]]; simpl in Hpromise.
      * destruct (decide (n = 0)) as [->|Hn].
        -- rewrite decide_True in Hpromise by done.
           split; [done|]. split; [|done]. rewrite Hpromise. split; eauto.
        -- rewrite decide_False in Hpromise by congruence.
           split; [done|]. split; [|done]. rewrite Hpromise.
           split; [done|]. intros [_ [[= ?]|[=]]]. done.
      * split; [done|]. split; [|done]. rewrite Hpromise.
        split; [done|]. by intros [_ [|]].
      * split; [done|]. split; [|done]. rewrite Hpromise.
        split; [done|]. by intros [_ [|]].
      * destruct (decide (n = 0)) as [->|Hn].
        -- rewrite decide_True in Hpromise by done.
           split; [done|]. split; [|done]. rewrite Hpromise. split; eauto.
        -- rewrite decide_False in Hpromise by congruence.
           split; [done|]. split; [|done]. rewrite Hpromise.
           split; [done|]. intros [_ [[=]|[= ?]]]. done.
      * split; [done|]. split; [|done]. rewrite Hpromise.
        split; [done|]. by intros [_ [|]].
      * split; [done|]. split; [|done]. rewrite Hpromise.
        split; [done|]. by intros [_ [|]].
    + simpl in Hpromise. rewrite reject_rejected in Hpromise.
      assert (promise call' = Rejected err) as Hrejected.
      { rewrite Hpromise. by destruct (decide _). }
      split; [done|]. split; [|done]. rewrite Hrejected.
      split; [done|]. by intros [? _].
Qed.

Lemma compileWithoutWatch_settles_by_exit_code_witness :
  webpackProcesses initialState !! "android" = None
  ∧ (∃ call' σ',
       deliverAll posixJoin WithoutWatch android [OnClose (ArgNumber 2)]
         (compileWithoutWatch paramsBuilt android oneShot initialState).1
         (compileWithoutWatch paramsBuilt android oneShot initialState).2
       = (Ok call', σ')
       ∧ promise call' = Rejected (exitError (CodeNumber 2))
       ∧ webpackProcesses σ' !! "android" = None)
  ∧ (∃ call' σ',
       deliverAll posixJoin WithoutWatch android [OnClose (ArgNumber 0)]
         (compileWithoutWatch paramsBuilt android oneShot initialState).1
         (compileWithoutWatch paramsBuilt android oneShot initialState).2
       = (Ok call', σ')
       ∧ promise call' = Resolved None
       ∧ webpackProcesses σ' !! "android" = None)
  ∧ (∃ call' σ',
       deliverAll posixJoin WithoutWatch android [OnClose ArgNull]
         (compileWithoutWatch paramsBuilt android oneShot initialState).1
         (compileWithoutWatch paramsBuilt android oneShot initialState).2
       = (Ok call', σ')
       ∧ promise call' = Rejected (exitError CodeNull)
       ∧ webpackProcesses σ' !! "android" = None)
  ∧ is_Some (webpackProcesses bothRegistered !! "android")
  ∧ promise (compileWithoutWatch paramsBuilt android oneShot bothRegistered).1
    = Resolved None.
Proof.
  split; [reflexivity|].
  destruct (compileWithoutWatch_settles_by_exit_code posixJoin paramsBuilt
              android oneShot initialState) as [_ Hspawn].
  destruct (Hspawn eq_refl (ex_intro _ [] eq_refl))
    as (child & _ & _ & _ & _ & _ & Hclose).
  split; [|split; [|split]].
  - destruct (Hclose [] (ArgNumber 2))
      as (call' & σ' & Hrun & Hpromise & _ & Hgone & _).
    exists call', σ'. split; [exact Hrun|]. split; [exact Hpromise|exact Hgone].
  - destruct (Hclose [] (ArgNumber 0))
      as (call' & σ' & Hrun & Hpromise & _ & Hgone & _).
    exists call', σ'. split; [exact Hrun|]. split; [exact Hpromise|exact Hgone].
  - destruct (Hclose [] ArgNull)
      as (call' & σ' & Hrun & Hpromise & _ & Hgone & _).
    exists call', σ'. split; [exact Hrun|]. split; [exact Hpromise|exact Hgone].
  - assert (is_Some (webpackProcesses bothRegistered !! "android")) as Hsome.
    { exists androidProcess. reflexivity. }
    split; [exact Hsome|].
    exact (proj1 (proj1 (compileWithoutWatch_settles_by_exit_code posixJoin
                           paramsBuilt android oneShot bothRegistered)
                    Hsome)).
Defined.

(** C6 as worded fails after an ["error"] event of the subprocess: the event
    rejects the promise, which settles once, so that an exit with code 0 does
    not resolve it, and an exit with another code does not attach that code:
    the promise stays rejected with the error of the event. *)
Lemma compileWithoutWatch_exit_after_error_stays_rejected :
  (∃ call' σ',
     deliverAll posixJoin WithoutWatch android
       [OnError spawnError; OnClose (ArgNumber 0)]
       (compileWithoutWatch paramsBuilt android oneShot initialState).1
       (compileWithoutWatch paramsBuilt android oneShot initialState).2
     = (Ok call', σ')
     ∧ promise call' = Rejected spawnError
     ∧ promise call' ≠ Resolved None)
  ∧ (∃ call' σ',
       deliverAll posixJoin WithoutWatch android
         [OnError spawnError; OnClose (ArgNumber 2)]
         (compileWithoutWatch paramsBuilt android oneShot initialState).1
         (compileWithoutWatch paramsBuilt android oneShot initialState).2
       = (Ok call', σ')
       ∧ promise call' = Rejected spawnError
       ∧ promise call' ≠ Rejected (exitError (CodeNumber 2))).
Proof.
  split.
  - eexists _, _. split; [reflexivity|]. split; [reflexivity|done].
  - eexists _, _. split; [reflexivity|]. split; [reflexivity|done].
Qed.

(** ** The message listener of compileWithWatch *)

Lemma indexOfFrom_found (needle s : list ascii) (i : Z) :
  (0 ≤ i)%Z ->
  (Js.indexOfFrom needle s i >? -1)%Z = true
  ↔ ∃ before after, s = (before ++ needle ++ after)%list.
Proof.
  revert i. induction s as [|c s IH]; intros i Hi; simpl.
  - destruct (bool_decide (needle `prefix_of` [])) eqn:Hp.
    + apply bool_decide_eq_true in Hp as [after Hafter].
      split; [|intros _; apply Z.gtb_lt; lia].
      intros _. by exists [], after.
    + apply bool_decide_eq_false in Hp. split; [done|].
      intros (before & after & Heq). destruct Hp.
      destruct before; [|done]. by exists after.
  - destruct (bool_decide (needle `prefix_of` c :: s)) eqn:Hp.
    + apply bool_decide_eq_true in Hp as [after Hafter].
      split; [|intros _; apply Z.gtb_lt; lia].
      intros _. by exists [], after.
    + apply bool_decide_eq_false in Hp. rewrite IH by lia. split.
      * intros (before & after & ->). by exists (c :: before), after.
      * intros (before & after & Heq). destruct before as [|c' before].
        { destruct Hp. by exists after. }
        simplify_eq/=. eauto.
Qed.

Lemma indexOf_marker (s marker : string) :
  (Js.indexOf s marker >? -1)%Z = true ↔ containsMarker s marker.
Proof. unfold Js.indexOf, containsMarker. by rewrite indexOfFrom_found. Qed.

Section Messages.

Variable path_join : list string -> string.
Variable platformData : IPlatformData.

Local Abbreviation platform := (platformNameLowerCase platformData).

(** A string message touches neither the state of the service nor the flag
    of the first compilation. *)
Lemma onMessage_string (childProcess : ChildProcess) (text : string)
    (call : Call) (σ : State) :
  ∃ call',
    onMessage path_join platformData childProcess (MessageString text) call σ
    = (Ok call', σ)
    ∧ pc call' = pc call
    ∧ prepareData call' = prepareData call
    ∧ isFirstWebpackWatchCompilation call' = isFirstWebpackWatchCompilation call.
Proof.
  unfold onMessage.
  destruct (bool_decide (text = "Webpack compilation complete."));
    eexists; (split; [reflexivity|done]).
Qed.

Lemma updatedResult_emitted (prepareData : IPrepareData) (message : EmitMessage.t)
    (outcome : result Updated.t) (σ σ' : State) :
  updatedResult prepareData platform message σ = (outcome, σ') ->
  emitted σ' = emitted σ
  ∧ webpackProcesses σ' = webpackProcesses σ
  ∧ (hmr prepareData = false -> σ' = σ).
Proof.
  unfold updatedResult. destruct (hmr prepareData).
  - destruct (getCurrentHotUpdateHash (EmitMessage.emittedFiles message))
      as [currentHash|e] eqn:Hcur.
    + rewrite (getUpdatedEmittedFiles_run _ _ _ _ currentHash) by done.
      intros [= <- <-]. done.
    + rewrite (getUpdatedEmittedFiles_throws _ _ _ _ e) by done.
      intros [= <- <-]. done.
  - intros [= <- <-]. done.
Qed.

(** The run of the listener on a structured message that is not the first
    one. *)
Lemma onMessage_later (childProcess : ChildProcess) (message : EmitMessage.t)
    (call : Call) (result : Updated.t) (σ σ1 : State) :
  isFirstWebpackWatchCompilation call = false ->
  updatedResult (prepareData call) platform message σ = (Ok result, σ1) ->
  onMessage path_join platformData childProcess (MessageEmit message) call σ
  = (Ok call,
     if decide (Updated.emittedFiles result = []) then σ1
     else emit (compilationData path_join platformData result) σ1).
Proof.
  intros Hfirst Hresult. unfold onMessage. rewrite Hfirst. fold platform.
  rewrite (M_bind_ok _ _ _ _ _ Hresult). simpl.
  rewrite length_fmap.
  by destruct (Updated.emittedFiles result) as [|file files].
Qed.

Lemma onMessage_later_throws (childProcess : ChildProcess)
    (message : EmitMessage.t) (call : Call) (e : JsError) (σ σ1 : State) :
  isFirstWebpackWatchCompilation call = false ->
  updatedResult (prepareData call) platform message σ = (Throw e, σ1) ->
  onMessage path_join platformData childProcess (MessageEmit message) call σ
  = (Throw e, σ1).
Proof.
  intros Hfirst Hresult. unfold onMessage. rewrite Hfirst. fold platform.
  by rewrite (M_bind_throw _ _ _ _ _ Hresult).
Qed.

(** C4.  After compileWithWatch has attached its listeners, the first
    structured message, whatever string messages come before it, only stores
    its hash as the expected hash of the platform: the listener returns
    without reconciling, no event is raised, and the flag of the first
    compilation is cleared, so that reconciliation starts with the second
    structured message. *)
Theorem first_structured_message_only_seeds (childProcess : ChildProcess)
    (texts : list string) (message : EmitMessage.t) (call : Call) (σ : State) :
  pc call = Listening childProcess ->
  isFirstWebpackWatchCompilation call = true ->
  ∃ call' σ',
    deliverAll path_join WithWatch platformData
      (((fun text => OnMessage (MessageString text)) <$> texts)
       ++ [OnMessage (MessageEmit message)]) call σ
    = (Ok call', σ')
    ∧ σ' = setExpectedHashes <[platform := EmitMessage.hash message]> σ
    ∧ expectedHashes σ' !! platform = Some (EmitMessage.hash message)
    ∧ emitted σ' = emitted σ
    ∧ isFirstWebpackWatchCompilation call' = false
    ∧ pc call' = Listening childProcess.
Proof.
  revert call. induction texts as [|text texts IH]; intros call Hpc Hfirst.
  - simpl. unfold deliver. rewrite Hpc. unfold onMessage. rewrite Hfirst.
    eexists _, _. split; [reflexivity|]. simpl.
    split; [done|]. split; [apply lookup_insert_eq|]. done.
  - destruct (onMessage_string childProcess text call σ)
      as (call1 & Hrun & Hpc1 & _ & Hfirst1).
    rewrite Hpc in Hpc1. rewrite Hfirst in Hfirst1.
    destruct (IH call1 Hpc1 Hfirst1) as (call' & σ' & Hrest & Hσ').
    exists call', σ'. split; [|exact Hσ'].
    simpl. unfold deliver at 1. rewrite Hpc.
    by rewrite (M_bind_ok _ _ _ _ _ Hrun).
Qed.

(** C5 (amended).  For a structured message after the first one whose
    [result] is computed: [files] and [hmrData.fallbackFiles] are the emitted
    and the fallback files of [result], each joined with the output directory
    of the platform; [hasOnlyHotUpdateFiles] is true iff every path in
    [files] contains ["hot-update"], the fallback paths not being looked at;
    and the message raises one event, with [files], [hasOnlyHotUpdateFiles],
    [hmrData] and [platform], iff [files] is not empty, and none otherwise,
    whatever the fallback files. *)
Theorem later_structured_message_reports (childProcess : ChildProcess)
    (message : EmitMessage.t) (call : Call) (result : Updated.t) (σ σ1 : State) :
  pc call = Listening childProcess ->
  isFirstWebpackWatchCompilation call = false ->
  updatedResult (prepareData call) platform message σ = (Ok result, σ1) ->
  let data := compilationData path_join platformData result in
  FilesChange.files data
  = (fun file => path_join [appDestinationDirectoryPath platformData; "app"; file])
      <$> Updated.emittedFiles result
  ∧ HmrData.fallbackFiles (FilesChange.hmrData data)
    = (fun file => path_join [appDestinationDirectoryPath platformData; "app"; file])
        <$> Updated.fallbackFiles result
  ∧ HmrData.hash (FilesChange.hmrData data) = Updated.hash result
  ∧ FilesChange.platform data = platform
  ∧ (FilesChange.hasOnlyHotUpdateFiles data = true
     ↔ ∀ file, file ∈ FilesChange.files data -> containsMarker file "hot-update")
  ∧ ∃ σ',
      deliver path_join WithWatch platformData (OnMessage (MessageEmit message))
        call σ = (Ok call, σ')
      ∧ (FilesChange.files data ≠ [] -> emitted σ' = (emitted σ ++ [data])%list)
      ∧ (FilesChange.files data = [] -> emitted σ' = emitted σ).
Proof.
  intros Hpc Hfirst Hresult data.
  destruct (updatedResult_emitted _ _ _ _ _ Hresult) as (Hemitted & _ & _).
  do 4 (split; [reflexivity|]). split.
  - simpl. rewrite forallb_forall. split.
    + intros H file Hfile. apply indexOf_marker, H. by apply list_elem_of_In.
    + intros H file Hfile. apply indexOf_marker, H. by apply list_elem_of_In.
  - unfold deliver. rewrite Hpc.
    rewrite (onMessage_later _ _ _ result σ σ1) by done.
    eexists. split; [reflexivity|]. subst data. simpl.
    destruct (Updated.emittedFiles result) as [|file files]; simpl.
    + split; [done|]. by intros _.
    + split; [|done]. intros _. by rewrite Hemitted.
Qed.

(** C10.  With [hmr] switched off, a structured message after the first one
    is not reconciled: the expected hashes stay as they are, and the event,
    raised when the message has emitted files, carries all of them joined
    with the output directory, the empty string as hash and no fallback
    files.  getUpdatedEmittedFiles runs only with [hmr] switched on. *)
Theorem message_without_hmr_is_not_reconciled (childProcess : ChildProcess)
    (message : EmitMessage.t) (call : Call) (σ : State) :
  pc call = Listening childProcess ->
  isFirstWebpackWatchCompilation call = false ->
  hmr (prepareData call) = false ->
  let files :=
    (fun file => path_join [appDestinationDirectoryPath platformData; "app"; file])
      <$> EmitMessage.emittedFiles message in
  let data :=
    {| FilesChange.files := files;
       FilesChange.hasOnlyHotUpdateFiles :=
         forallb (fun f => Z.gtb (Js.indexOf f "hot-update") (-1)) files;
       FilesChange.hmrData := {| HmrData.hash := ""; HmrData.fallbackFiles := [] |};
       FilesChange.platform := platform |} in
  (∃ σ',
     deliver path_join WithWatch platformData (OnMessage (MessageEmit message))
       call σ = (Ok call, σ')
     ∧ expectedHashes σ' = expectedHashes σ
     ∧ emitted σ'
       = (emitted σ
          ++ if decide (EmitMessage.emittedFiles message = []) then [] else [data])%list)
  ∧ ∀ prepareData', hmr prepareData' = true ->
      updatedResult prepareData' platform message
      = getUpdatedEmittedFiles (EmitMessage.emittedFiles message)
          (EmitMessage.chunkFiles message) (EmitMessage.hash message) platform.
Proof.
  intros Hpc Hfirst Hhmr files data. split.
  - unfold deliver. rewrite Hpc.
    rewrite (onMessage_later _ _ _
               {| Updated.emittedFiles := EmitMessage.emittedFiles message;
                  Updated.fallbackFiles := [];
                  Updated.hash := "" |} σ σ).
    + eexists. split; [reflexivity|]. simpl.
      destruct (decide (EmitMessage.emittedFiles message = [])) as [Hnil|Hcons].
      * by rewrite app_nil_r.
      * done.
    + done.
    + unfold updatedResult. by rewrite Hhmr.
  - intros prepareData' Hhmr'. unfold updatedResult. by rewrite Hhmr'.
Qed.

End Messages.

Lemma first_structured_message_only_seeds_witness :
  pc (compileWithWatch paramsBuilt ios watchWithHmr initialState).1
  = Listening iosProcess
  ∧ isFirstWebpackWatchCompilation
      (compileWithWatch paramsBuilt ios watchWithHmr initialState).1 = true
  ∧ ∃ call' σ',
      deliverAll posixJoin WithWatch ios
        [OnMessage (MessageString "Webpack compilation complete.");
         OnMessage (MessageEmit seedMessage)]
        (compileWithWatch paramsBuilt ios watchWithHmr initialState).1
        (compileWithWatch paramsBuilt ios watchWithHmr initialState).2
      = (Ok call', σ')
      ∧ expectedHashes σ' !! "ios" = Some "h0"
      ∧ emitted σ' = [].
Proof.
  split; [reflexivity|]. split; [reflexivity|].
  destruct (first_structured_message_only_seeds posixJoin ios iosProcess
              ["Webpack compilation complete."] seedMessage
              (compileWithWatch paramsBuilt ios watchWithHmr initialState).1
              (compileWithWatch paramsBuilt ios watchWithHmr initialState).2
              eq_refl eq_refl)
    as (call' & σ' & Hrun & _ & Hhash & Hemitted & _).
  exists call', σ'. split; [exact Hrun|]. split; [exact Hhash|exact Hemitted].
Defined.

Lemma later_structured_message_reports_witness :
  updatedResult watchWithHmr "ios" hotUpdateMessage (expecting "ios" "abc123")
  = (Ok hotUpdateResult,
     setExpectedHashes <["ios" := "def456"]> (expecting "ios" "abc123"))
  ∧ ∃ σ',
      deliver posixJoin WithWatch ios (OnMessage (MessageEmit hotUpdateMessage))
        (listeningCall watchWithHmr iosProcess) (expecting "ios" "abc123")
      = (Ok (listeningCall watchWithHmr iosProcess), σ')
      ∧ emitted σ' = [compilationData posixJoin ios hotUpdateResult]
      ∧ FilesChange.hasOnlyHotUpdateFiles
          (compilationData posixJoin ios hotUpdateResult) = true.
Proof.
  assert (updatedResult watchWithHmr "ios" hotUpdateMessage
            (expecting "ios" "abc123")
          = (Ok hotUpdateResult,
             setExpectedHashes <["ios" := "def456"]> (expecting "ios" "abc123")))
    as Hresult.
  { reflexivity. }
  split; [exact Hresult|].
  destruct (later_structured_message_reports posixJoin ios iosProcess
              hotUpdateMessage (listeningCall watchWithHmr iosProcess)
              hotUpdateResult (expecting "ios" "abc123") _
              eq_refl eq_refl Hresult)
    as (_ & _ & _ & _ & _ & σ' & Hrun & Hraised & _).
  exists σ'. split; [exact Hrun|]. split; [|reflexivity].
  apply Hraised. discriminate.
Defined.

(** C5 as worded fails on the fallback files.  An event is raised with
    [hasOnlyHotUpdateFiles] true although the path of a fallback file, one of
    the candidate paths of the design document, does not contain
    ["hot-update"]; and a message that leaves fallback files only raises no
    event although its candidate paths are not empty. *)
Lemma hasOnlyHotUpdateFiles_looks_at_files_only :
  (∃ σ',
     deliver posixJoin WithWatch ios (OnMessage (MessageEmit afterSeedMessage))
       (listeningCall watchWithHmr iosProcess) (expecting "ios" "h0")
     = (Ok (listeningCall watchWithHmr iosProcess), σ')
     ∧ emitted σ' = [compilationData posixJoin ios afterSeedResult]
     ∧ FilesChange.hasOnlyHotUpdateFiles
         (compilationData posixJoin ios afterSeedResult) = true
     ∧ ("/project/platforms/ios/project/app/bundle.js"
        ∈ candidatePathsAsDocumented
            (compilationData posixJoin ios afterSeedResult))
     ∧ ¬ containsMarker "/project/platforms/ios/project/app/bundle.js"
           "hot-update")
  ∧ (∃ σ',
       deliver posixJoin WithWatch ios (OnMessage (MessageEmit seedMessage))
         (listeningCall watchWithHmr iosProcess) (expecting "ios" "")
       = (Ok (listeningCall watchWithHmr iosProcess), σ')
       ∧ updatedResult watchWithHmr "ios" seedMessage (expecting "ios" "")
         = (Ok onlyFallbackResult, σ')
       ∧ emitted σ' = []
       ∧ candidatePathsAsDocumented
           (compilationData posixJoin ios onlyFallbackResult)
         = ["/project/platforms/ios/project/app/bundle.js";
            "/project/platforms/ios/project/app/vendor.js"]).
Proof.
  split.
  - exists (emit (compilationData posixJoin ios afterSeedResult)
              (setExpectedHashes <["ios" := "h1"]> (expecting "ios" "h0"))).
    split; [by vm_compute|]. split; [reflexivity|].
    split; [reflexivity|]. split.
    + apply list_elem_of_further, list_elem_of_here.
    + rewrite <- indexOf_marker. by vm_compute.
  - exists (setExpectedHashes <["ios" := "h0"]> (expecting "ios" "")).
    split; [by vm_compute|]. split; [by vm_compute|].
    split; reflexivity.
Qed.

(** On a valid chain whose emitted files are all chunk files, only
    fallback files are left: [files] is empty and no event is raised. *)
Lemma only_fallback_files_raise_nothing :
  ∃ σ',
    deliver posixJoin WithWatch ios (OnMessage (MessageEmit seedMessage))
      (listeningCall watchWithHmr iosProcess) (expecting "ios" "")
    = (Ok (listeningCall watchWithHmr iosProcess), σ')
    ∧ emitted σ' = []
    ∧ expectedHashes σ' !! "ios" = Some "h0".
Proof. eexists. split; [reflexivity|]. split; reflexivity. Qed.

Lemma message_without_hmr_is_not_reconciled_witness :
  ∃ σ',
    deliver posixJoin WithWatch android (OnMessage (MessageEmit seedMessage))
      (listeningCall watchWithoutHmr androidProcess) (expecting "android" "h0")
    = (Ok (listeningCall watchWithoutHmr androidProcess), σ')
    ∧ expectedHashes σ' !! "android" = Some "h0"
    ∧ FilesChange.files <$> emitted σ'
      = [["/project/platforms/android/app/src/main/assets/app/bundle.js";
          "/project/platforms/android/app/src/main/assets/app/vendor.js"]]
    ∧ FilesChange.hmrData <$> emitted σ'
      = [{| HmrData.hash := ""; HmrData.fallbackFiles := [] |}].
Proof.
  destruct (proj1 (message_without_hmr_is_not_reconciled posixJoin android
                     androidProcess seedMessage
                     (listeningCall watchWithoutHmr androidProcess)
                     (expecting "android" "h0") eq_refl eq_refl eq_refl))
    as (σ' & Hrun & Hhashes & Hemitted).
  exists σ'. split; [exact Hrun|]. split; [|split].
  - rewrite Hhashes. reflexivity.
  - rewrite Hemitted. reflexivity.
  - rewrite Hemitted. reflexivity.
Defined.

(** ** stopWebpackCompiler *)

Section Stopping.

Variable kill : ChildProcess -> string -> result bool.

Lemma stopWebpackForPlatform_registered (platform : string)
    (child : ChildProcess) (killed : bool) (σ : State) :
  webpackProcesses σ !! platform = Some child ->
  kill child "SIGINT" = Ok killed ->
  stopWebpackForPlatform kill platform σ
  = (Ok (),
     setWebpackProcesses (delete platform)
       (osSignal (pid child) "SIGINT" (removeKillProcess (pid child) σ))).
Proof.
  intros Hchild Hkill. unfold stopWebpackForPlatform, gets, lift, modify, childKill.
  unfold mbind, M_bind. rewrite Hchild. simpl. by rewrite Hkill.
Qed.

(** No subprocess is registered for the platform: the read of [pid] comes
    before the test of [webpackProcess], and throws. *)
Lemma stopWebpackForPlatform_unregistered (platform : string) (σ : State) :
  webpackProcesses σ !! platform = None ->
  stopWebpackForPlatform kill platform σ
  = (Throw (TypeError "Cannot read property 'pid' of undefined"), σ).
Proof.
  intros Hnone. unfold stopWebpackForPlatform, gets, lift.
  unfold mbind, M_bind. by rewrite Hnone.
Qed.

(** [kill] throws: the exception leaves stopWebpackForPlatform before the
    [delete], and the registry is as it was. *)
Lemma stopWebpackForPlatform_kill_throws (platform : string)
    (child : ChildProcess) (e : JsError) (σ : State) :
  webpackProcesses σ !! platform = Some child ->
  kill child "SIGINT" = Throw e ->
  ∃ σ', stopWebpackForPlatform kill platform σ = (Throw e, σ')
        ∧ webpackProcesses σ' = webpackProcesses σ.
Proof.
  intros Hchild Hkill. unfold stopWebpackForPlatform, gets, lift, modify, childKill.
  unfold mbind, M_bind. rewrite Hchild. simpl. rewrite Hkill. eauto.
Qed.







End Stopping.



(** A platform is named for which no subprocess is registered: the call does
    not return, it throws a [TypeError]. *)
Lemma stopWebpackCompiler_unregistered_platform_throws
    (kill : ChildProcess -> string -> result bool) :
  stopWebpackCompiler kill (Some "ios") initialState
  = (Throw (TypeError "Cannot read property 'pid' of undefined"), initialState).
Proof. reflexivity. Qed.

(** ** The native-change latch *)

Section Latch.

Import PrepareOrchestrator.

Variable isFileInIgnoreList : string -> bool.
Variable platformName : string.
Variable raisesReadinessWithoutChange : bool.

Local Abbreviation runSignals :=
  (run isFileInIgnoreList platformName raisesReadinessWithoutChange).
Local Abbreviation stepSignal :=
  (step isFileInIgnoreList platformName raisesReadinessWithoutChange).





(** The cycle that the test of the controller goes through: a file event of
    the native watcher while native prepare runs, native prepare returning
    false, and the end of [prepare()].  One readiness event is raised, the one
    that the test expects. *)
Lemma native_change_during_native_prepare_is_reported (event path : string) :
  isFileInIgnoreList path = false ->
  runSignals idle
    [NativeFileEvent event path; NativePrepareReturned false; PrepareReady]
  = (idle, [{| files := []; hasNativeChanges := true;
               hasOnlyHotUpdateFiles := false; hmrData := None;
               platform := platformName |}]).
Proof.
  intros Hignored. simpl. unfold onNativeFileEvent, onPrepareReady.
  by rewrite Hignored.
Qed.

End Latch.



(** ** The scenario of a native change before the first readiness event *)




(** When the bundler signals the end of its build after the native change
    and [prepare()] reaches its initial readiness before the second
    structured message, the native change has a readiness event of its own,
    the one of the controller's test, and the event for [main.js] reports no
    native change. *)
Lemma native_change_before_initial_readiness_has_its_own_event :
  nativeChangeBeforeReadinessScenario watchWithHmr
  = [nativeChangeReady "ios"; mainJsReadyWith false ""]
  ∧ nativeChangeBeforeReadinessScenario watchWithoutHmr
    = [nativeChangeReady "ios"; mainJsReadyWith false ""].
Proof. split; by vm_compute. Qed.


(** * Further properties of the service *)

(** ** What the matcher captures *)

Section Captures.

Import Js.

Lemma greedy_some_inv {A : Type} (n : nat) (k : nat -> option A) (r : A) :
  greedy n k = Some r -> ∃ m, (1 ≤ m ≤ n)%nat ∧ k m = Some r.
Proof.
  induction n as [|n IH]; simpl; [done|].
  destruct (k (S n)) as [r'|] eqn:Hk.
  - intros [= <-]. exists (S n). split; [lia|done].
  - intros (m & Hm & Hkm)%IH. exists m. split; [lia|done].
Qed.

Lemma dotRun_le_length (s : list ascii) : (dotRun s ≤ length s)%nat.
Proof.
  induction s as [|c s IH]; simpl; [lia|].
  destruct (isLineTerminator c); lia.
Qed.

Lemma dotRun_take (s : list ascii) (n : nat) :
  (n ≤ dotRun s)%nat -> Forall (fun c => isLineTerminator c = false) (take n s).
Proof.
  revert n. induction s as [|c s IH]; intros [|n] Hn; simpl in *;
    try constructor; try lia.
  - by destruct (isLineTerminator c); [lia|].
  - apply IH. destruct (isLineTerminator c); lia.
Qed.

(** A match of the pattern at the start of [s] splits [s] into group 1, a
    dot, group 2, the literal [.hot-update] and a rest; both groups are
    non-empty and free of line terminators. *)
Lemma matchHere_some_inv (s g1 g2 : list ascii) :
  matchHere s = Some (g1, g2) ->
  ∃ rest,
    s = (g1 ++ "."%char :: g2 ++ hotUpdateLiteral ++ rest)%list
    ∧ g1 ≠ [] ∧ g2 ≠ []
    ∧ Forall (fun c => isLineTerminator c = false) g1
    ∧ Forall (fun c => isLineTerminator c = false) g2.
Proof.
  unfold matchHere. intros (n1 & Hn1 & Hdot)%greedy_some_inv.
  unfold matchDot in Hdot. destruct (drop n1 s) as [|c r] eqn:Hdrop; [done|].
  destruct (bool_decide (c = "."%char)) eqn:Hc; [|done].
  apply bool_decide_eq_true in Hc as ->.
  unfold matchGroup2 in Hdot. apply greedy_some_inv in Hdot as (n2 & Hn2 & Hlit).
  destruct (bool_decide (hotUpdateLiteral `prefix_of` drop n2 r)) eqn:Hp; [|done].
  apply bool_decide_eq_true in Hp as [rest Hrest].
  injection Hlit as <- <-. exists rest.
  pose proof (dotRun_le_length s). pose proof (dotRun_le_length r).
  split; [|split; [|split; [|split]]].
  - rewrite <- Hrest, take_drop.
    by rewrite <- Hdrop, take_drop.
  - intros Hnil%(f_equal length). rewrite length_take in Hnil. simpl in Hnil. lia.
  - intros Hnil%(f_equal length). rewrite length_take in Hnil. simpl in Hnil. lia.
  - apply dotRun_take. lia.
  - apply dotRun_take. lia.
Qed.

Lemma execFrom_some_inv (lineStart : bool) (s g1 g2 : list ascii) :
  execFrom lineStart s = Some (g1, g2) ->
  ∃ before rest,
    s = (before ++ g1 ++ "."%char :: g2 ++ hotUpdateLiteral ++ rest)%list
    ∧ g1 ≠ [] ∧ g2 ≠ []
    ∧ Forall (fun c => isLineTerminator c = false) g2.
Proof.
  revert lineStart. induction s as [|c s IH]; intros lineStart.
  - cbn [execFrom]. destruct lineStart; [|done].
    by vm_compute.
  - cbn [execFrom].
    destruct (if lineStart then matchHere (c :: s) else None) as [m|] eqn:Hm.
    + intros [= ->]. destruct lineStart; [|done].
      apply matchHere_some_inv in Hm as (rest & -> & ? & ? & _ & ?).
      by exists [], rest.
    + intros (before & rest & -> & ? & ? & ?)%IH.
      by exists (c :: before), rest.
Qed.

Lemma hotUpdateMatcherExec_some_inv (s group1 group2 : string) :
  hotUpdateMatcherExec s = Some (group1, group2) ->
  (∃ before rest,
     chars s = (before ++ chars group1 ++ "."%char :: chars group2
                ++ hotUpdateLiteral ++ rest)%list)
  ∧ group1 ≠ "" ∧ group2 ≠ ""
  ∧ hasLineTerminator group2 = false.
Proof.
  unfold hotUpdateMatcherExec.
  destruct (execFrom true (chars s)) as [[g1 g2]|] eqn:Hexec; [|done].
  intros [= <- <-].
  apply execFrom_some_inv in Hexec as (before & rest & Hs & Hg1 & Hg2 & Hlt).
  unfold str, chars, hasLineTerminator, chars in *.
  rewrite !list_ascii_of_string_of_list_ascii.
  split; [by exists before, rest|]. split; [|split].
  - by destruct g1.
  - by destruct g2.
  - apply not_true_iff_false. rewrite existsb_exists.
    intros (c & Hin & Hc). rewrite Forall_forall in Hlt.
    rewrite (Hlt c) in Hc; [done|]. by apply list_elem_of_In.
Qed.

(** Without a line terminator in [s], the only start position is 0. *)
Lemma execFrom_false_no_terminator (s : list ascii) :
  Forall (fun c => isLineTerminator c = false) s -> execFrom false s = None.
Proof.
  induction 1 as [|c s Hc _ IH]; cbn [execFrom]; [done|]. by rewrite Hc.
Qed.

Lemma matchHere_without_segments (prefix : list ascii) :
  Forall (fun c => bool_decide (c = "."%char) = false) prefix ->
  matchHere (prefix ++ scriptSuffix) = None.
Proof.
  intros Hdot. unfold matchHere. apply greedy_none. intros j _.
  destruct (decide (j < length prefix)%nat) as [Hlt|Hge].
  - rewrite drop_app_le by lia.
    destruct (lookup_lt_is_Some_2 prefix j Hlt) as [c Hc].
    rewrite (drop_S _ _ _ Hc). simpl.
    rewrite Forall_lookup in Hdot. by rewrite (Hdot j c Hc).
  - rewrite drop_app_ge by lia. apply matchDot_drop_suffix.
Qed.

Lemma hotUpdateMatcherExec_without_segments (prefix : string) :
  hasDot prefix = false ->
  hasLineTerminator prefix = false ->
  hotUpdateMatcherExec (prefix +:+ ".hot-update.js") = None.
Proof.
  intros Hdot Hlt. unfold hotUpdateMatcherExec. rewrite chars_app.
  change (chars ".hot-update.js") with scriptSuffix.
  assert (execFrom true (chars prefix ++ scriptSuffix) = None) as ->; [|done].
  pose proof (matchHere_without_segments (chars prefix)
                (existsb_false_Forall _ _ Hdot)) as Hhere.
  assert (Forall (fun c => isLineTerminator c = false)
            (chars prefix ++ scriptSuffix)) as Hall.
  { apply Forall_app. split; [by apply existsb_false_Forall|].
    by repeat constructor. }
  destruct (chars prefix ++ scriptSuffix)%list as [|c rest] eqn:Hs;
    cbn [execFrom]; rewrite Hhere; [done|].
  apply Forall_cons in Hall as [Hc Hrest]. rewrite Hc.
  by apply execFrom_false_no_terminator.
Qed.

End Captures.

Lemma filter_nil_Forall {A : Type} (p : A -> bool) (l : list A) :
  List.filter p l = [] -> Forall (fun x => p x = false) l.
Proof.
  induction l as [|x l IH]; simpl; [constructor|].
  destruct (p x) eqn:Hx; [done|]. intros H. constructor; auto.
Qed.

(** The run of getCurrentHotUpdateHash in terms of the first hot-update
    script. *)
Lemma getCurrentHotUpdateHash_ok_inv (emittedFiles : list string) (hash : string) :
  getCurrentHotUpdateHash emittedFiles = Ok hash ->
  (hash = ""
   ∧ Forall (fun file => Js.endsWith file ".hot-update.js" = false) emittedFiles)
  ∨ (∃ hotUpdateName group1,
       hotUpdateName ∈ emittedFiles
       ∧ Js.endsWith hotUpdateName ".hot-update.js" = true
       ∧ Js.hotUpdateMatcherExec hotUpdateName = Some (group1, hash)).
Proof.
  unfold getCurrentHotUpdateHash.
  destruct (List.filter _ emittedFiles) as [|hotUpdateName rest] eqn:Hfilter.
  - intros [= <-]. left. split; [done|]. by apply filter_nil_Forall.
  - assert (In hotUpdateName
              (List.filter (fun x => Js.endsWith x ".hot-update.js") emittedFiles))
      as [Hin Hends]%filter_In.
    { rewrite Hfilter. by left. }
    destruct (Js.hotUpdateMatcherExec hotUpdateName) as [[g1 g2]|] eqn:Hexec;
      [|done].
    intros [= <-]. right. exists hotUpdateName, g1.
    split; [by apply list_elem_of_In|]. split; [done|].
    destruct (decide (g2 = "")) as [->|]; done.
Qed.

(** X1.  When getCurrentHotUpdateHash returns, the hash is the empty string
    iff no file name of the list ends in [.hot-update.js]: a hot-update
    script never yields an empty hash. *)
Theorem currentHash_empty_iff_no_script (emittedFiles : list string)
    (hash : string) :
  getCurrentHotUpdateHash emittedFiles = Ok hash ->
  hash = ""
  ↔ Forall (fun file => Js.endsWith file ".hot-update.js" = false) emittedFiles.
Proof.
  intros Hrun. split.
  - intros ->.
    destruct (getCurrentHotUpdateHash_ok_inv _ _ Hrun)
      as [[_ ?]|(name & g1 & _ & _ & Hexec)]; [done|].
    by apply hotUpdateMatcherExec_some_inv in Hexec as (_ & _ & ? & _).
  - intros Hnone. rewrite (getCurrentHotUpdateHash_no_script _ Hnone) in Hrun.
    by injection Hrun.
Qed.

Lemma currentHash_empty_iff_no_script_witness :
  getCurrentHotUpdateHash ["bundle.js"; "abc123.hot-update.json"] = Ok ""
  ∧ Forall (fun file => Js.endsWith file ".hot-update.js" = false)
      ["bundle.js"; "abc123.hot-update.json"].
Proof.
  split; [reflexivity|].
  apply (proj1 (currentHash_empty_iff_no_script
                  ["bundle.js"; "abc123.hot-update.json"] "" eq_refl)).
  reflexivity.
Defined.

(** X2.  A non-empty hash that getCurrentHotUpdateHash returns is a piece of
    a file name of the list that ends in [.hot-update.js]: in that name the
    hash stands between a dot, which is not the first character, and
    [.hot-update], and the hash has no line break. *)
Theorem currentHash_is_a_segment_of_a_script (emittedFiles : list string)
    (hash : string) :
  getCurrentHotUpdateHash emittedFiles = Ok hash ->
  hash ≠ "" ->
  ∃ (hotUpdateName : string) (before after : list ascii),
    hotUpdateName ∈ emittedFiles
    ∧ Js.endsWith hotUpdateName ".hot-update.js" = true
    ∧ Js.chars hotUpdateName
      = (before ++ "."%char :: Js.chars hash ++ Js.chars ".hot-update" ++ after)%list
    ∧ before ≠ []
    ∧ hasLineTerminator hash = false.
Proof.
  intros Hrun Hhash.
  destruct (getCurrentHotUpdateHash_ok_inv _ _ Hrun)
    as [[? _]|(name & g1 & Hin & Hends & Hexec)]; [done|].
  apply hotUpdateMatcherExec_some_inv in Hexec
    as ((before & rest & Hs) & Hg1 & _ & Hlt).
  exists name, (before ++ Js.chars g1)%list, rest.
  split; [done|]. split; [done|]. split; [|split; [|done]].
  - by rewrite <- (assoc_L (++)).
  - intros [_ Hnil]%app_eq_nil. by destruct g1.
Qed.

Lemma currentHash_is_a_segment_of_a_script_witness :
  getCurrentHotUpdateHash ["bundle.js"; "x.a..hot-update.js"] = Ok "a."
  ∧ ∃ (hotUpdateName : string) (before after : list ascii),
      hotUpdateName ∈ ["bundle.js"; "x.a..hot-update.js"]
      ∧ Js.chars hotUpdateName
        = (before ++ "."%char :: Js.chars "a." ++ Js.chars ".hot-update" ++ after)%list.
Proof.
  split; [reflexivity|].
  destruct (currentHash_is_a_segment_of_a_script
              ["bundle.js"; "x.a..hot-update.js"] "a." eq_refl)
    as (name & before & after & Hin & _ & Hs & _); [discriminate|].
  exists name, before, after. split; [exact Hin|exact Hs].
Defined.

(** X3.  When the first file name that ends in [.hot-update.js] has neither
    a dot nor a line break in front of that suffix, getCurrentHotUpdateHash
    throws a [TypeError], whatever else the list holds. *)
Theorem currentHash_throws_without_segments (before after : list string)
    (prefix : string) :
  Forall (fun file => Js.endsWith file ".hot-update.js" = false) before ->
  hasDot prefix = false ->
  hasLineTerminator prefix = false ->
  getCurrentHotUpdateHash (before ++ (prefix +:+ ".hot-update.js") :: after)
  = Throw (TypeError "Cannot read property '2' of null").
Proof.
  intros Hbefore Hdot Hlt.
  rewrite getCurrentHotUpdateHash_first_script by (done || apply endsWith_app).
  by rewrite hotUpdateMatcherExec_without_segments.
Qed.

Lemma currentHash_throws_without_segments_witness :
  Forall (fun file => Js.endsWith file ".hot-update.js" = false) ["bundle.js"]
  ∧ getCurrentHotUpdateHash
      (["bundle.js"] ++ ("bundle" +:+ ".hot-update.js")
                        :: ["bundle.abc123.hot-update.js"])
    = Throw (TypeError "Cannot read property '2' of null").
Proof.
  assert (Forall (fun file => Js.endsWith file ".hot-update.js" = false)
            ["bundle.js"]) as Hbefore.
  { repeat constructor. }
  split; [exact Hbefore|].
  exact (currentHash_throws_without_segments ["bundle.js"]
           ["bundle.abc123.hot-update.js"] "bundle" Hbefore eq_refl eq_refl).
Defined.

(** ** The reconciler over several compilations *)

Lemma list_difference_sublist (l k : list string) :
  list_difference l k `sublist_of` l.
Proof.
  induction l as [|x l IH]; simpl; [constructor|].
  destruct (decide_rel elem_of x k); by constructor.
Qed.

(** The two outcomes of getUpdatedEmittedFiles. *)
Lemma getUpdatedEmittedFiles_inv (allEmittedFiles chunkFiles : list string)
    (nextHash platform : string) (outcome : result Updated.t) (σ σ' : State) :
  getUpdatedEmittedFiles allEmittedFiles chunkFiles nextHash platform σ
  = (outcome, σ') ->
  (∃ currentHash,
     getCurrentHotUpdateHash allEmittedFiles = Ok currentHash
     ∧ outcome
       = Ok {| Updated.emittedFiles :=
                 if isHashValid nextHash (expectedHashes σ !! platform) currentHash
                 then Js.difference allEmittedFiles chunkFiles
                 else allEmittedFiles;
               Updated.fallbackFiles := chunkFiles;
               Updated.hash := currentHash |}
     ∧ σ' = setExpectedHashes <[platform := nextHash]> σ)
  ∨ (∃ e, getCurrentHotUpdateHash allEmittedFiles = Throw e
          ∧ outcome = Throw e ∧ σ' = σ).
Proof.
  destruct (getCurrentHotUpdateHash allEmittedFiles) as [currentHash|e] eqn:Hcur.
  - rewrite (getUpdatedEmittedFiles_run _ _ _ _ currentHash) by done.
    intros [= <- <-]. left. by exists currentHash.
  - rewrite (getUpdatedEmittedFiles_throws _ _ _ _ e) by done.
    intros [= <- <-]. right. by exists e.
Qed.

(** X4.  getUpdatedEmittedFiles never reports a file that was not emitted:
    the returned [emittedFiles] are a sublist of [allEmittedFiles], in their
    order.  When it returns, the one change of the state is the expected hash
    of the platform, now [nextHash]; when it throws, the state is as it was,
    so the expected hash is not advanced. *)
Theorem reconcile_reports_only_emitted_files
    (allEmittedFiles chunkFiles : list string) (nextHash platform : string)
    (outcome : result Updated.t) (σ σ' : State) :
  getUpdatedEmittedFiles allEmittedFiles chunkFiles nextHash platform σ
  = (outcome, σ') ->
  match outcome with
  | Ok updated =>
      Updated.emittedFiles updated `sublist_of` allEmittedFiles
      ∧ getCurrentHotUpdateHash allEmittedFiles = Ok (Updated.hash updated)
      ∧ σ' = setExpectedHashes <[platform := nextHash]> σ
      ∧ expectedHashes σ' !! platform = Some nextHash
  | Throw e =>
      getCurrentHotUpdateHash allEmittedFiles = Throw e ∧ σ' = σ
  end.
Proof.
  intros [(currentHash & Hcur & -> & ->)|(e & Hcur & -> & ->)]%getUpdatedEmittedFiles_inv.
  - simpl. split; [|split; [done|split; [done|apply lookup_insert_eq]]].
    destruct (isHashValid _ _ _); [apply list_difference_sublist|done].
  - done.
Qed.

Lemma reconcile_reports_only_emitted_files_witness :
  getUpdatedEmittedFiles (EmitMessage.emittedFiles hotUpdateMessage)
    (EmitMessage.chunkFiles hotUpdateMessage) "def456" "ios"
    (expecting "ios" "abc123")
  = (Ok hotUpdateResult,
     setExpectedHashes <["ios" := "def456"]> (expecting "ios" "abc123"))
  ∧ Updated.emittedFiles hotUpdateResult
    `sublist_of` EmitMessage.emittedFiles hotUpdateMessage.
Proof.
  assert (getUpdatedEmittedFiles (EmitMessage.emittedFiles hotUpdateMessage)
            (EmitMessage.chunkFiles hotUpdateMessage) "def456" "ios"
            (expecting "ios" "abc123")
          = (Ok hotUpdateResult,
             setExpectedHashes <["ios" := "def456"]> (expecting "ios" "abc123")))
    as Hrun.
  { reflexivity. }
  split; [exact Hrun|].
  exact (proj1 (reconcile_reports_only_emitted_files _ _ _ _ _ _ _ Hrun)).
Defined.

(** X5.  With no expected hash stored for the platform and a non-empty
    [nextHash], getUpdatedEmittedFiles treats the chain as broken whatever the
    file names say: when it returns, [emittedFiles] are all of
    [allEmittedFiles], chunk files included. *)
Theorem reconcile_without_stored_hash_reports_everything
    (allEmittedFiles chunkFiles : list string) (nextHash platform : string)
    (updated : Updated.t) (σ σ' : State) :
  expectedHashes σ !! platform = None ->
  nextHash ≠ "" ->
  getUpdatedEmittedFiles allEmittedFiles chunkFiles nextHash platform σ
  = (Ok updated, σ') ->
  Updated.emittedFiles updated = allEmittedFiles
  ∧ Updated.fallbackFiles updated = chunkFiles.
Proof.
  intros Hnone Hnext
    [(currentHash & _ & [= ->] & _)|(e & _ & ? & _)]%getUpdatedEmittedFiles_inv;
    [|done].
  simpl. split; [|done].
  rewrite Hnone. unfold isHashValid, truthy.
  by rewrite bool_decide_eq_false_2 by done.
Qed.

Lemma reconcile_without_stored_hash_reports_everything_witness :
  expectedHashes (expecting "ios" "abc123") !! "android" = None
  ∧ getUpdatedEmittedFiles (EmitMessage.emittedFiles hotUpdateMessage)
      (EmitMessage.chunkFiles hotUpdateMessage) "def456" "android"
      (expecting "ios" "abc123")
    = (Ok {| Updated.emittedFiles := EmitMessage.emittedFiles hotUpdateMessage;
             Updated.fallbackFiles := EmitMessage.chunkFiles hotUpdateMessage;
             Updated.hash := "abc123" |},
       setExpectedHashes <["android" := "def456"]> (expecting "ios" "abc123"))
  ∧ Updated.emittedFiles
      {| Updated.emittedFiles := EmitMessage.emittedFiles hotUpdateMessage;
         Updated.fallbackFiles := EmitMessage.chunkFiles hotUpdateMessage;
         Updated.hash := "abc123" |}
    = EmitMessage.emittedFiles hotUpdateMessage.
Proof.
  assert (getUpdatedEmittedFiles (EmitMessage.emittedFiles hotUpdateMessage)
            (EmitMessage.chunkFiles hotUpdateMessage) "def456" "android"
            (expecting "ios" "abc123")
          = (Ok {| Updated.emittedFiles := EmitMessage.emittedFiles hotUpdateMessage;
                   Updated.fallbackFiles := EmitMessage.chunkFiles hotUpdateMessage;
                   Updated.hash := "abc123" |},
             setExpectedHashes <["android" := "def456"]> (expecting "ios" "abc123")))
    as Hrun.
  { reflexivity. }
  split; [reflexivity|]. split; [exact Hrun|].
  exact (proj1 (reconcile_without_stored_hash_reports_everything
                  (EmitMessage.emittedFiles hotUpdateMessage)
                  (EmitMessage.chunkFiles hotUpdateMessage) "def456" "android"
                  _ (expecting "ios" "abc123") _
                  eq_refl ltac:(discriminate) Hrun)).
Defined.

(** X6.  The chain carries over from one call to the next: after a call that
    returned with [nextHash = hash], a call for the same platform whose first
    hot-update script is [<name>.<hash>.hot-update.js] is on a valid chain; it
    returns [hash] as the current hash and [allEmittedFiles] without the
    chunk files. *)
Theorem reconcile_chain_carries_over
    (files1 chunks1 : list string) (updated1 : Updated.t)
    (before after chunkFiles : list string)
    (name hash nextHash platform : string) (σ σ1 : State) :
  getUpdatedEmittedFiles files1 chunks1 hash platform σ = (Ok updated1, σ1) ->
  Forall (fun file => Js.endsWith file ".hot-update.js" = false) before ->
  name ≠ "" -> hash ≠ "" ->
  hasLineTerminator name = false ->
  hasLineTerminator hash = false ->
  hasDot hash = false ->
  getUpdatedEmittedFiles
    (before ++ (name +:+ "." +:+ hash +:+ ".hot-update.js") :: after)
    chunkFiles nextHash platform σ1
  = (Ok {| Updated.emittedFiles :=
             list_difference
               (before ++ (name +:+ "." +:+ hash +:+ ".hot-update.js") :: after)
               chunkFiles;
           Updated.fallbackFiles := chunkFiles;
           Updated.hash := hash |},
     setExpectedHashes <[platform := nextHash]> σ1).
Proof.
  intros [(cur1 & _ & _ & ->)|(e & _ & ? & _)]%getUpdatedEmittedFiles_inv
    Hbefore Hname Hhash Hlt1 Hlt2 Hdot; [|done].
  rewrite (getUpdatedEmittedFiles_run _ _ _ _ hash).
  - simpl. rewrite lookup_insert_eq. unfold isHashValid.
    rewrite bool_decide_eq_true_2 by done. by destruct (truthy nextHash).
  - rewrite getCurrentHotUpdateHash_first_script
      by (done || apply endsWith_script).
    by rewrite hotUpdateMatcherExec_name_hash.
Qed.

Lemma reconcile_chain_carries_over_witness :
  getUpdatedEmittedFiles ["bundle.js"] ["bundle.js"] "abc123" "ios" initialState
  = (Ok {| Updated.emittedFiles := ["bundle.js"];
           Updated.fallbackFiles := ["bundle.js"];
           Updated.hash := "" |},
     expecting "ios" "abc123")
  ∧ getUpdatedEmittedFiles (EmitMessage.emittedFiles hotUpdateMessage)
      (EmitMessage.chunkFiles hotUpdateMessage) "def456" "ios"
      (expecting "ios" "abc123")
    = (Ok hotUpdateResult,
       setExpectedHashes <["ios" := "def456"]> (expecting "ios" "abc123")).
Proof.
  assert (getUpdatedEmittedFiles ["bundle.js"] ["bundle.js"] "abc123" "ios"
            initialState
          = (Ok {| Updated.emittedFiles := ["bundle.js"];
                   Updated.fallbackFiles := ["bundle.js"];
                   Updated.hash := "" |},
             expecting "ios" "abc123")) as Hrun.
  { reflexivity. }
  split; [exact Hrun|].
  exact (reconcile_chain_carries_over ["bundle.js"] ["bundle.js"] _
           ["bundle.js"] [] ["bundle.js"] "bundle" "abc123" "def456" "ios"
           initialState _ Hrun
           ltac:(repeat constructor) ltac:(discriminate) ltac:(discriminate)
           eq_refl eq_refl eq_refl).
Defined.

(** X7.  The platforms have chains of their own: a call for one platform
    changes neither the outcome of a later call for another platform nor the
    expected hash stored for it. *)
Theorem reconcile_platforms_are_independent
    (files1 chunks1 files2 chunks2 : list string)
    (hash1 hash2 platform1 platform2 : string)
    (outcome1 : result Updated.t) (σ σ1 : State) :
  platform1 ≠ platform2 ->
  getUpdatedEmittedFiles files1 chunks1 hash1 platform1 σ = (outcome1, σ1) ->
  expectedHashes σ1 !! platform2 = expectedHashes σ !! platform2
  ∧ (getUpdatedEmittedFiles files2 chunks2 hash2 platform2 σ1).1
    = (getUpdatedEmittedFiles files2 chunks2 hash2 platform2 σ).1.
Proof.
  intros Hne Hrun1.
  assert (expectedHashes σ1 !! platform2 = expectedHashes σ !! platform2) as Hsame.
  { apply getUpdatedEmittedFiles_inv in Hrun1
      as [(cur & _ & _ & ->)|(e & _ & _ & ->)]; [|done].
    simpl. by rewrite lookup_insert_ne. }
  split; [done|].
  destruct (getCurrentHotUpdateHash files2) as [cur|e] eqn:Hcur.
  - rewrite !(getUpdatedEmittedFiles_run _ _ _ _ cur) by done. simpl.
    by rewrite Hsame.
  - by rewrite !(getUpdatedEmittedFiles_throws _ _ _ _ e) by done.
Qed.

Lemma reconcile_platforms_are_independent_witness :
  "android" ≠ "ios"
  ∧ (getUpdatedEmittedFiles (EmitMessage.emittedFiles hotUpdateMessage)
       (EmitMessage.chunkFiles hotUpdateMessage) "def456" "ios"
       (setExpectedHashes <["android" := "zzz"]> (expecting "ios" "abc123"))).1
    = Ok hotUpdateResult.
Proof.
  split; [discriminate|].
  rewrite (proj2 (reconcile_platforms_are_independent ["main.js"] []
                    (EmitMessage.emittedFiles hotUpdateMessage)
                    (EmitMessage.chunkFiles hotUpdateMessage)
                    "zzz" "def456" "android" "ios"
                    (Ok {| Updated.emittedFiles := ["main.js"];
                           Updated.fallbackFiles := [];
                           Updated.hash := "" |})
                    (expecting "ios" "abc123")
                    (setExpectedHashes <["android" := "zzz"]>
                       (expecting "ios" "abc123"))
                    ltac:(discriminate) eq_refl)).
  reflexivity.
Defined.

(** ** The listeners over a watch session *)

Lemma resolve_resolve (value : option ChildProcess) (p : Promise) :
  resolve value (resolve value p) = resolve value p.
Proof. by destruct p. Qed.

Section Session.

Variable path_join : list string -> string.
Variable platformData : IPlatformData.

Local Abbreviation platform := (platformNameLowerCase platformData).

(** X8.  String messages only settle the promise: whatever strings the
    subprocess sends, the state of the service stays as it is (no event, no
    expected hash) and the first structured message is still to come; the
    promise is resolved with the subprocess iff one of the strings is
    ["Webpack compilation complete."]. *)
Theorem string_messages_only_settle (childProcess : ChildProcess)
    (texts : list string) (call : Call) (σ : State) :
  pc call = Listening childProcess ->
  ∃ call',
    deliverAll path_join WithWatch platformData
      ((fun text => OnMessage (MessageString text)) <$> texts) call σ
    = (Ok call', σ)
    ∧ promise call'
      = (if decide ("Webpack compilation complete." ∈ texts)
         then resolve (Some childProcess) (promise call)
         else promise call)
    ∧ isFirstWebpackWatchCompilation call' = isFirstWebpackWatchCompilation call
    ∧ pc call' = Listening childProcess.
Proof.
  revert call. induction texts as [|text texts IH]; intros call Hpc.
  - exists call. split; [done|]. split; [|done].
    rewrite decide_False; [done|]. apply not_elem_of_nil.
  - simpl. unfold deliver at 1. rewrite Hpc. unfold onMessage.
    destruct (decide (text = "Webpack compilation complete.")) as [->|Hne].
    + rewrite bool_decide_eq_true_2 by done.
      destruct (IH (settle (resolve (Some childProcess)) call) Hpc)
        as (call' & Hrun & Hpromise & Hfirst & Hpc').
      exists call'. split; [exact Hrun|]. split; [|done].
      rewrite Hpromise.
      rewrite (decide_True (P := "Webpack compilation complete."
                                 ∈ "Webpack compilation complete." :: texts))
        by apply list_elem_of_here.
      simpl. destruct (decide _); [apply resolve_resolve|done].
    + rewrite bool_decide_eq_false_2 by done.
      destruct (IH call Hpc) as (call' & Hrun & Hpromise & Hfirst & Hpc').
      exists call'. split; [exact Hrun|]. split; [|done].
      rewrite Hpromise.
      destruct (decide ("Webpack compilation complete." ∈ texts)) as [Hin|Hout].
      * by rewrite decide_True by by apply list_elem_of_further.
      * rewrite decide_False; [done|].
        intros [?|?]%elem_of_cons; done.
Qed.

(** The outcomes of the message listener on a structured message. *)
Lemma onMessage_emit_inv (childProcess : ChildProcess) (message : EmitMessage.t)
    (call : Call) (outcome : result Call) (σ σ' : State) :
  onMessage path_join platformData childProcess (MessageEmit message) call σ
  = (outcome, σ') ->
  (isFirstWebpackWatchCompilation call = true
   ∧ σ' = setExpectedHashes <[platform := EmitMessage.hash message]> σ)
  ∨ (isFirstWebpackWatchCompilation call = false
     ∧ ∃ result σ1,
         updatedResult (prepareData call) platform message σ = (Ok result, σ1)
         ∧ outcome = Ok call
         ∧ σ' = if decide (Updated.emittedFiles result = []) then σ1
                else emit (compilationData path_join platformData result) σ1)
  ∨ (isFirstWebpackWatchCompilation call = false
     ∧ ∃ e, updatedResult (prepareData call) platform message σ = (Throw e, σ')
            ∧ outcome = Throw e).
Proof.
  destruct (isFirstWebpackWatchCompilation call) eqn:Hfirst.
  - unfold onMessage. rewrite Hfirst. intros [= <- <-]. by left.
  - destruct (updatedResult (prepareData call) platform message σ)
      as [[result|e] σ1] eqn:Hresult.
    + rewrite (onMessage_later _ _ _ _ _ _ _ _ Hfirst Hresult).
      intros [= <- <-]. right. left. split; [done|]. by exists result, σ1.
    + rewrite (onMessage_later_throws _ _ _ _ _ _ _ _ Hfirst Hresult).
      intros [= <- <-]. right. right. split; [done|]. by exists e.
Qed.

(** What one event adds to the events that the service has raised. *)
Lemma deliver_raises (kind : Kind) (event : ChildEvent) (call : Call)
    (outcome : result Call) (σ σ' : State) :
  deliver path_join kind platformData event call σ = (outcome, σ') ->
  ∃ raised,
    emitted σ' = (emitted σ ++ raised)%list
    ∧ (kind = WithoutWatch -> raised = [])
    ∧ Forall (fun data => FilesChange.files data ≠ []
                          ∧ FilesChange.platform data = platform) raised.
Proof.
  unfold deliver. destruct (pc call) as [| | |childProcess|];
    try (intros [= <- <-]; exists []; by rewrite app_nil_r).
  destruct event as [[text|message]|err|arg], kind;
    try (intros [= <- <-]; exists []; by rewrite app_nil_r).
  - unfold onMessage. destruct (bool_decide _);
      intros [= <- <-]; exists []; by rewrite app_nil_r.
  - intros [[_ ->]|[(_ & result & σ1 & Hresult & _ & ->)
                   |(_ & e & Hresult & _)]]%onMessage_emit_inv.
    + exists []. by rewrite app_nil_r.
    + destruct (updatedResult_emitted _ _ _ _ _ _ Hresult) as (Hemitted & _).
      destruct (decide (Updated.emittedFiles result = [])) as [Hnil|Hcons].
      * exists []. by rewrite app_nil_r.
      * exists [compilationData path_join platformData result].
        simpl. rewrite Hemitted. split; [done|]. split; [done|].
        constructor; [|constructor]. split; [|done]. simpl.
        by destruct (Updated.emittedFiles result).
    + destruct (updatedResult_emitted _ _ _ _ _ _ Hresult) as (Hemitted & _).
      exists []. by rewrite app_nil_r.
  - unfold onCloseWithoutWatch, modify. unfold mbind, M_bind. simpl.
    destruct (decide (exitCodeOf arg = CodeNumber 0));
      intros [= <- <-]; exists []; by rewrite app_nil_r.
Qed.

(** X9.  Every event that the listeners raise has a non-empty [files] list
    and carries the platform name of the invocation, over any sequence of
    events of the subprocess and also when a listener throws; the listeners
    of compileWithoutWatch raise no event at all. *)
Theorem raised_events_have_files (kind : Kind) (events : list ChildEvent)
    (call : Call) (outcome : result Call) (σ σ' : State) :
  deliverAll path_join kind platformData events call σ = (outcome, σ') ->
  ∃ raised,
    emitted σ' = (emitted σ ++ raised)%list
    ∧ (kind = WithoutWatch -> raised = [])
    ∧ Forall (fun data => FilesChange.files data ≠ []
                          ∧ FilesChange.platform data = platform) raised.
Proof.
  revert call σ. induction events as [|event events IH]; intros call σ.
  - intros [= <- <-]. exists []. by rewrite app_nil_r.
  - simpl. unfold mbind at 1, M_bind.
    destruct (deliver path_join kind platformData event call σ)
      as [[call1|e] σ1] eqn:Hfirst.
    + intros Hrest.
      destruct (deliver_raises _ _ _ _ _ _ Hfirst) as (raised1 & H1 & Hk1 & Hall1).
      destruct (IH _ _ Hrest) as (raised2 & H2 & Hk2 & Hall2).
      exists (raised1 ++ raised2)%list.
      split; [by rewrite H2, H1, (assoc_L (++))|]. split.
      * intros Hkind. by rewrite Hk1, Hk2.
      * by apply Forall_app.
    + intros [= <- <-]. by apply (deliver_raises _ _ _ _ _ _ Hfirst).
Qed.

End Session.

Lemma raised_events_have_files_witness :
  deliverAll posixJoin WithWatch ios
    [OnMessage (MessageString "Webpack compilation complete.");
     OnMessage (MessageEmit seedMessage);
     OnMessage (MessageEmit hotUpdateMessage)]
    (compileWithWatch paramsBuilt ios watchWithHmr initialState).1
    (compileWithWatch paramsBuilt ios watchWithHmr initialState).2
  = (Ok (listeningCall watchWithHmr iosProcess),
     emit (compilationData posixJoin ios
             {| Updated.emittedFiles := EmitMessage.emittedFiles hotUpdateMessage;
                Updated.fallbackFiles := EmitMessage.chunkFiles hotUpdateMessage;
                Updated.hash := "abc123" |})
       (setExpectedHashes <["ios" := "def456"]>
          (setExpectedHashes <["ios" := "h0"]>
             (compileWithWatch paramsBuilt ios watchWithHmr initialState).2)))
  ∧ ∃ raised,
      [compilationData posixJoin ios
         {| Updated.emittedFiles := EmitMessage.emittedFiles hotUpdateMessage;
            Updated.fallbackFiles := EmitMessage.chunkFiles hotUpdateMessage;
            Updated.hash := "abc123" |}] = ([] ++ raised)%list
      ∧ Forall (fun data => FilesChange.files data ≠ []
                            ∧ FilesChange.platform data = "ios") raised.
Proof.
  assert (deliverAll posixJoin WithWatch ios
            [OnMessage (MessageString "Webpack compilation complete.");
             OnMessage (MessageEmit seedMessage);
             OnMessage (MessageEmit hotUpdateMessage)]
            (compileWithWatch paramsBuilt ios watchWithHmr initialState).1
            (compileWithWatch paramsBuilt ios watchWithHmr initialState).2
          = (Ok (listeningCall watchWithHmr iosProcess),
             emit (compilationData posixJoin ios
                     {| Updated.emittedFiles :=
                          EmitMessage.emittedFiles hotUpdateMessage;
                        Updated.fallbackFiles :=
                          EmitMessage.chunkFiles hotUpdateMessage;
                        Updated.hash := "abc123" |})
               (setExpectedHashes <["ios" := "def456"]>
                  (setExpectedHashes <["ios" := "h0"]>
                     (compileWithWatch paramsBuilt ios watchWithHmr
                        initialState).2)))) as Hrun.
  { reflexivity. }
  split; [exact Hrun|].
  destruct (raised_events_have_files posixJoin ios _ _ _ _ _ _ Hrun)
    as (raised & Hraised & _ & Hall).
  exists raised. split; [exact Hraised|exact Hall].
Defined.

Lemma string_messages_only_settle_witness :
  pc (compileWithWatch paramsBuilt ios watchWithHmr initialState).1
  = Listening iosProcess
  ∧ ∃ call',
      deliverAll posixJoin WithWatch ios
        [OnMessage (MessageString "Hash: abc123");
         OnMessage (MessageString "Webpack compilation complete.")]
        (compileWithWatch paramsBuilt ios watchWithHmr initialState).1
        (compileWithWatch paramsBuilt ios watchWithHmr initialState).2
      = (Ok call', (compileWithWatch paramsBuilt ios watchWithHmr initialState).2)
      ∧ promise call' = Resolved (Some iosProcess)
      ∧ isFirstWebpackWatchCompilation call' = true.
Proof.
  split; [reflexivity|].
  destruct (string_messages_only_settle posixJoin ios iosProcess
              ["Hash: abc123"; "Webpack compilation complete."]
              (compileWithWatch paramsBuilt ios watchWithHmr initialState).1
              (compileWithWatch paramsBuilt ios watchWithHmr initialState).2
              eq_refl)
    as (call' & Hrun & Hpromise & Hfirst & _).
  exists call'. split; [exact Hrun|]. split.
  - rewrite Hpromise. reflexivity.
  - rewrite Hfirst. reflexivity.
Defined.

Section Chain.

Variable path_join : list string -> string.
Variable platformData : IPlatformData.

Local Abbreviation platform := (platformNameLowerCase platformData).

(** X10.  The first structured message seeds the chain that the second one
    continues: with [hmr] on, when the first hot-update script of the second
    message is [<name>.<hash>.hot-update.js] with the hash of the first
    message, the second message is reconciled on a valid chain.  Its event,
    raised when emitted files other than chunk files are left, carries those
    files and, in [hmrData], the hash of the first message and the chunk
    files; the expected hash becomes the hash of the second message. *)
Theorem seeded_chain_reports_hot_updates (childProcess : ChildProcess)
    (seed message : EmitMessage.t) (before after : list string) (name : string)
    (call : Call) (σ : State) :
  pc call = Listening childProcess ->
  isFirstWebpackWatchCompilation call = true ->
  hmr (prepareData call) = true ->
  EmitMessage.emittedFiles message
  = (before ++ (name +:+ "." +:+ EmitMessage.hash seed +:+ ".hot-update.js")
            :: after)%list ->
  Forall (fun file => Js.endsWith file ".hot-update.js" = false) before ->
  name ≠ "" -> EmitMessage.hash seed ≠ "" ->
  hasLineTerminator name = false ->
  hasLineTerminator (EmitMessage.hash seed) = false ->
  hasDot (EmitMessage.hash seed) = false ->
  ∃ call' σ',
    deliverAll path_join WithWatch platformData
      [OnMessage (MessageEmit seed); OnMessage (MessageEmit message)] call σ
    = (Ok call', σ')
    ∧ expectedHashes σ' !! platform = Some (EmitMessage.hash message)
    ∧ emitted σ'
      = (emitted σ
         ++ if decide (list_difference (EmitMessage.emittedFiles message)
                         (EmitMessage.chunkFiles message) = [])
            then []
            else [compilationData path_join platformData
                    {| Updated.emittedFiles :=
                         list_difference (EmitMessage.emittedFiles message)
                           (EmitMessage.chunkFiles message);
                       Updated.fallbackFiles := EmitMessage.chunkFiles message;
                       Updated.hash := EmitMessage.hash seed |}])%list.
Proof.
  intros Hpc Hfirst Hhmr Hfiles Hbefore Hname Hhash Hlt1 Hlt2 Hdot.
  set (σ0 := setExpectedHashes <[platform := EmitMessage.hash seed]> σ).
  set (call0 := {| prepareData := prepareData call; pc := pc call;
                   promise := promise call;
                   isFirstWebpackWatchCompilation := false |}).
  set (result := {| Updated.emittedFiles :=
                      list_difference (EmitMessage.emittedFiles message)
                        (EmitMessage.chunkFiles message);
                    Updated.fallbackFiles := EmitMessage.chunkFiles message;
                    Updated.hash := EmitMessage.hash seed |}).
  assert (updatedResult (prepareData call0) platform message σ0
          = (Ok result, setExpectedHashes <[platform := EmitMessage.hash message]> σ0))
    as Hresult.
  { unfold updatedResult. simpl. rewrite Hhmr.
    rewrite (getUpdatedEmittedFiles_run _ _ _ _ (EmitMessage.hash seed)).
    - simpl. rewrite lookup_insert_eq. unfold isHashValid.
      rewrite bool_decide_eq_true_2 by done.
      by destruct (truthy (EmitMessage.hash message)).
    - rewrite Hfiles.
      rewrite getCurrentHotUpdateHash_first_script
        by (done || apply endsWith_script).
      by rewrite hotUpdateMatcherExec_name_hash. }
  assert (deliver path_join WithWatch platformData (OnMessage (MessageEmit seed))
            call σ = (Ok call0, σ0)) as Hseed.
  { unfold deliver. rewrite Hpc. unfold onMessage. by rewrite Hfirst. }
  assert (deliver path_join WithWatch platformData (OnMessage (MessageEmit message))
            call0 σ0
          = (Ok call0,
             if decide (Updated.emittedFiles result = [])
             then setExpectedHashes <[platform := EmitMessage.hash message]> σ0
             else emit (compilationData path_join platformData result)
                    (setExpectedHashes <[platform := EmitMessage.hash message]> σ0)))
    as Hsecond.
  { unfold deliver. cbn [pc call0]. rewrite Hpc.
    by apply onMessage_later. }
  eexists _, _. split.
  - cbn [deliverAll]. rewrite (M_bind_ok _ _ _ _ _ Hseed).
    by rewrite (M_bind_ok _ _ _ _ _ Hsecond).
  - cbn [Updated.emittedFiles result].
    destruct (decide (list_difference _ _ = [])) as [Hnil|Hcons].
    + split; [apply lookup_insert_eq|]. simpl. by rewrite app_nil_r.
    + split; [apply lookup_insert_eq|]. done.
Qed.

(** X11.  With [hmr] on, a structured message after the first one whose
    first hot-update script has neither a dot nor a line break in front of
    [.hot-update.js] makes the listener throw a [TypeError]: no event is
    raised and the state stays as it was, the expected hash included. *)
Theorem malformed_script_makes_listener_throw (childProcess : ChildProcess)
    (message : EmitMessage.t) (before after : list string) (prefix : string)
    (call : Call) (σ : State) :
  pc call = Listening childProcess ->
  isFirstWebpackWatchCompilation call = false ->
  hmr (prepareData call) = true ->
  EmitMessage.emittedFiles message
  = (before ++ (prefix +:+ ".hot-update.js") :: after)%list ->
  Forall (fun file => Js.endsWith file ".hot-update.js" = false) before ->
  hasDot prefix = false ->
  hasLineTerminator prefix = false ->
  deliver path_join WithWatch platformData (OnMessage (MessageEmit message)) call σ
  = (Throw (TypeError "Cannot read property '2' of null"), σ).
Proof.
  intros Hpc Hfirst Hhmr Hfiles Hbefore Hdot Hlt.
  unfold deliver. rewrite Hpc.
  apply onMessage_later_throws; [done|].
  unfold updatedResult. rewrite Hhmr.
  apply getUpdatedEmittedFiles_throws. rewrite Hfiles.
  rewrite getCurrentHotUpdateHash_first_script by (done || apply endsWith_app).
  by rewrite hotUpdateMatcherExec_without_segments.
Qed.

(** X12.  When the subprocess of compileWithWatch closes, the listener
    never resolves: a pending promise is rejected with an error that carries
    the exit code, also for the exit code 0, and a promise settled before
    keeps its value.  The registry entry of the platform is deleted, the pid
    is taken off the cleanup service, and the invocation ends. *)
Theorem watch_close_rejects_and_deregisters (childProcess : ChildProcess)
    (arg : CloseArg) (call : Call) (σ : State) :
  pc call = Listening childProcess ->
  ∃ call' σ',
    deliver path_join WithWatch platformData (OnClose arg) call σ = (Ok call', σ')
    ∧ promise call' = reject (exitError (exitCodeOf arg)) (promise call)
    ∧ (promise call = Pending ->
       promise call' = Rejected (exitError (exitCodeOf arg)))
    ∧ pc call' = Finished
    ∧ webpackProcesses σ' = delete platform (webpackProcesses σ)
    ∧ (pid childProcess ∉ killProcesses σ')
    ∧ (pid childProcess ∈ exited σ')
    ∧ emitted σ' = emitted σ.
Proof.
  intros Hpc. unfold deliver. rewrite Hpc.
  eexists _, _. split; [reflexivity|]. simpl.
  split; [done|]. split; [by intros ->|]. split; [done|]. split; [done|].
  split; [|split; [|done]].
  - rewrite list_elem_of_In, filter_In, negb_true_iff, Nat.eqb_neq.
    by intros [_ ?].
  - apply elem_of_app. right. apply list_elem_of_here.
Qed.

(** X13.  An ["error"] event of the subprocess deletes the registry entry of
    the platform and rejects a pending promise with the error, but the pid
    stays on the cleanup service and the listeners stay attached.  In
    compileWithoutWatch a close that follows cannot resolve any more: even
    with the exit code 0 the promise stays rejected with the error. *)
Theorem error_event_rejects_for_good (kind : Kind) (childProcess : ChildProcess)
    (err : JsError) (call : Call) (σ : State) :
  pc call = Listening childProcess ->
  promise call = Pending ->
  (∃ call' σ',
     deliver path_join kind platformData (OnError err) call σ = (Ok call', σ')
     ∧ promise call' = Rejected err
     ∧ pc call' = Listening childProcess
     ∧ webpackProcesses σ' = delete platform (webpackProcesses σ)
     ∧ killProcesses σ' = killProcesses σ)
  ∧ ∀ arg : CloseArg,
      ∃ call' σ',
        deliverAll path_join WithoutWatch platformData
          [OnError err; OnClose arg] call σ = (Ok call', σ')
        ∧ promise call' = Rejected err
        ∧ pc call' = Finished.
Proof.
  intros Hpc Hpending. split.
  - unfold deliver. rewrite Hpc.
    assert (onError platformData err call σ
            = (Ok (settle (reject err) call),
               setWebpackProcesses (delete platform) σ)) as Herror.
    { reflexivity. }
    exists (settle (reject err) call), (setWebpackProcesses (delete platform) σ).
    split; [by destruct kind|]. simpl. by rewrite Hpending.
  - intros arg. cbn [deliverAll]. unfold deliver. rewrite Hpc.
    unfold onError, onCloseWithoutWatch, modify.
    unfold mbind, M_bind, mret, M_ret. simpl. rewrite Hpc.
    destruct (decide (exitCodeOf arg = CodeNumber 0));
      eexists _, _; (split; [reflexivity|]); simpl; by rewrite Hpending.
Qed.

End Chain.

Lemma seeded_chain_reports_hot_updates_witness :
  pc (compileWithWatch paramsBuilt ios watchWithHmr initialState).1
  = Listening iosProcess
  ∧ ∃ call' σ',
      deliverAll posixJoin WithWatch ios
        [OnMessage (MessageEmit seedMessage); OnMessage (MessageEmit afterSeedMessage)]
        (compileWithWatch paramsBuilt ios watchWithHmr initialState).1
        (compileWithWatch paramsBuilt ios watchWithHmr initialState).2
      = (Ok call', σ')
      ∧ expectedHashes σ' !! "ios" = Some "h1"
      ∧ FilesChange.files <$> emitted σ'
        = [["/project/platforms/ios/project/app/bundle.h0.hot-update.js"]]
      ∧ FilesChange.hmrData <$> emitted σ'
        = [{| HmrData.hash := "h0";
              HmrData.fallbackFiles :=
                ["/project/platforms/ios/project/app/bundle.js"] |}].
Proof.
  split; [reflexivity|].
  destruct (seeded_chain_reports_hot_updates posixJoin ios iosProcess
              seedMessage afterSeedMessage ["bundle.js"] [] "bundle"
              (compileWithWatch paramsBuilt ios watchWithHmr initialState).1
              (compileWithWatch paramsBuilt ios watchWithHmr initialState).2
              eq_refl eq_refl eq_refl eq_refl
              ltac:(repeat constructor) ltac:(discriminate) ltac:(discriminate)
              eq_refl eq_refl eq_refl)
    as (call' & σ' & Hrun & Hhash & Hemitted).
  exists call', σ'. split; [exact Hrun|]. split; [exact Hhash|].
  rewrite Hemitted. split; reflexivity.
Defined.

Lemma malformed_script_makes_listener_throw_witness :
  pc (listeningCall watchWithHmr iosProcess) = Listening iosProcess
  ∧ deliver posixJoin WithWatch ios (OnMessage (MessageEmit malformedMessage))
      (listeningCall watchWithHmr iosProcess) (expecting "ios" "h1")
    = (Throw (TypeError "Cannot read property '2' of null"), expecting "ios" "h1").
Proof.
  split; [reflexivity|].
  exact (malformed_script_makes_listener_throw posixJoin ios iosProcess
           malformedMessage ["bundle.js"] [] "bundle"
           (listeningCall watchWithHmr iosProcess) (expecting "ios" "h1")
           eq_refl eq_refl eq_refl eq_refl
           ltac:(repeat constructor) eq_refl eq_refl).
Defined.

Lemma watch_close_rejects_and_deregisters_witness :
  pc (compileWithWatch paramsBuilt ios watchWithHmr initialState).1
  = Listening iosProcess
  ∧ ∃ call' σ',
      deliver posixJoin WithWatch ios (OnClose (ArgNumber 0))
        (compileWithWatch paramsBuilt ios watchWithHmr initialState).1
        (compileWithWatch paramsBuilt ios watchWithHmr initialState).2
      = (Ok call', σ')
      ∧ promise call' = Rejected (exitError (CodeNumber 0))
      ∧ webpackProcesses σ' !! "ios" = None.
Proof.
  split; [reflexivity|].
  destruct (watch_close_rejects_and_deregisters posixJoin ios iosProcess
              (ArgNumber 0)
              (compileWithWatch paramsBuilt ios watchWithHmr initialState).1
              (compileWithWatch paramsBuilt ios watchWithHmr initialState).2
              eq_refl)
    as (call' & σ' & Hrun & _ & Hpending & _ & Hmap & _).
  exists call', σ'. split; [exact Hrun|]. split.
  - apply Hpending. reflexivity.
  - rewrite Hmap. reflexivity.
Defined.

Lemma error_event_rejects_for_good_witness :
  pc (compileWithoutWatch paramsBuilt android oneShot initialState).1
  = Listening {| pid := 1; platformFlag := "android"; watchArg := false |}
  ∧ promise (compileWithoutWatch paramsBuilt android oneShot initialState).1
    = Pending
  ∧ ∃ call' σ',
      deliverAll posixJoin WithoutWatch android
        [OnError (OtherError "spawn EAGAIN"); OnClose (ArgNumber 0)]
        (compileWithoutWatch paramsBuilt android oneShot initialState).1
        (compileWithoutWatch paramsBuilt android oneShot initialState).2
      = (Ok call', σ')
      ∧ promise call' = Rejected (OtherError "spawn EAGAIN").
Proof.
  split; [reflexivity|]. split; [reflexivity|].
  destruct (proj2 (error_event_rejects_for_good posixJoin android WithoutWatch
                     {| pid := 1; platformFlag := "android"; watchArg := false |}
                     (OtherError "spawn EAGAIN")
                     (compileWithoutWatch paramsBuilt android oneShot initialState).1
                     (compileWithoutWatch paramsBuilt android oneShot initialState).2
                     eq_refl eq_refl) (ArgNumber 0))
    as (call' & σ' & Hrun & Hpromise & _).
  exists call', σ'. split; [exact Hrun|exact Hpromise].
Defined.

(** ** Starting again *)

Section Restart.

Variable path_join : list string -> string.
Variable kill : ChildProcess -> string -> result bool.
Variable buildEnvCommandLineParams : IPlatformData -> IPrepareData -> result (list string).
Variable platformData : IPlatformData.

Local Abbreviation platform := (platformNameLowerCase platformData).

(** X14.  After the subprocess of a watch session has closed,
    compileWithWatch starts a new session instead of resolving at once: it
    spawns a subprocess with another pid, registers it, and its first
    structured message will again only seed. *)
Theorem closed_session_starts_again (prepareData1 prepareData2 : IPrepareData)
    (params1 params2 : list string) (arg : CloseArg) (σ : State) :
  webpackProcesses σ !! platform = None ->
  buildEnvCommandLineParams platformData (setWatch WithWatch prepareData1)
  = Ok params1 ->
  buildEnvCommandLineParams platformData (setWatch WithWatch prepareData2)
  = Ok params2 ->
  ∃ call1 σ1 child1 closed σ2 call2 σ3 child2,
    compileWithWatch buildEnvCommandLineParams platformData prepareData1 σ
    = (call1, σ1)
    ∧ pc call1 = Listening child1
    ∧ deliver path_join WithWatch platformData (OnClose arg) call1 σ1
      = (Ok closed, σ2)
    ∧ compileWithWatch buildEnvCommandLineParams platformData prepareData2 σ2
      = (call2, σ3)
    ∧ pc call2 = Listening child2
    ∧ pid child2 ≠ pid child1
    ∧ promise call2 = Pending
    ∧ isFirstWebpackWatchCompilation call2 = true
    ∧ webpackProcesses σ3 !! platform = Some child2
    ∧ spawned σ3 = (spawned σ ++ [child1; child2])%list.
Proof.
  intros Hnone Hbuild1 Hbuild2. unfold compileWithWatch.
  rewrite (runCall_unregistered _ WithWatch platformData prepareData1 params1 σ
             Hnone Hbuild1).
  eexists _, _, _. eexists. eexists. eexists. eexists. eexists.
  split; [reflexivity|]. split; [reflexivity|].
  split; [reflexivity|].
  rewrite (runCall_unregistered _ WithWatch platformData prepareData2 params2)
    by (done || (simpl; apply lookup_delete_eq)).
  split; [reflexivity|]. split; [reflexivity|]. simpl.
  rewrite length_app. simpl.
  split; [lia|]. split; [done|]. split; [done|].
  split; [apply lookup_insert_eq|]. by rewrite <- (assoc_L (++)).
Qed.

(** X15.  The close listener deletes the registry entry of its platform,
    whichever subprocess is registered there.  When a session is stopped and
    a new one is started before the stopped subprocess has closed, that
    close removes the entry of the new subprocess: the new one is still
    alive and tracked by the cleanup service, but no longer registered. *)
Theorem close_of_stopped_process_deregisters_successor
    (prepareData1 prepareData2 : IPrepareData) (params1 params2 : list string)
    (killed : bool) (arg : CloseArg) (σ : State) :
  platform ≠ "" ->
  webpackProcesses σ !! platform = None ->
  Forall (fun p => (p ≤ length (spawned σ))%nat) (exited σ) ->
  buildEnvCommandLineParams platformData (setWatch WithWatch prepareData1)
  = Ok params1 ->
  buildEnvCommandLineParams platformData (setWatch WithWatch prepareData2)
  = Ok params2 ->
  (∀ child, kill child "SIGINT" = Ok killed) ->
  ∃ call1 σ1 child1 σ2 call2 σ3 child2 closed σ4,
    compileWithWatch buildEnvCommandLineParams platformData prepareData1 σ
    = (call1, σ1)
    ∧ pc call1 = Listening child1
    ∧ stopWebpackCompiler kill (Some platform) σ1 = (Ok (), σ2)
    ∧ compileWithWatch buildEnvCommandLineParams platformData prepareData2 σ2
      = (call2, σ3)
    ∧ pc call2 = Listening child2
    ∧ webpackProcesses σ3 !! platform = Some child2
    ∧ deliver path_join WithWatch platformData (OnClose arg) call1 σ3
      = (Ok closed, σ4)
    ∧ webpackProcesses σ4 !! platform = None
    ∧ child2 ∈ liveProcesses platform σ4
    ∧ pid child2 ∈ killProcesses σ4.
Proof.
  intros Hname Hnone Hexited Hbuild1 Hbuild2 Hkill. unfold compileWithWatch.
  rewrite (runCall_unregistered _ WithWatch platformData prepareData1 params1 σ
             Hnone Hbuild1).
  eexists _, _, _. eexists. eexists. eexists. eexists. eexists. eexists.
  split; [reflexivity|]. split; [reflexivity|].
  split.
  { unfold stopWebpackCompiler.
    assert (truthy platform = true) as ->.
    { unfold truthy. by rewrite bool_decide_eq_false_2. }
    eapply stopWebpackForPlatform_registered;
      [simpl; apply lookup_insert_eq|apply Hkill]. }
  rewrite (runCall_unregistered _ WithWatch platformData prepareData2 params2)
    by (done || (simpl; apply lookup_delete_eq)).
  split; [reflexivity|]. split; [reflexivity|].
  split; [simpl; apply lookup_insert_eq|].
  split; [reflexivity|]. simpl.
  split; [apply lookup_delete_eq|]. split.
  - unfold liveProcesses. apply list_elem_of_In, filter_In. simpl. split.
    + apply list_elem_of_In. rewrite !length_app. simpl.
      apply elem_of_app. right. apply list_elem_of_here.
    + rewrite bool_decide_eq_true_2 by done. simpl.
      apply negb_true_iff, bool_decide_eq_false.
      rewrite length_app. simpl.
      intros [Hold|Hnew%list_elem_of_singleton]%elem_of_app; [|lia].
      rewrite Forall_forall in Hexited.
      apply Hexited in Hold. lia.
  - apply list_elem_of_In, filter_In. split.
    + apply list_elem_of_In, elem_of_app. right. apply list_elem_of_here.
    + apply negb_true_iff, Nat.eqb_neq. rewrite length_app. simpl. lia.
Qed.

(** X16.  When the environment parameters cannot be built, the invocation
    rejects its promise with the error of the failure and ends: nothing is
    spawned, nothing is registered, and the state of the service is as it
    was, so that a later call starts afresh. *)
Theorem failed_environment_rejects_without_spawning (kind : Kind)
    (prepareData : IPrepareData) (err : JsError) (σ : State) :
  webpackProcesses σ !! platform = None ->
  buildEnvCommandLineParams platformData (setWatch kind prepareData) = Throw err ->
  runCall buildEnvCommandLineParams kind platformData (newCall prepareData) σ
  = ({| prepareData := setWatch kind prepareData; pc := Finished;
        promise := Rejected err; isFirstWebpackWatchCompilation := true |}, σ).
Proof.
  intros Hnone Hbuild. unfold runCall.
  rewrite (stepCall_entry_unregistered _ _ _ _ _ Hnone).
  unfold stepCall at 1. simpl. by rewrite Hbuild.
Qed.

(** X17.  stopWebpackCompiler with the name of a platform for which no
    subprocess is registered throws a [TypeError] and leaves the state as it
    was; this is what a second stop of the same platform meets after a first
    one that went through. *)
Theorem stop_of_unregistered_platform_throws (name : string) (σ : State) :
  name ≠ "" ->
  (webpackProcesses σ !! name = None ->
   stopWebpackCompiler kill (Some name) σ
   = (Throw (TypeError "Cannot read property 'pid' of undefined"), σ))
  ∧ (∀ child killed,
       webpackProcesses σ !! name = Some child ->
       kill child "SIGINT" = Ok killed ->
       ∃ σ1,
         stopWebpackCompiler kill (Some name) σ = (Ok (), σ1)
         ∧ stopWebpackCompiler kill (Some name) σ1
           = (Throw (TypeError "Cannot read property 'pid' of undefined"), σ1)).
Proof.
  intros Hname. unfold stopWebpackCompiler.
  assert (truthy name = true) as ->.
  { unfold truthy. by rewrite bool_decide_eq_false_2. }
  split.
  - apply stopWebpackForPlatform_unregistered.
  - intros child killed Hchild Hkill. eexists. split.
    + exact (stopWebpackForPlatform_registered kill _ _ _ _ Hchild Hkill).
    + apply stopWebpackForPlatform_unregistered. simpl. apply lookup_delete_eq.
Qed.

End Restart.

Lemma closed_session_starts_again_witness :
  webpackProcesses initialState !! "ios" = None
  ∧ ∃ call1 σ1 child1 closed σ2 call2 σ3 child2,
      compileWithWatch paramsBuilt ios watchWithHmr initialState = (call1, σ1)
      ∧ pc call1 = Listening child1
      ∧ deliver posixJoin WithWatch ios (OnClose (ArgNumber 1)) call1 σ1
        = (Ok closed, σ2)
      ∧ compileWithWatch paramsBuilt ios watchWithoutHmr σ2 = (call2, σ3)
      ∧ pc call2 = Listening child2
      ∧ pid child2 ≠ pid child1
      ∧ promise call2 = Pending
      ∧ isFirstWebpackWatchCompilation call2 = true
      ∧ webpackProcesses σ3 !! "ios" = Some child2
      ∧ spawned σ3 = (spawned initialState ++ [child1; child2])%list.
Proof.
  split; [reflexivity|].
  exact (closed_session_starts_again posixJoin paramsBuilt ios watchWithHmr
           watchWithoutHmr [] [] (ArgNumber 1) initialState
           eq_refl eq_refl eq_refl).
Defined.

Lemma close_of_stopped_process_deregisters_successor_witness :
  webpackProcesses initialState !! "ios" = None
  ∧ ∃ call1 σ1 child1 σ2 call2 σ3 child2 closed σ4,
      compileWithWatch paramsBuilt ios watchWithHmr initialState = (call1, σ1)
      ∧ pc call1 = Listening child1
      ∧ stopWebpackCompiler killDelivers (Some "ios") σ1 = (Ok (), σ2)
      ∧ compileWithWatch paramsBuilt ios watchWithHmr σ2 = (call2, σ3)
      ∧ pc call2 = Listening child2
      ∧ webpackProcesses σ3 !! "ios" = Some child2
      ∧ deliver posixJoin WithWatch ios (OnClose ArgNull) call1 σ3
        = (Ok closed, σ4)
      ∧ webpackProcesses σ4 !! "ios" = None
      ∧ child2 ∈ liveProcesses "ios" σ4
      ∧ pid child2 ∈ killProcesses σ4.
Proof.
  split; [reflexivity|].
  exact (close_of_stopped_process_deregisters_successor posixJoin killDelivers
           paramsBuilt ios watchWithHmr watchWithHmr [] [] true ArgNull
           initialState ltac:(discriminate) eq_refl ltac:(constructor)
           eq_refl eq_refl (fun _ => eq_refl)).
Defined.

Lemma failed_environment_rejects_without_spawning_witness :
  webpackProcesses initialState !! "ios" = None
  ∧ paramsFail ios (setWatch WithWatch watchWithHmr)
    = Throw (OtherError Env.snapshotWarning)
  ∧ compileWithWatch paramsFail ios watchWithHmr initialState
    = ({| prepareData := watchWithHmr; pc := Finished;
          promise := Rejected (OtherError Env.snapshotWarning);
          isFirstWebpackWatchCompilation := true |}, initialState).
Proof.
  split; [reflexivity|]. split; [reflexivity|].
  exact (failed_environment_rejects_without_spawning paramsFail ios WithWatch
           watchWithHmr (OtherError Env.snapshotWarning) initialState
           eq_refl eq_refl).
Defined.

Lemma stop_of_unregistered_platform_throws_witness :
  "ios" ≠ ""
  ∧ stopWebpackCompiler killDelivers (Some "ios") initialState
    = (Throw (TypeError "Cannot read property 'pid' of undefined"), initialState)
  ∧ ∃ σ1,
      stopWebpackCompiler killDelivers (Some "ios") bothRegistered = (Ok (), σ1)
      ∧ stopWebpackCompiler killDelivers (Some "ios") σ1
        = (Throw (TypeError "Cannot read property 'pid' of undefined"), σ1).
Proof.
  split; [discriminate|]. split.
  - exact (proj1 (stop_of_unregistered_platform_throws killDelivers "ios"
                    initialState ltac:(discriminate)) eq_refl).
  - exact (proj2 (stop_of_unregistered_platform_throws killDelivers "ios"
                    bothRegistered ltac:(discriminate))
             iosProcess true eq_refl eq_refl).
Defined.

(** ** The environment object *)

Import Env.

Lemma get_set_eq (key : string) (v : Value) (o : Obj) : get (set key v o) key = v.
Proof.
  induction o as [|[k v0] o IH]; simpl.
  - by rewrite decide_True.
  - destruct (decide (k = key)) as [->|Hne]; simpl.
    + by rewrite decide_True.
    + by rewrite decide_False.
Qed.

Lemma get_set_ne (key key' : string) (v : Value) (o : Obj) :
  key ≠ key' -> get (set key v o) key' = get o key'.
Proof.
  intros Hne. induction o as [|[k v0] o IH]; simpl.
  - by rewrite decide_False.
  - destruct (decide (k = key)) as [->|Hk]; simpl.
    + by rewrite !decide_False.
    + by rewrite IH.
Qed.

Lemma get_remove_ne (key key' : string) (o : Obj) :
  key ≠ key' -> get (remove key o) key' = get o key'.
Proof.
  intros Hne. induction o as [|[k v0] o IH]; simpl; [done|].
  destruct (decide (k = key)) as [->|Hk].
  - rewrite bool_decide_eq_true_2 by done. simpl.
    by rewrite decide_False.
  - rewrite bool_decide_eq_false_2 by done. simpl. by rewrite IH.
Qed.

Lemma keys_remove (key key' : string) (o : Obj) :
  key' ∈ keys (remove key o) ↔ key' ≠ key ∧ key' ∈ keys o.
Proof.
  unfold keys. induction o as [|[k v0] o IH]; simpl.
  - split; [by intros ?%elem_of_nil|by intros [_ ?%elem_of_nil]].
  - destruct (decide (k = key)) as [->|Hk].
    + rewrite bool_decide_eq_true_2 by done. simpl. rewrite IH.
      rewrite elem_of_cons. intuition congruence.
    + rewrite bool_decide_eq_false_2 by done. simpl.
      rewrite !elem_of_cons, IH. intuition congruence.
Qed.

Lemma keys_set (key key' : string) (v : Value) (o : Obj) :
  key' ∈ keys (set key v o) ↔ key' = key ∨ key' ∈ keys o.
Proof.
  unfold keys. induction o as [|[k v0] o IH]; simpl.
  - rewrite list_elem_of_singleton. split; [by left|].
    by intros [?|?%elem_of_nil].
  - destruct (decide (k = key)) as [->|Hk]; simpl.
    + rewrite !elem_of_cons. intuition congruence.
    + rewrite !elem_of_cons, IH. intuition congruence.
Qed.

(** A property that reads as something else than [undefined] is an own
    property. *)
Lemma get_defined_in_keys (key : string) (o : Obj) :
  get o key ≠ Single SUndefined -> key ∈ keys o.
Proof.
  unfold keys. induction o as [|[k v0] o IH]; simpl; [done|].
  destruct (decide (k = key)) as [->|Hk].
  - intros _. apply list_elem_of_here.
  - intros H. by apply list_elem_of_further, IH.
Qed.

Lemma set_fresh (key : string) (v : Value) (o : Obj) :
  key ∉ keys o -> set key v o = (o ++ [(key, v)])%list.
Proof.
  unfold keys. induction o as [|[k v0] o IH]; simpl; [done|].
  intros [Hk Hrest]%not_elem_of_cons.
  rewrite decide_False by done. by rewrite IH.
Qed.

Lemma assign_fresh (target source : Obj) :
  NoDup (keys target ++ keys source) ->
  assign target source = (target ++ source)%list.
Proof.
  unfold assign. revert target.
  induction source as [|[k v] source IH]; intros target Hnodup; simpl.
  - by rewrite app_nil_r.
  - simpl in Hnodup.
    rewrite set_fresh.
    + rewrite IH; [by rewrite <- (assoc_L (++))|].
      unfold keys in *. rewrite fmap_app. simpl.
      by rewrite <- (assoc_L (++)).
    + apply NoDup_app in Hnodup as (_ & Hdisj & _).
      intros Hin. apply (Hdisj k Hin). apply list_elem_of_here.
Qed.

(** The characters that [toLowerCase] leaves are no capital letters of
    A to Z. *)
Lemma lowerChar_not_capital (c u : ascii) :
  (65 ≤ nat_of_ascii u ≤ 90)%nat -> lowerChar c ≠ u.
Proof.
  intros Hu <-. revert Hu.
  destruct c as [[] [] [] [] [] [] [] []]; vm_compute; lia.
Qed.

Lemma toLowerCase_chars (s : string) :
  Js.chars (toLowerCase s) = lowerChar <$> Js.chars s.
Proof. apply list_ascii_of_string_of_list_ascii. Qed.

Lemma toLowerCase_neq (s t : string) (u : ascii) :
  u ∈ Js.chars t -> (65 ≤ nat_of_ascii u ≤ 90)%nat -> toLowerCase s ≠ t.
Proof.
  intros Hin Hu Heq. rewrite <- Heq, toLowerCase_chars in Hin.
  apply list_elem_of_fmap in Hin as (c & Hc & _).
  by apply (lowerChar_not_capital c u).
Qed.

Lemma assign_one (key : string) (v : Value) (o : Obj) :
  assign o [(key, v)] = set key v o.
Proof. reflexivity. Qed.

Lemma toLowerCase_not_appPath (s : string) : toLowerCase s ≠ "appPath".
Proof.
  apply (toLowerCase_neq s _ "P"%char); [|vm_compute; lia].
  vm_compute. set_solver.
Qed.

Lemma toLowerCase_not_appResourcesPath (s : string) :
  toLowerCase s ≠ "appResourcesPath".
Proof.
  apply (toLowerCase_neq s _ "P"%char); [|vm_compute; lia].
  vm_compute. set_solver.
Qed.

Lemma toLowerCase_not_skipSnapshotTools (s : string) :
  toLowerCase s ≠ "skipSnapshotTools".
Proof.
  apply (toLowerCase_neq s _ "S"%char); [|vm_compute; lia].
  vm_compute. set_solver.
Qed.

Lemma toLowerCase_not_sourceMap (s : string) : toLowerCase s ≠ "sourceMap".
Proof.
  apply (toLowerCase_neq s _ "M"%char); [|vm_compute; lia].
  vm_compute. set_solver.
Qed.

(** Names the objects that buildEnvData goes through. *)
Ltac buildEnvData_stages projectData :=
  unfold buildEnvData;
  set (e0 := assign (assign [] _) [(_, Single (SBool true))]);
  set (e1 := if truthy (getAppDirectoryRelativePath projectData)
             then _ else _);
  set (e2 := if truthy (getAppResourcesRelativeDirectoryPath projectData)
             then _ else _);
  set (e3 := set "verbose" _ _);
  set (e4 := set "production" _ _);
  set (e5 := set "skipSnapshotTools" _ _).

Lemma buildEnvData_get_platform (isVerbose : bool) (platform : string)
    (projectData : IProjectData) (prepareData : PrepareEnv) :
  get (buildEnvData isVerbose platform projectData prepareData)
    (toLowerCase platform)
  = Single (SBool true).
Proof.
  buildEnvData_stages projectData.
  assert (H0 : get e0 (toLowerCase platform) = Single (SBool true)).
  { unfold e0. rewrite assign_one. apply get_set_eq. }
  assert (H1 : get e1 (toLowerCase platform) = Single (SBool true)).
  { unfold e1. destruct (truthy (getAppDirectoryRelativePath projectData));
      [|done].
    rewrite assign_one, get_set_ne; [done|].
    apply not_eq_sym, toLowerCase_not_appPath. }
  assert (H2 : get e2 (toLowerCase platform) = Single (SBool true)).
  { unfold e2.
    destruct (truthy (getAppResourcesRelativeDirectoryPath projectData));
      [|done].
    rewrite assign_one, get_set_ne; [done|].
    apply not_eq_sym, toLowerCase_not_appResourcesPath. }
  assert (H3 : get e3 (toLowerCase platform) = Single (SBool true)).
  { unfold e3.
    destruct (decide ("verbose" = toLowerCase platform)) as [Heq|Hne].
    - rewrite <- Heq in H2 |- *. by rewrite get_set_eq, H2.
    - by rewrite get_set_ne. }
  assert (H4 : get e4 (toLowerCase platform) = Single (SBool true)).
  { unfold e4.
    destruct (decide ("production" = toLowerCase platform)) as [Heq|Hne].
    - rewrite <- Heq in H3 |- *. by rewrite get_set_eq, H3.
    - by rewrite get_set_ne. }
  assert (H5 : get e5 (toLowerCase platform) = Single (SBool true)).
  { unfold e5. rewrite get_set_ne; [done|].
    apply not_eq_sym, toLowerCase_not_skipSnapshotTools. }
  pose proof (toLowerCase_not_sourceMap platform) as Hsm.
  destruct (sourceMapSwitchedOff _).
  - by rewrite get_remove_ne.
  - destruct (negb _); [|done]. by rewrite get_set_ne.
Qed.

Lemma assign_nil (e : Obj) : NoDup (keys e) -> assign [] e = e.
Proof. intros Hnodup. by rewrite assign_fresh. Qed.

Lemma get_remove_eq (key : string) (o : Obj) :
  get (remove key o) key = Single SUndefined.
Proof.
  induction o as [|[k v0] o IH]; simpl; [done|].
  destruct (decide (k = key)) as [->|Hk].
  - by rewrite bool_decide_eq_true_2.
  - rewrite bool_decide_eq_false_2 by done. simpl. by rewrite decide_False.
Qed.

Lemma keys_remove_filter (key : string) (o : Obj) :
  keys (remove key o)
  = List.filter (fun k => negb (bool_decide (k = key))) (keys o).
Proof.
  unfold keys. induction o as [|[k v0] o IH]; simpl; [done|].
  destruct (bool_decide (k = key)); simpl; [done|]. by f_equal.
Qed.

(** The objects that buildEnvData goes through differ from [env] only in
    the properties that it names. *)
Lemma buildEnvData_get_other (isVerbose : bool) (platform : string)
    (projectData : IProjectData) (prepareData : PrepareEnv) (key : string) :
  NoDup (keys (default [] (env prepareData))) ->
  key ∉ reserved ->
  get (buildEnvData isVerbose platform projectData prepareData) key
  = if decide (toLowerCase platform = key) then Single (SBool true)
    else get (default [] (env prepareData)) key.
Proof.
  intros Hnodup Hkey.
  assert (Hne : ∀ k, k ∈ reserved -> k ≠ key) by (intros k Hk ->; done).
  buildEnvData_stages projectData.
  assert (H0 : get e0 key
               = if decide (toLowerCase platform = key) then Single (SBool true)
                 else get (default [] (env prepareData)) key).
  { unfold e0. rewrite assign_one, assign_nil by done.
    destruct (decide _) as [<-|Hlp]; [apply get_set_eq|by apply get_set_ne]. }
  assert (H1 : get e1 key = get e0 key).
  { unfold e1. destruct (truthy (getAppDirectoryRelativePath projectData));
      [|done].
    rewrite assign_one. apply get_set_ne, Hne. set_solver. }
  assert (H2 : get e2 key = get e1 key).
  { unfold e2.
    destruct (truthy (getAppResourcesRelativeDirectoryPath projectData));
      [|done].
    rewrite assign_one. apply get_set_ne, Hne. set_solver. }
  assert (H3 : get e3 key = get e2 key).
  { apply get_set_ne, Hne. set_solver. }
  assert (H4 : get e4 key = get e3 key).
  { apply get_set_ne, Hne. set_solver. }
  assert (H5 : get e5 key = get e4 key).
  { apply get_set_ne, Hne. set_solver. }
  rewrite <- H0, <- H1, <- H2, <- H3, <- H4, <- H5.
  destruct (sourceMapSwitchedOff _).
  - apply get_remove_ne, Hne. set_solver.
  - destruct (negb _); [|done]. apply get_set_ne, Hne. set_solver.
Qed.

(** X18.  Whatever [env] holds, the environment object that buildEnvData
    returns has the lower-cased name of the platform set to [true]: neither a
    property of [env] under that name nor a later step overrides it. *)
Theorem buildEnvData_sets_platform_flag (isVerbose : bool) (platform : string)
    (projectData : IProjectData) (prepareData : PrepareEnv) :
  get (buildEnvData isVerbose platform projectData prepareData)
    (toLowerCase platform)
  = Single (SBool true).
Proof. apply buildEnvData_get_platform. Qed.

(** X19.  The [sourceMap] property of the environment object of
    buildEnvData, for an [env] with distinct keys: it is absent when [env]
    switches source maps off (with [false] or with the string ['false']), it
    is what [env] holds in a release build, and it is [true] in every other
    build. *)
Theorem buildEnvData_sourceMap_rule (isVerbose : bool) (platform : string)
    (projectData : IProjectData) (prepareData : PrepareEnv) :
  NoDup (keys (default [] (env prepareData))) ->
  get (buildEnvData isVerbose platform projectData prepareData) "sourceMap"
  = (if sourceMapSwitchedOff (env prepareData) then Single SUndefined
     else if release prepareData
          then get (default [] (env prepareData)) "sourceMap"
          else Single (SBool true))
  ∧ (sourceMapSwitchedOff (env prepareData) = true ->
     "sourceMap"
     ∉ keys (buildEnvData isVerbose platform projectData prepareData)).
Proof.
  intros Hnodup. pose proof (toLowerCase_not_sourceMap platform) as Hlp.
  buildEnvData_stages projectData.
  assert (H0 : get e0 "sourceMap"
               = get (default [] (env prepareData)) "sourceMap").
  { unfold e0. rewrite assign_one, assign_nil by done. by apply get_set_ne. }
  assert (H1 : get e1 "sourceMap" = get e0 "sourceMap").
  { unfold e1. destruct (truthy (getAppDirectoryRelativePath projectData));
      [|done].
    rewrite assign_one. by apply get_set_ne. }
  assert (H2 : get e2 "sourceMap" = get e1 "sourceMap").
  { unfold e2.
    destruct (truthy (getAppResourcesRelativeDirectoryPath projectData));
      [|done].
    rewrite assign_one. by apply get_set_ne. }
  assert (H3 : get e3 "sourceMap" = get e2 "sourceMap") by by apply get_set_ne.
  assert (H4 : get e4 "sourceMap" = get e3 "sourceMap") by by apply get_set_ne.
  assert (H5 : get e5 "sourceMap" = get e4 "sourceMap") by by apply get_set_ne.
  rewrite <- H0, <- H1, <- H2, <- H3, <- H4, <- H5.
  destruct (sourceMapSwitchedOff _).
  - split; [apply get_remove_eq|]. intros _ Hin.
    apply keys_remove in Hin as [Hin _]. done.
  - split; [|done]. destruct (release prepareData); simpl; [done|].
    apply get_set_eq.
Qed.

(** *** The flag names and the arguments *)

Lemma indexOfFrom_first (l : list string) (x : string) (i : Z) :
  x ∈ l ->
  ∃ l1 l2, l = (l1 ++ x :: l2)%list ∧ (x ∉ l1)
           ∧ Env.indexOfFrom l x i = (i + Z.of_nat (length l1))%Z.
Proof.
  revert i. induction l as [|y l IH]; intros i Hin;
    [by apply elem_of_nil in Hin|].
  simpl. destruct (decide (y = x)) as [->|Hne].
  - exists [], l. split; [done|]. split; [apply not_elem_of_nil|simpl; lia].
  - apply elem_of_cons in Hin as [->|Hin]; [done|].
    destruct (IH (i + 1)%Z Hin) as (l1 & l2 & -> & Hl1 & Hidx).
    exists (y :: l1), l2. split; [done|]. split.
    + apply not_elem_of_cons. by split; [apply not_eq_sym|].
    + rewrite Hidx. simpl. lia.
Qed.

Lemma splice1_at (l1 l2 : list string) (x : string) :
  splice1 (Z.of_nat (length l1)) (l1 ++ x :: l2) = (l1 ++ l2)%list.
Proof.
  unfold splice1. rewrite length_app. simpl.
  assert ((Z.of_nat (length l1) <? 0)%Z = false) as -> by (apply Z.ltb_ge; lia).
  rewrite Z.min_l by lia. rewrite Nat2Z.id.
  rewrite take_app_length.
  change (S (length l1)) with (1 + length l1)%nat.
  rewrite Nat.add_comm, <- drop_drop, drop_app_length. done.
Qed.

Lemma filter_others (x : string) (l : list string) :
  x ∉ l -> List.filter (fun k => negb (bool_decide (k = x))) l = l.
Proof.
  induction l as [|y l IH]; [done|].
  intros [Hy Hl]%not_elem_of_cons. simpl.
  rewrite bool_decide_eq_false_2 by (by apply not_eq_sym). simpl.
  by rewrite IH.
Qed.

(** Taking the first occurrence of a name out of a list of distinct names
    is filtering that name out. *)
Lemma splice1_indexOf (l : list string) (x : string) :
  NoDup l -> x ∈ l ->
  splice1 (Env.indexOf l x) l
  = List.filter (fun k => negb (bool_decide (k = x))) l.
Proof.
  intros Hnodup Hin. unfold Env.indexOf.
  destruct (indexOfFrom_first l x 0 Hin) as (l1 & l2 & -> & Hl1 & ->).
  rewrite Z.add_0_l, splice1_at.
  apply NoDup_app in Hnodup as (_ & _ & [Hl2 _]%NoDup_cons).
  rewrite List.filter_app. simpl.
  rewrite bool_decide_eq_true_2 by done. simpl.
  by rewrite !filter_others.
Qed.

(** The other names stay. *)
Lemma splice1_indexOf_keeps (l : list string) (x k : string) :
  x ∈ l -> k ≠ x -> k ∈ l -> k ∈ splice1 (Env.indexOf l x) l.
Proof.
  intros Hin Hne Hk. unfold Env.indexOf.
  destruct (indexOfFrom_first l x 0 Hin) as (l1 & l2 & -> & Hl1 & ->).
  rewrite Z.add_0_l, splice1_at.
  rewrite elem_of_app in *. rewrite elem_of_cons in Hk. intuition congruence.
Qed.

Lemma truthy_in_keys (o : Obj) (key : string) :
  truthyValue (get o key) = true -> key ∈ keys o.
Proof.
  intros Htruthy. apply get_defined_in_keys. intros Heq.
  by rewrite Heq in Htruthy.
Qed.

Lemma prefix_append (p s : string) : String.prefix p (p +:+ s) = true.
Proof.
  induction p as [|c p IH]; simpl; [by destruct s|].
  by destruct (ascii_dec c c).
Qed.

Lemma flagsFor_prefix (item : string) (v : Value) :
  Forall (fun a => String.prefix "--env." a = true) (flagsFor item v).
Proof.
  destruct v as [x|items].
  - destruct x as [| |[]| |]; simpl;
      repeat first [apply Forall_nil_2
                   | apply Forall_cons_2; [apply prefix_append|]].
  - induction items; simpl; constructor; [apply prefix_append|done].
Qed.

Section ParamsFacts.

Variable isWindows : bool.
Variable isAndroidPlatform : bool.
Variable installedWebpackPluginVersion : result (option string).
Variable semverGteCoerced : string -> string -> result bool.

Local Abbreviation checked :=
  (checkedFlagNames isWindows isAndroidPlatform installedWebpackPluginVersion
     semverGteCoerced).
Local Abbreviation params :=
  (buildEnvCommandLineParams isWindows isAndroidPlatform
     installedWebpackPluginVersion semverGteCoerced).

Lemma params_ok_inv (envData : Obj) (isRelease : bool) (args : list string) :
  params envData isRelease = Ok args ->
  ∃ names,
    checked envData isRelease = Ok names
    ∧ args = mjoin ((fun item => flagsFor item (get envData item)) <$> names).
Proof.
  unfold buildEnvCommandLineParams.
  destruct (checked envData isRelease) as [names|e]; simpl; [|done].
  intros [= <-]. by exists names.
Qed.

Lemma params_prefix (envData : Obj) (isRelease : bool) (args : list string) :
  params envData isRelease = Ok args ->
  Forall (fun a => String.prefix "--env." a = true) args.
Proof.
  intros (names & _ & ->)%params_ok_inv.
  induction names as [|item names IH]; simpl; [constructor|].
  apply Forall_app. split; [apply flagsFor_prefix|apply IH].
Qed.

Lemma checked_keeps (envData : Obj) (isRelease : bool) (names : list string)
    (key : string) :
  checked envData isRelease = Ok names ->
  key ≠ "snapshot" -> key ∈ keys envData -> key ∈ names.
Proof.
  unfold checkedFlagNames. intros Hchecked Hne Hkey.
  destruct (truthyValue (get envData "snapshot")) eqn:Hsnapshot.
  - destruct (negb (isRelease && isAndroidPlatform)).
    + injection Hchecked as <-.
      apply splice1_indexOf_keeps; [by apply truthy_in_keys|done..].
    + destruct isWindows; [|by simplify_eq].
      destruct hasWebpackPluginWithWinSnapshotsSupport as [[]|]; simpl in *;
        by simplify_eq.
  - by simplify_eq.
Qed.

Lemma params_has_flag (envData : Obj) (isRelease : bool) (args : list string)
    (key : string) :
  params envData isRelease = Ok args ->
  key ≠ "snapshot" -> get envData key = Single (SBool true) ->
  ("--env." +:+ key) ∈ args.
Proof.
  intros (names & Hchecked & ->)%params_ok_inv Hne Hget.
  apply list_elem_of_join. exists ["--env." +:+ key].
  split; [apply list_elem_of_here|].
  apply list_elem_of_fmap. exists key. split; [by rewrite Hget|].
  apply (checked_keeps envData isRelease); [done..|].
  apply get_defined_in_keys. by rewrite Hget.
Qed.

(** X21.  buildEnvCommandLineParams fails only where a snapshot is asked
    for and can be made on Windows: the snapshot flag is set, the build is a
    release build for Android and the host is Windows.  There it fails when
    the look-up of the installed plugin version or the comparison of the
    versions does, with their error, and when the installed plugin is older
    than 1.3.0, with the request to upgrade the plugin. *)
Theorem buildEnvCommandLineParams_fails_iff (envData : Obj) (isRelease : bool)
    (err : JsError) :
  params envData isRelease = Throw err
  ↔ truthyValue (get envData "snapshot") = true
    ∧ isRelease = true ∧ isAndroidPlatform = true ∧ isWindows = true
    ∧ (installedWebpackPluginVersion = Throw err
       ∨ ∃ version,
           installedWebpackPluginVersion = Ok (Some version)
           ∧ truthy version = true
           ∧ (semverGteCoerced version "1.3.0" = Throw err
              ∨ (semverGteCoerced version "1.3.0" = Ok false
                 ∧ err = OtherError snapshotWarning))).
Proof.
  unfold buildEnvCommandLineParams, checkedFlagNames,
    hasWebpackPluginWithWinSnapshotsSupport.
  destruct (truthyValue (get envData "snapshot")), isRelease,
    isAndroidPlatform, isWindows; simpl;
    try (split; [done|by intros (? & ? & ? & ? & _)]).
  destruct installedWebpackPluginVersion as [[version|]|e]; simpl.
  - destruct (truthy version) eqn:Hversion; simpl.
    + destruct (semverGteCoerced version "1.3.0") as [[]|e] eqn:Hgte; simpl.
      * split; [done|].
        intros (_ & _ & _ & _ & [[=]|(v & [= <-] & _ & [?|[? _]])]);
          congruence.
      * split.
        -- intros [= <-]. do 4 (split; [done|]). right. exists version.
           split; [done|]. split; [done|]. by right.
        -- intros (_ & _ & _ & _ & [[=]|(v & [= <-] & _ & [?|[_ ->]])]);
             [congruence|done].
      * split.
        -- intros [= <-]. do 4 (split; [done|]). right. exists version.
           split; [done|]. split; [done|]. by left.
        -- intros (_ & _ & _ & _ & [[=]|(v & [= <-] & _ & [?|[? _]])]);
             congruence.
    + split; [done|].
      intros (_ & _ & _ & _ & [[=]|(v & [= <-] & ? & _)]). congruence.
  - split; [done|]. by intros (_ & _ & _ & _ & [[=]|(v & [=] & _)]).
  - split.
    + intros [= <-]. do 4 (split; [done|]). by left.
    + by intros (_ & _ & _ & _ & [[= <-]|(v & [=] & _)]).
Qed.

(** X22.  Where snapshots are not available (the build is not a release
    build, or not one for Android), a snapshot flag that is set has no
    effect: the parameters are built, and they are the ones of the
    environment object without its [snapshot] property. *)
Theorem snapshot_flag_is_stripped (envData : Obj) (isRelease : bool) :
  NoDup (keys envData) ->
  truthyValue (get envData "snapshot") = true ->
  isRelease && isAndroidPlatform = false ->
  ∃ args,
    params envData isRelease = Ok args
    ∧ params (remove "snapshot" envData) isRelease = Ok args.
Proof.
  intros Hnodup Hsnapshot Hcan.
  unfold buildEnvCommandLineParams, checkedFlagNames.
  rewrite Hsnapshot, Hcan, get_remove_eq. simpl.
  eexists. split; [done|]. do 2 f_equal.
  rewrite splice1_indexOf by (done || by apply truthy_in_keys).
  rewrite keys_remove_filter.
  induction (keys envData) as [|k ks IH]; simpl; [done|].
  apply NoDup_cons in Hnodup as [_ Hnodup].
  destruct (decide (k = "snapshot")) as [->|Hk].
  - rewrite bool_decide_eq_true_2 by done. simpl. by apply IH.
  - rewrite bool_decide_eq_false_2 by done. simpl.
    rewrite get_remove_ne by by apply not_eq_sym. f_equal. by apply IH.
Qed.

Lemma params_throw (envData : Obj) (isRelease : bool) (version : string) :
  truthyValue (get envData "snapshot") = true ->
  isRelease = true -> isAndroidPlatform = true -> isWindows = true ->
  installedWebpackPluginVersion = Ok (Some version) ->
  truthy version = true ->
  semverGteCoerced version "1.3.0" = Ok false ->
  params envData isRelease = Throw (OtherError snapshotWarning).
Proof.
  intros Hsnapshot -> Handroid Hwindows Hinstalled Hversion Hgte.
  unfold buildEnvCommandLineParams, checkedFlagNames,
    hasWebpackPluginWithWinSnapshotsSupport.
  rewrite Hsnapshot, Handroid, Hwindows, Hinstalled. simpl.
  by rewrite Hversion, Hgte.
Qed.

(** X23.  When the parameters that startWebpackProcess computes from
    buildEnvData are built, they contain [--env.<platform>], the platform
    name in lower case (and not ["snapshot"]), and in a build that is not a
    release build and whose [env] does not switch source maps off they
    contain [--env.sourceMap]. *)
Theorem platform_flag_is_passed (isVerbose : bool) (projectData : IProjectData)
    (prepareEnv : PrepareEnv) (platformData : IPlatformData)
    (prepareData : IPrepareData) (args : list string) :
  envParamsOf isWindows isAndroidPlatform installedWebpackPluginVersion
    semverGteCoerced isVerbose projectData prepareEnv platformData prepareData
  = Ok args ->
  toLowerCase (platformNameLowerCase platformData) ≠ "snapshot" ->
  (("--env." +:+ toLowerCase (platformNameLowerCase platformData)) ∈ args)
  ∧ (release prepareEnv = false ->
     sourceMapSwitchedOff (env prepareEnv) = false ->
     "--env.sourceMap" ∈ args).
Proof.
  unfold envParamsOf. intros Hparams Hplatform. split.
  - apply (params_has_flag _ _ _ _ Hparams Hplatform).
    apply buildEnvData_get_platform.
  - intros Hrelease Hoff.
    apply (params_has_flag _ _ _ "sourceMap" Hparams); [done|].
    unfold buildEnvData. rewrite Hoff, Hrelease. simpl. apply get_set_eq.
Qed.

Section Spawn.

Variable path_join : list string -> string.

Lemma last_Forall (P : string -> Prop) (l : list string) (x : string) :
  Forall P l -> last l = Some x -> P x.
Proof.
  intros Hall Hlast. apply last_Some in Hlast as [l' ->].
  by apply Forall_app in Hall as [_ [Hx _]%Forall_cons].
Qed.

(** X24.  In the argument vector of the subprocess the last argument is
    [--watch] exactly when the preparation asks for watching, no environment
    parameter being mistaken for it, and the first one is the heap limit
    exactly on an x64 host. *)
Theorem spawnArguments_watch_and_heap (envData : Obj) (isRelease : bool)
    (envParams : list string) (nodeMajor : Z) (arch : string)
    (projectData : IProjectData) (watchFlag : bool) :
  params envData isRelease = Ok envParams ->
  (last (spawnArguments path_join nodeMajor arch projectData envParams
           watchFlag)
   = Some "--watch" ↔ watchFlag = true)
  ∧ (head (spawnArguments path_join nodeMajor arch projectData envParams
             watchFlag)
     = Some "--max_old_space_size=4096" ↔ arch = "x64").
Proof.
  intros Hprefix%params_prefix. unfold spawnArguments. split.
  - destruct watchFlag; [by rewrite last_snoc|].
    split; [|done]. intros Hlast. exfalso.
    assert (Hshape : ∃ pre,
              (if decide (arch = "x64")
               then "--max_old_space_size=4096"
                    :: (if (nodeMajor <=? 8)%Z then ["--harmony"] else [])
                       ++ ["--preserve-symlinks";
                           path_join [projectDir projectData; "node_modules";
                                      "webpack"; "bin"; "webpack.js"];
                           "--config="
                           +:+ path_join [projectDir projectData;
                                          "webpack.config.js"]]
                       ++ envParams
               else (if (nodeMajor <=? 8)%Z then ["--harmony"] else [])
                    ++ ["--preserve-symlinks";
                        path_join [projectDir projectData; "node_modules";
                                   "webpack"; "bin"; "webpack.js"];
                        "--config="
                        +:+ path_join [projectDir projectData;
                                       "webpack.config.js"]]
                    ++ envParams)%list
              = (pre ++ ("--config="
                         +:+ path_join [projectDir projectData;
                                        "webpack.config.js"])
                        :: envParams)%list).
    { destruct (decide (arch = "x64")), (nodeMajor <=? 8)%Z.
      - by eexists [_; _; _; _].
      - by eexists [_; _; _].
      - by eexists [_; _; _].
      - by eexists [_; _]. }
    destruct Hshape as [pre Hshape]. rewrite Hshape, last_app_cons in Hlast.
    apply (last_Forall (fun a => a ≠ "--watch") _ _) in Hlast;
      [exact (Hlast eq_refl)|].
    constructor; [by intros [=]|].
    eapply Forall_impl; [exact Hprefix|]. by intros a Ha ->.
  - destruct (decide (arch = "x64")) as [Harch|Harch], watchFlag; simpl;
      try (by split).
    all: split; [|done]; by destruct (nodeMajor <=? 8)%Z.
Qed.

End Spawn.

End ParamsFacts.

(** X20.  buildEnvData passes every property of [env] through unchanged,
    apart from the ones it sets itself: the name of the platform and the six
    names of [reserved]. *)
Theorem buildEnvData_passes_env_through (isVerbose : bool) (platform : string)
    (projectData : IProjectData) (prepareData : PrepareEnv) (key : string) :
  NoDup (keys (default [] (env prepareData))) ->
  key ∉ reserved ->
  key ≠ toLowerCase platform ->
  get (buildEnvData isVerbose platform projectData prepareData) key
  = get (default [] (env prepareData)) key.
Proof.
  intros Hnodup Hkey Hplatform.
  rewrite buildEnvData_get_other by done.
  by rewrite decide_False by by apply not_eq_sym.
Qed.

Lemma buildEnvData_keeps_snapshot (isVerbose : bool) (platform : string)
    (projectData : IProjectData) (prepareData : PrepareEnv) :
  NoDup (keys (default [] (env prepareData))) ->
  truthyValue (get (default [] (env prepareData)) "snapshot") = true ->
  truthyValue
    (get (buildEnvData isVerbose platform projectData prepareData) "snapshot")
  = true.
Proof.
  intros Hnodup Hsnapshot. rewrite buildEnvData_get_other; [|done|].
  - by destruct (decide _).
  - apply (bool_decide_unpack _), I.
Qed.

(** X25.  On Windows, a release build for Android whose [env] sets the
    snapshot flag, with an installed plugin older than 1.3.0, is rejected by
    either compile operation with the request to upgrade the plugin, when no
    subprocess is registered for the platform; no subprocess is spawned and
    the state of the service stays as it was. *)
Theorem outdated_plugin_on_windows_rejects_compile
    (semverGteCoerced : string -> string -> result bool) (isVerbose : bool)
    (projectData : IProjectData) (prepareEnv : PrepareEnv) (version : string)
    (kind : Kind) (platformData : IPlatformData) (prepareData : IPrepareData)
    (σ : State) :
  webpackProcesses σ !! platformNameLowerCase platformData = None ->
  NoDup (keys (default [] (env prepareEnv))) ->
  truthyValue (get (default [] (env prepareEnv)) "snapshot") = true ->
  release prepareEnv = true ->
  truthy version = true ->
  semverGteCoerced version "1.3.0" = Ok false ->
  runCall
    (envParamsOf true true (Ok (Some version)) semverGteCoerced isVerbose
       projectData prepareEnv)
    kind platformData (newCall prepareData) σ
  = ({| prepareData := setWatch kind prepareData; pc := Finished;
        promise := Rejected (OtherError snapshotWarning);
        isFirstWebpackWatchCompilation := true |}, σ).
Proof.
  intros Hnone Hnodup Hsnapshot Hrelease Hversion Hgte. unfold runCall.
  rewrite (stepCall_entry_unregistered _ _ _ _ _ Hnone).
  unfold stepCall at 1. simpl. unfold envParamsOf.
  rewrite (params_throw true true (Ok (Some version)) semverGteCoerced _ _
             version);
    [done|by apply buildEnvData_keeps_snapshot|done..].
Qed.

Lemma buildEnvData_sourceMap_rule_witness :
  NoDup (keys (default [] (env releaseBuild)))
  ∧ get (buildEnvData false "Android" sampleProject releaseBuild) "sourceMap"
    = Single SUndefined
  ∧ ("sourceMap"
     ∉ keys (buildEnvData false "Android" sampleProject releaseBuild)).
Proof.
  assert (Hnodup : NoDup (keys (default [] (env releaseBuild))))
    by apply (bool_decide_unpack _), I.
  split; [exact Hnodup|].
  destruct (buildEnvData_sourceMap_rule false "Android" sampleProject
              releaseBuild Hnodup) as [Hget Hkeys].
  split; [exact Hget|exact (Hkeys eq_refl)].
Defined.

Lemma buildEnvData_passes_env_through_witness :
  NoDup (keys (default [] (env debugBuild)))
  ∧ ("report" ∉ reserved)
  ∧ "report" ≠ toLowerCase "Android"
  ∧ get (buildEnvData false "Android" sampleProject debugBuild) "report"
    = Single (SString "html").
Proof.
  assert (Hnodup : NoDup (keys (default [] (env debugBuild))))
    by apply (bool_decide_unpack _), I.
  assert (Hkey : "report" ∉ reserved) by apply (bool_decide_unpack _), I.
  assert (Hplatform : "report" ≠ toLowerCase "Android") by (by vm_compute).
  split; [exact Hnodup|]. split; [exact Hkey|]. split; [exact Hplatform|].
  exact (buildEnvData_passes_env_through false "Android" sampleProject
           debugBuild "report" Hnodup Hkey Hplatform).
Defined.

Lemma snapshot_flag_is_stripped_witness :
  NoDup (keys (buildEnvData false "android" sampleProject debugBuild))
  ∧ truthyValue
      (get (buildEnvData false "android" sampleProject debugBuild) "snapshot")
    = true
  ∧ ∃ args,
      buildEnvCommandLineParams true true (Ok None) sampleGte
        (buildEnvData false "android" sampleProject debugBuild) false
      = Ok args
      ∧ buildEnvCommandLineParams true true (Ok None) sampleGte
          (remove "snapshot"
             (buildEnvData false "android" sampleProject debugBuild)) false
        = Ok args.
Proof.
  assert (Hnodup :
    NoDup (keys (buildEnvData false "android" sampleProject debugBuild)))
    by apply (bool_decide_unpack _), I.
  split; [exact Hnodup|]. split; [reflexivity|].
  exact (snapshot_flag_is_stripped true true (Ok None) sampleGte _ false Hnodup
           eq_refl eq_refl).
Defined.

Lemma platform_flag_is_passed_witness :
  envParamsOf false true (Ok None) sampleGte false sampleProject debugBuild android
    watchWithHmr
  = Ok ["--env.report=html"; "--env.hiddenSourceMap=a";
        "--env.hiddenSourceMap=b"; "--env.android"; "--env.appPath=app";
        "--env.appResourcesPath=app/App_Resources"; "--env.sourceMap"]
  ∧ toLowerCase (platformNameLowerCase android) ≠ "snapshot"
  ∧ ("--env.android"
     ∈ ["--env.report=html"; "--env.hiddenSourceMap=a";
        "--env.hiddenSourceMap=b"; "--env.android"; "--env.appPath=app";
        "--env.appResourcesPath=app/App_Resources"; "--env.sourceMap"])
  ∧ ("--env.sourceMap"
     ∈ ["--env.report=html"; "--env.hiddenSourceMap=a";
        "--env.hiddenSourceMap=b"; "--env.android"; "--env.appPath=app";
        "--env.appResourcesPath=app/App_Resources"; "--env.sourceMap"]).
Proof.
  assert (Hparams :
    envParamsOf false true (Ok None) sampleGte false sampleProject debugBuild
      android watchWithHmr
    = Ok ["--env.report=html"; "--env.hiddenSourceMap=a";
          "--env.hiddenSourceMap=b"; "--env.android"; "--env.appPath=app";
          "--env.appResourcesPath=app/App_Resources"; "--env.sourceMap"])
    by reflexivity.
  assert (Hplatform : toLowerCase (platformNameLowerCase android) ≠ "snapshot")
    by (by vm_compute).
  split; [exact Hparams|]. split; [exact Hplatform|].
  destruct (platform_flag_is_passed false true (Ok None) sampleGte false
              sampleProject debugBuild android watchWithHmr _ Hparams Hplatform)
    as [Hflag HsourceMap].
  split; [exact Hflag|exact (HsourceMap eq_refl eq_refl)].
Defined.

Lemma spawnArguments_watch_and_heap_witness :
  buildEnvCommandLineParams false true (Ok None) sampleGte
    (buildEnvData false "android" sampleProject debugBuild) false
  = Ok ["--env.report=html"; "--env.hiddenSourceMap=a";
        "--env.hiddenSourceMap=b"; "--env.android"; "--env.appPath=app";
        "--env.appResourcesPath=app/App_Resources"; "--env.sourceMap"]
  ∧ (last (spawnArguments posixJoin 8 "x64" sampleProject
             ["--env.report=html"; "--env.hiddenSourceMap=a";
              "--env.hiddenSourceMap=b"; "--env.android"; "--env.appPath=app";
              "--env.appResourcesPath=app/App_Resources"; "--env.sourceMap"]
             true)
     = Some "--watch" ↔ true = true)
  ∧ (head (spawnArguments posixJoin 8 "x64" sampleProject
             ["--env.report=html"; "--env.hiddenSourceMap=a";
              "--env.hiddenSourceMap=b"; "--env.android"; "--env.appPath=app";
              "--env.appResourcesPath=app/App_Resources"; "--env.sourceMap"]
             true)
     = Some "--max_old_space_size=4096" ↔ "x64" = "x64").
Proof.
  assert (Hparams :
    buildEnvCommandLineParams false true (Ok None) sampleGte
      (buildEnvData false "android" sampleProject debugBuild) false
    = Ok ["--env.report=html"; "--env.hiddenSourceMap=a";
          "--env.hiddenSourceMap=b"; "--env.android"; "--env.appPath=app";
          "--env.appResourcesPath=app/App_Resources"; "--env.sourceMap"])
    by reflexivity.
  split; [exact Hparams|].
  exact (spawnArguments_watch_and_heap false true (Ok None) sampleGte posixJoin _
           false _ 8 "x64" sampleProject true Hparams).
Defined.

Lemma outdated_plugin_on_windows_rejects_compile_witness :
  webpackProcesses initialState !! platformNameLowerCase android = None
  ∧ NoDup (keys (default [] (env releaseBuild)))
  ∧ truthyValue (get (default [] (env releaseBuild)) "snapshot") = true
  ∧ release releaseBuild = true
  ∧ truthy "1.2.0" = true
  ∧ sampleGte "1.2.0" "1.3.0" = Ok false
  ∧ runCall
      (envParamsOf true true (Ok (Some "1.2.0")) sampleGte false sampleProject
         releaseBuild)
      WithoutWatch android (newCall oneShot) initialState
    = ({| prepareData := oneShot; pc := Finished;
          promise := Rejected (OtherError snapshotWarning);
          isFirstWebpackWatchCompilation := true |}, initialState).
Proof.
  assert (Hnodup : NoDup (keys (default [] (env releaseBuild))))
    by apply (bool_decide_unpack _), I.
  split; [reflexivity|]. split; [exact Hnodup|].
  do 4 (split; [reflexivity|]).
  exact (outdated_plugin_on_windows_rejects_compile sampleGte false
           sampleProject releaseBuild "1.2.0" WithoutWatch android oneShot
           initialState eq_refl Hnodup eq_refl eq_refl eq_refl eq_refl).
Defined.
